(** * The NTT-CIS load-balancer driver ([libcloud/loadbalancer/drivers/nttcis.py])

    A shallow embedding of the driver class [NttCisLBDriver]: the XML
    requests it builds, the way it reads the XML answers, and the records
    it returns.  Python objects that can hold several types (a port that
    is an [int], a [str] or [None]) are values of [value]; XML trees are
    the element trees of [xml.etree.ElementTree]; the connection is a
    function from the requests sent so far and the current request to an
    answer or an exception. *)

From Stdlib Require Import ZArith Ascii String List Lia.
From stdpp Require Import base option list strings pretty gmap.

Local Open Scope Z_scope.
Set Warnings "-register-all".

Local Open Scope string_scope.

(** ** Python values and the string methods the driver calls *)

(** Modelled from the spec: the "generic state enum"
    [libcloud.loadbalancer.types.State], whose declaration is not among the
    sources; the driver names RUNNING, PENDING, ERROR and UNKNOWN. *)
Inductive State := RUNNING | PENDING | UNKNOWN | ERROR | DELETED.

(** Modelled from the spec: the balancing methods
    [libcloud.loadbalancer.base.Algorithm], whose declaration is not among
    the sources; the driver's table names seven of them. *)
Inductive Algorithm :=
  | RANDOM | ROUND_ROBIN | LEAST_CONNECTIONS | WEIGHTED_ROUND_ROBIN
  | WEIGHTED_LEAST_CONNECTIONS | SHORTEST_RESPONSE | PERSISTENT_IP
  | LEAST_CONNECTIONS_MEMBER | LEAST_CONNECTIONS_NODE
  | OBSERVED_MEMBER | OBSERVED_NODE | PREDICTIVE_MEMBER | PREDICTIVE_NODE.

(** Modelled from the spec: [libcloud.loadbalancer.base.DEFAULT_ALGORITHM];
    the docstring of [create_balancer] gives its value ("defaults to
    ROUND_ROBIN"). *)
Definition DEFAULT_ALGORITHM : Algorithm := ROUND_ROBIN.

#[global] Instance State_eq_dec : EqDecision State.
Proof. solve_decision. Defined.

#[global] Instance Algorithm_eq_dec : EqDecision Algorithm.
Proof. solve_decision. Defined.

(** A Python object as the driver handles them in arguments and record
    fields: [None], a [str], an [int] or a [State] constant. *)
Inductive value :=
  | VNone
  | VStr (s : string)
  | VInt (z : Z)
  | VState (st : State).

#[global] Instance value_eq_dec : EqDecision value.
Proof. solve_decision. Defined.

(** The result of [findtext] or of [dict.get] ([None] or a [str]) as a
    Python object. *)
Definition of_text (t : option string) : value :=
  match t with
  | None => VNone
  | Some s => VStr s
  end.

Definition State_name (st : State) : string :=
  match st with
  | RUNNING => "0" | PENDING => "1" | UNKNOWN => "2" | ERROR => "3"
  | DELETED => "4"
  end.

(** Python's [str(x)]: a string is itself, an integer is written in
    decimal, [None] is the four letters [None]; the [State] constants are
    the integers 0 to 4. *)
Definition str (v : value) : string :=
  match v with
  | VNone => "None"
  | VStr s => s
  | VInt z => pretty z
  | VState st => State_name st
  end.

(** [x is not None] *)
Definition is_not_None (v : value) : bool :=
  match v with
  | VNone => false
  | _ => true
  end.

(** [x == n] for an integer literal [n]: only an [int] equals it. *)
Definition eq_int (v : value) (n : Z) : bool :=
  match v with
  | VInt z => bool_decide (z = n)
  | _ => false
  end.

Inductive exn :=
  | ValueError (msg : string)
  | KeyError
  | AttributeError
  | IndexError
  | TypeError (msg : string)
  | ImportError (msg : string)
  | IOError (msg : string)
  | ConnectionError (msg : string).

Inductive result (A : Type) :=
  | OK (a : A)
  | Raise (e : exn).
Arguments OK {A} a.
Arguments Raise {A} e.

Module PyStr.

(** [s.startswith(p)] *)
Fixpoint startswith (p s : string) : bool :=
  match p, s with
  | EmptyString, _ => true
  | String a p', String b s' => if Ascii.eqb a b then startswith p' s' else false
  | String _ _, EmptyString => false
  end.

(** [s.replace(old, new)] for a non-empty [old]: scan from the left;
    at a position where [old] starts, write [new] and skip the rest of
    that occurrence ([skip] counts the characters still to skip). *)
Fixpoint replace_from (old new : string) (skip : nat) (s : string) : string :=
  match s with
  | EmptyString => EmptyString
  | String c s' =>
      match skip with
      | S k => replace_from old new k s'
      | O =>
          if startswith old s
          then new +:+ replace_from old new (Nat.pred (String.length old)) s'
          else String c (replace_from old new O s')
      end
  end.

(** [s.replace("", new)]: [new] before every character and at the end. *)
Fixpoint intersperse (new s : string) : string :=
  match s with
  | EmptyString => new
  | String c s' => new +:+ String c (intersperse new s')
  end.

Definition replace (old new s : string) : string :=
  match old with
  | EmptyString => intersperse new s
  | _ => replace_from old new O s
  end.

Fixpoint contains_char (c : ascii) (s : string) : bool :=
  match s with
  | EmptyString => false
  | String a s' => if Ascii.eqb a c then true else contains_char c s'
  end.

(** The characters [int()] skips as white space around an ASCII text
    (the interpreter's [Py_ISSPACE]): tab to carriage return, and the
    space. *)
Definition Py_ISSPACE (c : ascii) : bool :=
  let n := nat_of_ascii c in
  ((9 <=? n) && (n <=? 13) || (n =? 32))%nat.

Fixpoint trim_left (s : string) : string :=
  match s with
  | EmptyString => EmptyString
  | String c s' => if Py_ISSPACE c then trim_left s' else s
  end.

Fixpoint trim_right (s : string) : string :=
  match s with
  | EmptyString => EmptyString
  | String c s' =>
      match trim_right s' with
      | EmptyString => if Py_ISSPACE c then EmptyString else String c EmptyString
      | r => String c r
      end
  end.

(** The text without the white space [int()] skips before and after. *)
Definition trim (s : string) : string := trim_right (trim_left s).

Definition digit (c : ascii) : option Z :=
  let n := nat_of_ascii c in
  if ((48 <=? n) && (n <=? 57))%nat then Some (Z.of_nat n - 48) else None.

(** The digits of a decimal literal after its first digit: a single
    underscore may stand between two digits. *)
Fixpoint digits (acc : Z) (s : string) : option Z :=
  match s with
  | EmptyString => Some acc
  | String c s' =>
      match digit c with
      | Some d => digits (10 * acc + d) s'
      | None =>
          if Ascii.eqb c "_"
          then match s' with
               | String c' s'' =>
                   match digit c' with
                   | Some d => digits (10 * acc + d) s''
                   | None => None
                   end
               | EmptyString => None
               end
          else None
      end
  end.

Definition unsigned (s : string) : option Z :=
  match s with
  | String c s' =>
      match digit c with
      | Some d => digits d s'
      | None => None
      end
  | EmptyString => None
  end.

(** The integer a text spells in base ten, when all its characters are
    ASCII: white space around, an optional sign, then digits. *)
Definition literal (s : string) : option Z :=
  let body := trim s in
  match body with
  | String "-" r => Z.opp <$> unsigned r
  | String "+" r => unsigned r
  | _ => unsigned body
  end.

(** The double quote character. *)
Definition dquote : ascii := ascii_of_nat 34.

Fixpoint ascii_only (s : string) : bool :=
  match s with
  | EmptyString => true
  | String c s' => (nat_of_ascii c <? 128)%nat && ascii_only s'
  end.

(** One hexadecimal digit, in lower case. *)
Definition hex (n : nat) : ascii :=
  if (n <? 10)%nat then ascii_of_nat (48 + n) else ascii_of_nat (87 + n).

(** One character of [repr(s)] inside the quotes [quote]. *)
Definition repr_char (quote c : ascii) : string :=
  let n := nat_of_ascii c in
  if Ascii.eqb c "\" then String "\" (String "\" EmptyString)
  else if Ascii.eqb c quote then String "\" (String quote EmptyString)
  else if (n =? 9)%nat then String "\" (String "t" EmptyString)
  else if (n =? 10)%nat then String "\" (String "n" EmptyString)
  else if (n =? 13)%nat then String "\" (String "r" EmptyString)
  else if ((n <? 32) || (n =? 127))%nat
  then String "\" (String "x" (String (hex (n / 16)) (String (hex (n mod 16)) EmptyString)))
  else String c EmptyString.

Fixpoint repr_chars (quote : ascii) (s : string) : string :=
  match s with
  | EmptyString => EmptyString
  | String c s' => repr_char quote c +:+ repr_chars quote s'
  end.

(** [repr(s)] for a text of ASCII characters: in single quotes, or in
    double quotes when the text has a single quote and no double quote. *)
Definition repr (s : string) : string :=
  let quote : ascii :=
    if contains_char "'" s && negb (contains_char dquote s) then dquote else "'"%char in
  String quote (repr_chars quote s +:+ String quote EmptyString).

(** [int(s)] for a [str] in base ten.  For a text of at most 4300 ASCII
    characters the result is the integer the text spells, or [ValueError]
    with the first 200 characters of [repr(s)].  The interpreter also
    reads white space and digits beyond ASCII and caps the number of
    digits it converts; on every other text the result is what the
    interpreter gives, [int_other]. *)
Definition int (int_other : string -> result Z) (s : string) : result Z :=
  if ascii_only s && (N.of_nat (String.length s) <=? 4300)%N
  then
    match literal s with
    | Some z => OK z
    | None =>
        Raise (ValueError
          ("invalid literal for int() with base 10: " +:+ substring 0 200 (repr s)))
    end
  else int_other s.

End PyStr.

(** ** Element trees ([xml.etree.ElementTree], imported as [ET]) *)

Module ET.

(** An element: its tag, its attributes (a request tree may carry an
    attribute whose value is [None] until it is written out), its text and
    its children in document order. *)
Inductive Element := mkElement {
  tag : string;
  attrib : gmap string (option string);
  text : option string;
  children : list Element
}.

(** [ET.Element(tag, attrib)] *)
Definition Element_ (tag : string) (attrib : gmap string (option string)) : Element :=
  mkElement tag attrib None [].

(** [ET.SubElement(parent, tag, attrib).text = txt]: a new last child. *)
Definition SubElement (parent : Element) (tag : string)
    (attrib : gmap string (option string)) (txt : option string) : Element :=
  mkElement parent.(ET.tag) parent.(ET.attrib) parent.(ET.text)
    (parent.(children) ++ [mkElement tag attrib txt []])%list.

(** [elem.set(key, v)] *)
Definition set (elem : Element) (key : string) (v : option string) : Element :=
  mkElement elem.(tag) (<[key := v]> elem.(attrib)) elem.(text) elem.(children).

(** [elem.get(key)]: [None] for a missing attribute. *)
Definition get (elem : Element) (key : string) : option string :=
  mjoin (elem.(attrib) !! key).

Definition has_tag (path : string) (e : Element) : bool :=
  String.eqb e.(tag) path.

(** [elem.findall(path)] for a path that is one tag name: the children
    with that tag, in document order. *)
Definition findall (elem : Element) (path : string) : list Element :=
  List.filter (has_tag path) elem.(children).

(** [elem.find(path)]: the first such child, or [None]. *)
Definition find (elem : Element) (path : string) : option Element :=
  List.find (has_tag path) elem.(children).

(** [elem.findtext(path)]: the text of the first such child, the empty
    string when that child has no text, [None] when there is none. *)
Definition findtext (elem : Element) (path : string) : option string :=
  match find elem path with
  | Some c => Some (default "" c.(text))
  | None => None
  end.

(** Whether the serializer can write the tree: it refuses an attribute
    whose value is [None]. *)
Fixpoint serializable (e : Element) : bool :=
  match e with
  | mkElement _ a _ cs =>
      bool_decide (map_Forall (fun _ v => is_Some v) a) && forallb serializable cs
  end.

(** [ET.tostring(elem)]: the request body.  The bytes are determined by
    the tree, so the body is kept as the tree; writing an attribute that
    is [None] raises [TypeError]. *)
Definition tostring (e : Element) : result Element :=
  if serializable e then OK e
  else Raise (TypeError "cannot serialize None (type NoneType)").

End ET.

(** ** [libcloud.utils.xml] *)

Module Xml.

(** Modelled from the spec: [libcloud.utils.xml.fixxpath], part of the
    "generic findtext/findall/xpath helper library" that is not among the
    sources.  It qualifies a tag name with the namespace the way
    ElementTree writes qualified names; every path the driver passes is a
    single tag name. *)
Definition fixxpath (xpath namespace : string) : string :=
  match namespace with
  | EmptyString => xpath
  | _ => "{" +:+ namespace +:+ "}" +:+ xpath
  end.

(** Modelled from the spec: [libcloud.utils.xml.findtext], of the same
    helper library: the text of the first child with the qualified tag
    (the empty string for a child without text), [None] without such a
    child. *)
Definition findtext (element : ET.Element) (xpath namespace : string) : option string :=
  ET.findtext element (fixxpath xpath namespace).

(** Modelled from the spec: [libcloud.utils.xml.findall], of the same
    helper library: the children with the qualified tag. *)
Definition findall (element : ET.Element) (xpath namespace : string) : list ET.Element :=
  ET.findall element (fixxpath xpath namespace).

End Xml.


(** ** Python dictionaries whose insertion order matters *)

Module Dict.

Definition t (K V : Type) : Type := list (K * V).

(** [d[k] = v]: overwrite in place, or append a new key. *)
Fixpoint set {K V} `{EqDecision K} (k : K) (v : V) (d : t K V) : t K V :=
  match d with
  | [] => [(k, v)]
  | (k', v') :: d' =>
      if decide (k = k') then (k', v) :: d' else (k', v') :: set k v d'
  end.

(** [d[k]], [None] standing for [KeyError]. *)
Definition get {K V} `{EqDecision K} (k : K) (d : t K V) : option V :=
  snd <$> List.find (fun kv => bool_decide (kv.1 = k)) d.

(** Modelled from the spec: [libcloud.utils.misc.reverse_dict], which is
    not among the sources: the dictionary read from values to keys, a
    later entry overwriting an earlier one with the same value. *)
Definition reverse_dict {K V} `{EqDecision V} (d : t K V) : t V K :=
  fold_left (fun acc kv => set kv.2 kv.1 acc) d [].

End Dict.

(** ** The records of [libcloud.common.nttcis] and [libcloud.loadbalancer.base]

    The classes are plain attribute holders.  A field read from XML or
    from an [info] element is [None] or a string; [status] and [port]
    hold whatever the caller stored. *)

Module NttCisPool.
(** Modelled from the spec: the DTO [NttCisPool] (a pool), whose class is not
    among the sources, with the fields the driver passes to it. *)
Record t := mk {
  id : option string;
  name : option string;
  description : option string;
  status : value;
  load_balance_method : option string;
  health_monitor_id : option string;
  service_down_action : option string;
  slow_ramp_time : option string
}.
End NttCisPool.

Module NttCisPoolMember.
(** Modelled from the spec: the DTO [NttCisPoolMember] (a pool member), whose class is not
    among the sources, with the fields the driver passes to it. *)
Record t := mk {
  id : option string;
  name : option string;
  status : value;
  ip : option string;
  port : value;
  node_id : option string
}.
End NttCisPoolMember.

Module NttCisVIPNode.
(** Modelled from the spec: the DTO [NttCisVIPNode] (a VIP node), whose class is not
    among the sources, with the fields the driver passes to it. *)
Record t := mk {
  id : option string;
  name : option string;
  status : value;
  ip : option string;
  connection_limit : option string;
  connection_rate_limit : option string;
  health_monitor : option string
}.
(** Modelled from the spec: the constructor called with [id], [name],
    [status] and [ip] only, as [ex_create_node] does; the class, which is
    not among the sources, fills the two limits with its defaults and
    leaves the health monitor [None]. *)
Definition mk4 (id name : option string) (status : value) (ip : option string) : t :=
  mk id name status ip (Some "10000") (Some "10000") None.
End NttCisVIPNode.

Module NttCisVirtualListener.
(** Modelled from the spec: the DTO [NttCisVirtualListener] (a virtual listener), whose class is not
    among the sources, with the fields the driver passes to it. *)
Record t := mk {
  id : option string;
  name : option string;
  status : value;
  ip : option string
}.
End NttCisVirtualListener.

Module NttCisVirtualListenerCompatibility.
(** Modelled from the spec: the DTO [NttCisVirtualListenerCompatibility] (a virtual-listener compatibility), whose class is not
    among the sources, with the fields the driver passes to it. *)
Record t := mk {
  type : option string;
  protocol : option string
}.
End NttCisVirtualListenerCompatibility.

Module NttCisPersistenceProfile.
(** Modelled from the spec: the DTO [NttCisPersistenceProfile] (a persistence profile), whose class is not
    among the sources, with the fields the driver passes to it. *)
Record t := mk {
  id : option string;
  fallback_compatible : bool;
  name : option string;
  compatible_listeners : list NttCisVirtualListenerCompatibility.t
}.
End NttCisPersistenceProfile.

Module NttCisDefaultiRule.
(** Modelled from the spec: the DTO [NttCisDefaultiRule] (an iRule), whose class is not
    among the sources, with the fields the driver passes to it. *)
Record t := mk {
  id : option string;
  name : option string;
  compatible_listeners : list NttCisVirtualListenerCompatibility.t
}.
End NttCisDefaultiRule.

Module NttCisDefaultHealthMonitor.
(** Modelled from the spec: the DTO [NttCisDefaultHealthMonitor] (a health monitor), whose class is not
    among the sources, with the fields the driver passes to it. *)
Record t := mk {
  id : option string;
  name : option string;
  node_compatible : bool;
  pool_compatible : bool
}.
End NttCisDefaultHealthMonitor.

(** Modelled from the spec: [libcloud.loadbalancer.base.LoadBalancer],
    with the fields the driver passes; the [driver] field, a reference
    back to the driver object, is left out. *)
Module LoadBalancer.
Record t := mk {
  id : option string;
  name : option string;
  state : State;
  ip : option string;
  port : value;
  extra : gmap string (option string)
}.
End LoadBalancer.

(** Modelled from the spec: [libcloud.loadbalancer.base.Member], with the
    fields the driver reads. *)
Module Member.
Record t := mk {
  id : option string;
  ip : option string;
  port : value
}.
End Member.

Module Node.
(** Modelled from the spec: a compute node handed to [create_balancer] in
    place of a [Member]; its class is not among the sources, and the
    record has the two attributes the driver reads. *)
Record t := mk {
  name : string;
  private_ips : list string
}.
End Node.

(** What [ex_create_pool_member] reads of its [node] argument: [node.id]
    and [node.ip].  [create_balancer] passes it a [Member] or a
    [NttCisVIPNode]. *)
Class NodeLike (A : Type) := {
  node_id_of : A -> option string;
  node_ip_of : A -> option string
}.

#[global] Instance NodeLike_VIPNode : NodeLike NttCisVIPNode.t :=
  {| node_id_of := NttCisVIPNode.id; node_ip_of := NttCisVIPNode.ip |}.

#[global] Instance NodeLike_Member : NodeLike Member.t :=
  {| node_id_of := Member.id; node_ip_of := Member.ip |}.

(** ** The connection and the monad of driver methods *)

(** One call of [connection.request_with_orgId_api_2]. *)
Record Request := mkRequest {
  action : string;
  method : string;
  params : option (gmap string string);
  data : option ET.Element
}.

(** A driver method runs on the list of requests sent so far and either
    returns a value with the extended list or raises. *)
Definition M (A : Type) : Type := list Request -> result (A * list Request).

Definition ret {A} (a : A) : M A := fun sent => OK (a, sent).

Definition bind {A B} (m : M A) (k : A -> M B) : M B :=
  fun sent =>
    match m sent with
    | OK (a, sent') => k a sent'
    | Raise e => Raise e
    end.

Definition raise {A} (e : exn) : M A := fun _ => Raise e.

Definition lift {A} (r : result A) : M A :=
  fun sent =>
    match r with
    | OK a => OK (a, sent)
    | Raise e => Raise e
    end.

Declare Scope driver_scope.
Delimit Scope driver_scope with driver.
Notation "'do' x <- m ; k" := (bind m (fun x => k))
  (at level 10, x name, m at level 100, k at level 200) : driver_scope.
Notation "'do_' m ; k" := (bind m (fun _ => k))
  (at level 10, m at level 100, k at level 200) : driver_scope.

(** Sequencing of plain computations that may raise. *)
Definition result_bind {A B} (r : result A) (k : A -> result B) : result B :=
  match r with
  | OK a => k a
  | Raise e => Raise e
  end.
Notation "'try' x <- r ; k" := (result_bind r (fun x => k))
  (at level 10, x name, r at level 100, k at level 200) : driver_scope.

(** The OpenSSL calls of the two import methods: the certificate, or the
    private key, of a PEM file written out again as PEM text. *)
Record Crypto := mkCrypto {
  certificate_pem : string -> result string;
  privatekey_pem : string -> result string
}.

(** The driver object: the one attribute its methods read. *)
Record Driver := mkDriver {
  network_domain_id : option string
}.

(** A member handed to [create_balancer]: a [Member], or any other
    object, of which the driver then reads [name] and [private_ips]. *)
Inductive member_arg :=
  | AMember (m : Member.t)
  | ANode (n : Node.t).

(** [a == b] between the result of [dict.get] and a string literal. *)
Definition str_eq (a : option string) (b : string) : bool :=
  bool_decide (a = Some b).

(** [x in ["IN_PROGRESS", "OK"]] *)
Definition in_list (x : option string) (l : list string) : bool :=
  bool_decide (x ∈ (Some <$> l)).

(** [obj.get(key)] on the result of [find], which may be [None]. *)
Definition get_of (obj : option ET.Element) (key : string) : result (option string) :=
  match obj with
  | Some e => OK (ET.get e key)
  | None => Raise AttributeError
  end.

(** ** The driver ([class NttCisLBDriver]) *)

Section NttCisLBDriver.

(** [libcloud.common.nttcis.TYPES_URN], the XML namespace of the API. *)
Variable TYPES_URN : string.

(** The service behind the connection: its answer to a request, given the
    requests it has received before, is a parsed document or an exception
    of the transport. *)
Variable server : list Request -> Request -> result ET.Element.

(** The [OpenSSL] package, [None] when it cannot be imported. *)
Variable OpenSSL : option Crypto.

(** The interpreter's [int()] on the texts [PyStr.int] leaves to it. *)
Variable int_other : string -> result Z.

(** The type of the objects polled by [wait_for_state], and the
    connection's [wait_for_state] method. *)
Variable Obj : Type.
Variable connection_wait_for_state :
  value -> (list value -> Dict.t string value -> M Obj) -> value -> value ->
  list value -> Dict.t string value -> M Obj.

Local Open Scope driver_scope.

(** Modelled from the spec: [NttCisConnection.request_with_orgId_api_2(...).object],
    the "generic HTTP connection class" that is not among the sources.  The
    request goes to the service and is recorded; the parsed answer comes
    back, or the transport's exception propagates. *)
Definition request_with_orgId_api_2 (action : string)
    (params : option (gmap string string)) (data : option ET.Element)
    (method : string) : M ET.Element :=
  fun sent =>
    let req := mkRequest action method params data in
    match server sent req with
    | OK object => OK (object, (sent ++ [req])%list)
    | Raise e => Raise e
    end.

Definition _VALUE_TO_ALGORITHM_MAP : Dict.t string Algorithm :=
  [ ("ROUND_ROBIN", ROUND_ROBIN);
    ("LEAST_CONNECTIONS_MEMBER", LEAST_CONNECTIONS_MEMBER);
    ("LEAST_CONNECTIONS_NODE", LEAST_CONNECTIONS_NODE);
    ("OBSERVED_MEMBER", OBSERVED_MEMBER);
    ("OBSERVED_NODE", OBSERVED_NODE);
    ("PREDICTIVE_MEMBER", PREDICTIVE_MEMBER);
    ("PREDICTIVE_NODE", PREDICTIVE_NODE) ].

Definition _ALGORITHM_TO_VALUE_MAP : Dict.t Algorithm string :=
  Dict.reverse_dict _VALUE_TO_ALGORITHM_MAP.

Definition _VALUE_TO_STATE_MAP : gmap string State :=
  list_to_map
    [ ("NORMAL", RUNNING);
      ("PENDING_ADD", PENDING);
      ("PENDING_CHANGE", PENDING);
      ("PENDING_DELETE", PENDING);
      ("FAILED_ADD", ERROR);
      ("FAILED_CHANGE", ERROR);
      ("FAILED_DELETE", ERROR);
      ("REQUIRES_SUPPORT", ERROR) ].

(** [self._VALUE_TO_STATE_MAP.get(key, State.UNKNOWN)], where [key] is the
    result of [findtext] and may be [None]. *)
Definition _VALUE_TO_STATE_MAP_get (key : option string) : State :=
  default UNKNOWN (key ≫= fun k => _VALUE_TO_STATE_MAP !! k).

Definition ex_create_pool_member {A} `{NodeLike A}
    (pool : NttCisPool.t) (node : A) (port : value) : M NttCisPoolMember.t :=
  let create_pool_m := ET.Element_ "addPoolMember" {[ "xmlns" := Some TYPES_URN ]} in
  let create_pool_m := ET.SubElement create_pool_m "poolId" ∅ pool.(NttCisPool.id) in
  let create_pool_m := ET.SubElement create_pool_m "nodeId" ∅ (node_id_of node) in
  let create_pool_m :=
    if is_not_None port
    then ET.SubElement create_pool_m "port" ∅ (Some (str port))
    else create_pool_m in
  let create_pool_m := ET.SubElement create_pool_m "status" ∅ (Some "ENABLED") in
  do body <- lift (ET.tostring create_pool_m);
  do response <- request_with_orgId_api_2 "networkDomainVip/addPoolMember" None (Some body) "POST";
  let '(member_id, node_name) :=
    fold_left
      (fun '(member_id, node_name) info =>
         let member_id :=
           if str_eq (ET.get info "name") "poolMemberId"
           then ET.get info "value" else member_id in
         let node_name :=
           if str_eq (ET.get info "name") "nodeName"
           then ET.get info "value" else node_name in
         (member_id, node_name))
      (Xml.findall response "info" TYPES_URN) (None, None) in
  ret (NttCisPoolMember.mk member_id node_name (VState RUNNING)
         (node_ip_of node) port (node_id_of node)).

Definition ex_create_node (network_domain_id : option string) (name : string)
    (ip : option string) (ex_description : option string)
    (connection_limit connection_rate_limit : value) : M NttCisVIPNode.t :=
  let create_node_elm := ET.Element_ "createNode" {[ "xmlns" := Some TYPES_URN ]} in
  let create_node_elm := ET.SubElement create_node_elm "networkDomainId" ∅ network_domain_id in
  let create_node_elm := ET.SubElement create_node_elm "name" ∅ (Some name) in
  let create_node_elm :=
    match ex_description with
    | Some _ => ET.SubElement create_node_elm "description" ∅ (Some (str (of_text ex_description)))
    | None => create_node_elm
    end in
  let create_node_elm := ET.SubElement create_node_elm "ipv4Address" ∅ ip in
  let create_node_elm := ET.SubElement create_node_elm "status" ∅ (Some "ENABLED") in
  let create_node_elm :=
    ET.SubElement create_node_elm "connectionLimit" ∅ (Some (str connection_limit)) in
  let create_node_elm :=
    ET.SubElement create_node_elm "connectionRateLimit" ∅ (Some (str connection_rate_limit)) in
  do body <- lift (ET.tostring create_node_elm);
  do response <- request_with_orgId_api_2 "networkDomainVip/createNode" None (Some body) "POST";
  let '(node_id, node_name) :=
    fold_left
      (fun '(node_id, node_name) info =>
         let node_id :=
           if str_eq (ET.get info "name") "nodeId"
           then ET.get info "value" else node_id in
         let node_name :=
           if str_eq (ET.get info "name") "name"
           then ET.get info "value" else node_name in
         (node_id, node_name))
      (Xml.findall response "info" TYPES_URN) (None, None) in
  ret (NttCisVIPNode.mk4 node_id node_name (VState RUNNING) ip).

Definition ex_set_node_state (node : NttCisVIPNode.t) (enabled : bool) : M NttCisVIPNode.t :=
  let create_node_elm := ET.Element_ "editNode" {[ "xmlns" := Some TYPES_URN ]} in
  let create_node_elm :=
    ET.SubElement create_node_elm "status" ∅
      (Some (if enabled then "ENABLED" else "DISABLED")) in
  do body <- lift (ET.tostring create_node_elm);
  do_ request_with_orgId_api_2 "networkDomainVip/editNode" None (Some body) "POST";
  ret node.

Definition ex_create_pool (network_domain_id : option string) (name : string)
    (balancer_method : value) (ex_description : option string)
    (health_monitors : option (list NttCisDefaultHealthMonitor.t))
    (service_down_action : option string) (slow_ramp_time : value) : M NttCisPool.t :=
  (* Names cannot contain spaces. *)
  let _ := PyStr.replace " " "_" name in
  let create_node_elm := ET.Element_ "createPool" {[ "xmlns" := Some TYPES_URN ]} in
  let create_node_elm := ET.SubElement create_node_elm "networkDomainId" ∅ network_domain_id in
  let create_node_elm := ET.SubElement create_node_elm "name" ∅ (Some name) in
  let create_node_elm :=
    ET.SubElement create_node_elm "description" ∅ (Some (str (of_text ex_description))) in
  let create_node_elm :=
    ET.SubElement create_node_elm "loadBalanceMethod" ∅ (Some (str balancer_method)) in
  let create_node_elm :=
    match health_monitors with
    | Some monitors =>
        fold_left
          (fun elm monitor =>
             ET.SubElement elm "healthMonitorId" ∅
               (Some (str (of_text monitor.(NttCisDefaultHealthMonitor.id)))))
          monitors create_node_elm
    | None => create_node_elm
    end in
  let create_node_elm :=
    ET.SubElement create_node_elm "serviceDownAction" ∅ service_down_action in
  let create_node_elm :=
    ET.SubElement create_node_elm "slowRampTime" ∅ (Some (str slow_ramp_time)) in
  do body <- lift (ET.tostring create_node_elm);
  do response <- request_with_orgId_api_2 "networkDomainVip/createPool" None (Some body) "POST";
  let pool_id :=
    fold_left
      (fun pool_id info =>
         if str_eq (ET.get info "name") "poolId"
         then ET.get info "value" else pool_id)
      (Xml.findall response "info" TYPES_URN) None in
  ret (NttCisPool.mk pool_id (Some name) ex_description (VState RUNNING)
         (Some (str balancer_method)) None service_down_action
         (Some (str slow_ramp_time))).

Definition ex_create_virtual_listener (network_domain_id : option string)
    (name : string) (ex_description : option string) (port : value)
    (pool : option NttCisPool.t) (listener_ip_address : option string)
    (persistence_profile fallback_persistence_profile : option NttCisPersistenceProfile.t)
    (irule : option NttCisDefaultiRule.t) (protocol : string)
    (optimization_profile : option string)
    (connection_limit connection_rate_limit : value)
    (source_port_preservation : string) : M NttCisVirtualListener.t :=
  let listener_type :=
    if eq_int port 80 || eq_int port 443
    then "PERFORMANCE_LAYER_4" else "STANDARD" in
  if String.eqb listener_type "STANDARD" && bool_decide (optimization_profile = None)
  then raise (ValueError
    " CONFIGURATION_NOT_SUPPORTED: optimizationProfile is required for type STANDARD and protocol TCP")
  else
  let create_node_elm := ET.Element_ "createVirtualListener" {[ "xmlns" := Some TYPES_URN ]} in
  let create_node_elm := ET.SubElement create_node_elm "networkDomainId" ∅ network_domain_id in
  let create_node_elm := ET.SubElement create_node_elm "name" ∅ (Some name) in
  let create_node_elm :=
    ET.SubElement create_node_elm "description" ∅ (Some (str (of_text ex_description))) in
  let create_node_elm := ET.SubElement create_node_elm "type" ∅ (Some listener_type) in
  let create_node_elm := ET.SubElement create_node_elm "protocol" ∅ (Some protocol) in
  let create_node_elm :=
    match listener_ip_address with
    | Some _ =>
        ET.SubElement create_node_elm "listenerIpAddress" ∅
          (Some (str (of_text listener_ip_address)))
    | None => create_node_elm
    end in
  let create_node_elm :=
    if is_not_None port
    then ET.SubElement create_node_elm "port" ∅ (Some (str port))
    else create_node_elm in
  let create_node_elm := ET.SubElement create_node_elm "enabled" ∅ (Some "true") in
  let create_node_elm :=
    ET.SubElement create_node_elm "connectionLimit" ∅ (Some (str connection_limit)) in
  let create_node_elm :=
    ET.SubElement create_node_elm "connectionRateLimit" ∅ (Some (str connection_rate_limit)) in
  let create_node_elm :=
    ET.SubElement create_node_elm "sourcePortPreservation" ∅ (Some source_port_preservation) in
  let create_node_elm :=
    match pool with
    | Some pool => ET.SubElement create_node_elm "poolId" ∅ pool.(NttCisPool.id)
    | None => create_node_elm
    end in
  let create_node_elm :=
    match persistence_profile with
    | Some profile =>
        ET.SubElement create_node_elm "persistenceProfileId" ∅
          profile.(NttCisPersistenceProfile.id)
    | None => create_node_elm
    end in
  let create_node_elm :=
    match optimization_profile with
    | Some _ => ET.SubElement create_node_elm "optimizationProfile" ∅ optimization_profile
    | None => create_node_elm
    end in
  let create_node_elm :=
    match fallback_persistence_profile with
    | Some profile =>
        ET.SubElement create_node_elm "fallbackPersistenceProfileId" ∅
          profile.(NttCisPersistenceProfile.id)
    | None => create_node_elm
    end in
  let create_node_elm :=
    match irule with
    | Some rule => ET.SubElement create_node_elm "iruleId" ∅ rule.(NttCisDefaultiRule.id)
    | None => create_node_elm
    end in
  do body <- lift (ET.tostring create_node_elm);
  do response <-
    request_with_orgId_api_2 "networkDomainVip/createVirtualListener" None (Some body) "POST";
  let '(virtual_listener_id, virtual_listener_ip) :=
    fold_left
      (fun '(virtual_listener_id, virtual_listener_ip) info =>
         let virtual_listener_id :=
           if str_eq (ET.get info "name") "virtualListenerId"
           then ET.get info "value" else virtual_listener_id in
         let virtual_listener_ip :=
           if str_eq (ET.get info "name") "listenerIpAddress"
           then ET.get info "value" else virtual_listener_ip in
         (virtual_listener_id, virtual_listener_ip))
      (Xml.findall response "info" TYPES_URN) (None, None) in
  ret (NttCisVirtualListener.mk virtual_listener_id (Some name)
         (VState RUNNING) virtual_listener_ip).

(** [member.private_ips[0]] *)
Definition first_private_ip (n : Node.t) : result string :=
  match n.(Node.private_ips) with
  | ip :: _ => OK ip
  | [] => Raise IndexError
  end.

(** The loop of [create_balancer] that attaches the members to the pool:
    an object that is not a [Member] first becomes a node of the service. *)
Fixpoint attach_members (network_domain_id : option string) (pool : NttCisPool.t)
    (port : value) (members : list member_arg) : M unit :=
  match members with
  | [] => ret tt
  | AMember member :: rest =>
      do_ ex_create_pool_member pool member port;
      attach_members network_domain_id pool port rest
  | ANode member :: rest =>
      do ip <- lift (first_private_ip member);
      do member <-
        ex_create_node network_domain_id member.(Node.name) (Some ip) None
          (VInt 25000) (VInt 2000);
      do_ ex_create_pool_member pool member port;
      attach_members network_domain_id pool port rest
  end.

Definition create_balancer (self : Driver) (name : string)
    (listener_port port : value) (protocol : option string)
    (algorithm : option Algorithm) (members : option (list member_arg))
    (optimization_profile : option string)
    (ex_listener_ip_address : option string) : M LoadBalancer.t :=
  let network_domain_id := self.(network_domain_id) in
  let protocol := default "http" protocol in
  let algorithm := default DEFAULT_ALGORITHM algorithm in
  (* Create a pool first *)
  do balancer_method <-
    match Dict.get algorithm _ALGORITHM_TO_VALUE_MAP with
    | Some v => ret v
    | None => raise KeyError
    end;
  do pool <-
    ex_create_pool network_domain_id name (VStr balancer_method) None
      None (Some "NONE") (VInt 30);
  (* Attach the members to the pool as nodes *)
  do_ match members with
      | Some members => attach_members network_domain_id pool port members
      | None => ret tt
      end;
  (* Create the virtual listener (balancer) *)
  do listener <-
    ex_create_virtual_listener network_domain_id name (Some name) listener_port
      (Some pool) ex_listener_ip_address None None None protocol
      optimization_profile (VInt 25000) (VInt 2000) "PRESERVE";
  ret (LoadBalancer.mk listener.(NttCisVirtualListener.id)
         listener.(NttCisVirtualListener.name) RUNNING
         listener.(NttCisVirtualListener.ip) port
         {[ "pool_id" := pool.(NttCisPool.id);
            "network_domain_id" := network_domain_id;
            "listener_ip_address" := ex_listener_ip_address ]}).

Definition ex_update_listener (virtual_listener : NttCisVirtualListener.t)
    (kwargs : Dict.t string (option string)) : M bool :=
  let edit_listener_elm :=
    ET.Element_ "editVirtualListener"
      {[ "xmlns" := Some TYPES_URN;
         "id" := virtual_listener.(NttCisVirtualListener.id);
         "xmlns:xsi" := Some "http://www.w3.org/2001/XMLSchema-instance" ]} in
  let edit_listener_elm :=
    fold_left
      (fun elm kv =>
         match kv.2 with
         | None => ET.SubElement elm kv.1 {[ "xsi:nil" := Some "true" ]} None
         | Some v => ET.SubElement elm kv.1 ∅ (Some v)
         end)
      kwargs edit_listener_elm in
  do body <- lift (ET.tostring edit_listener_elm);
  do result <-
    request_with_orgId_api_2 "networkDomainVip/editVirtualListener" None (Some body) "POST";
  let response_code := Xml.findtext result "responseCode" TYPES_URN in
  ret (in_list response_code ["IN_PROGRESS"; "OK"]).

Definition balancer_detach_member (balancer : LoadBalancer.t) (member : Member.t) : M bool :=
  let create_pool_m :=
    ET.Element_ "removePoolMember"
      {[ "xmlns" := Some TYPES_URN; "id" := member.(Member.id) ]} in
  do body <- lift (ET.tostring create_pool_m);
  do result <-
    request_with_orgId_api_2 "networkDomainVip/removePoolMember" None (Some body) "POST";
  let response_code := Xml.findtext result "responseCode" TYPES_URN in
  ret (in_list response_code ["IN_PROGRESS"; "OK"]).

Definition destroy_balancer (balancer : LoadBalancer.t) : M bool :=
  let delete_listener :=
    ET.Element_ "deleteVirtualListener"
      {[ "xmlns" := Some TYPES_URN; "id" := balancer.(LoadBalancer.id) ]} in
  do body <- lift (ET.tostring delete_listener);
  do result <-
    request_with_orgId_api_2 "networkDomainVip/deleteVirtualListener" None (Some body) "POST";
  let response_code := Xml.findtext result "responseCode" TYPES_URN in
  ret (in_list response_code ["IN_PROGRESS"; "OK"]).

Definition ex_import_ssl_domain_certificate (network_domain_id : option string)
    (name : string) (crt_file key_file : string) (description : option string) : M bool :=
  match OpenSSL with
  | None =>
      raise (ImportError
        ("Missing " +:+ String PyStr.dquote "OpenSSL" +:+ String PyStr.dquote
           " dependency. You can install it using pip - pip install pyopenssl"))
  | Some crypto =>
      do cert <- lift (crypto.(certificate_pem) crt_file);
      do key <- lift (crypto.(privatekey_pem) key_file);
      let cert_elem := ET.Element_ "importSslDomainCertificate" {[ "xmlns" := Some TYPES_URN ]} in
      let cert_elem := ET.SubElement cert_elem "networkDomainId" ∅ network_domain_id in
      let cert_elem := ET.SubElement cert_elem "name" ∅ (Some name) in
      let cert_elem :=
        match description with
        | Some _ => ET.SubElement cert_elem "description" ∅ description
        | None => cert_elem
        end in
      let cert_elem := ET.SubElement cert_elem "key" ∅ (Some key) in
      let cert_elem := ET.SubElement cert_elem "certificate" ∅ (Some cert) in
      do body <- lift (ET.tostring cert_elem);
      do result <-
        request_with_orgId_api_2 "networkDomainVip/importSslDomainCertificate" None
          (Some body) "POST";
      let response_code := Xml.findtext result "responseCode" TYPES_URN in
      ret (in_list response_code ["IN_PROGRESS"; "OK"])
  end.

Definition ex_delete_ssl_domain_certificate (dom_cert_id : option string) : M bool :=
  let del_dom_cert_elem :=
    ET.Element_ "deleteSslDomainCertificate"
      {[ "id" := dom_cert_id; "xmlns" := Some TYPES_URN ]} in
  do body <- lift (ET.tostring del_dom_cert_elem);
  do result <-
    request_with_orgId_api_2 "networkDomainVip/deleteSslDomainCertificate" None
      (Some body) "POST";
  let response_code := Xml.findtext result "responseCode" TYPES_URN in
  ret (in_list response_code ["IN_PROGRESS"; "OK"]).

Definition ex_import_ssl_cert_chain (network_domain_id : option string)
    (name : string) (chain_crt_file : string) (description : option string) : M bool :=
  match OpenSSL with
  | None =>
      raise (ImportError
        ("Missing " +:+ String PyStr.dquote "OpenSSL" +:+ String PyStr.dquote
           " dependency. You can install it using pip - pip install pyopenssl"))
  | Some crypto =>
      do cert <- lift (crypto.(certificate_pem) chain_crt_file);
      let cert_chain_elem :=
        ET.Element_ "importSslCertificateChain" {[ "xmlns" := Some TYPES_URN ]} in
      let cert_chain_elem := ET.SubElement cert_chain_elem "networkDomainId" ∅ network_domain_id in
      let cert_chain_elem := ET.SubElement cert_chain_elem "name" ∅ (Some name) in
      let cert_chain_elem :=
        match description with
        | Some _ => ET.SubElement cert_chain_elem "description" ∅ description
        | None => cert_chain_elem
        end in
      let cert_chain_elem := ET.SubElement cert_chain_elem "certificateChain" ∅ (Some cert) in
      do body <- lift (ET.tostring cert_chain_elem);
      do result <-
        request_with_orgId_api_2 "networkDomainVip/importSslCertificateChain" None
          (Some body) "POST";
      let response_code := Xml.findtext result "responseCode" TYPES_URN in
      ret (in_list response_code ["IN_PROGRESS"; "OK"])
  end.

Definition ex_delete_ssl_certificate_chain (cert_chain_id : option string) : M bool :=
  let del_cert_chain_elem :=
    ET.Element_ "deleteSslCertificateChain"
      {[ "id" := cert_chain_id; "xmlns" := Some TYPES_URN ]} in
  do body <- lift (ET.tostring del_cert_chain_elem);
  do result <-
    request_with_orgId_api_2 "networkDomainVip/deleteSslCertificateChain" None
      (Some body) "POST";
  let response_code := Xml.findtext result "responseCode" TYPES_URN in
  ret (in_list response_code ["IN_PROGRESS"; "OK"]).

Definition ex_edit_ssl_offload_profile (profile_id : option string) (name : string)
    (ssl_domain_cert_id : option string) (description ciphers : option string)
    (ssl_cert_chain_id : option string) : M bool :=
  let ssl_offload_elem :=
    ET.Element_ "editSslOffloadProfile"
      {[ "xmlns" := Some TYPES_URN; "id" := profile_id ]} in
  let ssl_offload_elem := ET.SubElement ssl_offload_elem "name" ∅ (Some name) in
  let ssl_offload_elem :=
    match description with
    | Some _ => ET.SubElement ssl_offload_elem "description" ∅ description
    | None => ssl_offload_elem
    end in
  let ssl_offload_elem :=
    match ciphers with
    | Some _ => ET.SubElement ssl_offload_elem "ciphers" ∅ ciphers
    | None => ssl_offload_elem
    end in
  let ssl_offload_elem :=
    ET.SubElement ssl_offload_elem "sslDomainCertificateId" ∅ ssl_domain_cert_id in
  let ssl_offload_elem :=
    match ssl_cert_chain_id with
    | Some _ => ET.SubElement ssl_offload_elem "sslCertificateChainId" ∅ ssl_cert_chain_id
    | None => ssl_offload_elem
    end in
  do body <- lift (ET.tostring ssl_offload_elem);
  do result <-
    request_with_orgId_api_2 "networkDomainVip/editSslOffloadProfile" None (Some body) "POST";
  let response_code := Xml.findtext result "responseCode" TYPES_URN in
  ret (in_list response_code ["IN_PROGRESS"; "OK"]).

Definition ex_delete_ssl_offload_profile (profile_id : option string) : M bool :=
  let del_profile_elem :=
    ET.Element_ "deleteSslOffloadProfile"
      {[ "id" := profile_id; "xmlns" := Some TYPES_URN ]} in
  do body <- lift (ET.tostring del_profile_elem);
  do result <-
    request_with_orgId_api_2 "networkDomainVip/deleteSslOffloadProfile" None (Some body) "POST";
  let response_code := Xml.findtext result "responseCode" TYPES_URN in
  ret (in_list response_code ["IN_PROGRESS"; "OK"]).

Definition ex_update_pool (pool : NttCisPool.t) : M bool :=
  let create_node_elm := ET.Element_ "editPool" {[ "xmlns" := Some TYPES_URN ]} in
  let create_node_elm := ET.set create_node_elm "id" pool.(NttCisPool.id) in
  let create_node_elm :=
    ET.SubElement create_node_elm "loadBalanceMethod" ∅
      (Some (str (of_text pool.(NttCisPool.load_balance_method)))) in
  let create_node_elm :=
    ET.SubElement create_node_elm "healthMonitorId" ∅ pool.(NttCisPool.health_monitor_id) in
  let create_node_elm :=
    ET.SubElement create_node_elm "serviceDownAction" ∅ pool.(NttCisPool.service_down_action) in
  let create_node_elm :=
    ET.SubElement create_node_elm "slowRampTime" ∅
      (Some (str (of_text pool.(NttCisPool.slow_ramp_time)))) in
  do body <- lift (ET.tostring create_node_elm);
  do response <- request_with_orgId_api_2 "networkDomainVip/editPool" None (Some body) "POST";
  let response_code := Xml.findtext response "responseCode" TYPES_URN in
  ret (in_list response_code ["IN_PROGRESS"; "OK"]).

Definition ex_destroy_pool (pool : NttCisPool.t) : M bool :=
  let destroy_request :=
    ET.Element_ "deletePool" {[ "xmlns" := Some TYPES_URN; "id" := pool.(NttCisPool.id) ]} in
  do body <- lift (ET.tostring destroy_request);
  do result <- request_with_orgId_api_2 "networkDomainVip/deletePool" None (Some body) "POST";
  let response_code := Xml.findtext result "responseCode" TYPES_URN in
  ret (in_list response_code ["IN_PROGRESS"; "OK"]).

Definition ex_set_pool_member_state (member : NttCisPoolMember.t) (enabled : bool) : M bool :=
  let request :=
    ET.Element_ "editPoolMember"
      {[ "xmlns" := Some TYPES_URN; "id" := member.(NttCisPoolMember.id) ]} in
  let state := if enabled then "ENABLED" else "DISABLED" in
  let request := ET.SubElement request "status" ∅ (Some state) in
  do body <- lift (ET.tostring request);
  do result <- request_with_orgId_api_2 "networkDomainVip/editPoolMember" None (Some body) "POST";
  let response_code := Xml.findtext result "responseCode" TYPES_URN in
  ret (in_list response_code ["IN_PROGRESS"; "OK"]).

Definition ex_destroy_node (node_id : option string) : M bool :=
  (* Destroy the node *)
  let destroy_request :=
    ET.Element_ "deleteNode" {[ "xmlns" := Some TYPES_URN; "id" := node_id ]} in
  do body <- lift (ET.tostring destroy_request);
  do result <- request_with_orgId_api_2 "networkDomainVip/deleteNode" None (Some body) "POST";
  let response_code := Xml.findtext result "responseCode" TYPES_URN in
  ret (in_list response_code ["IN_PROGRESS"; "OK"]).

(** [ex_wait_for_state(state, func, poll_interval=2, timeout=60, *args, **kwargs)];
    an argument left out by the caller is [None] here. *)
Definition ex_wait_for_state (state : value)
    (func : list value -> Dict.t string value -> M Obj)
    (poll_interval timeout : option value)
    (args : list value) (kwargs : Dict.t string value) : M Obj :=
  let poll_interval := default (VInt 2) poll_interval in
  let timeout := default (VInt 60) timeout in
  connection_wait_for_state state func poll_interval timeout args kwargs.

Definition _to_node (element : ET.Element) : NttCisVIPNode.t :=
  let ipaddress := Xml.findtext element "ipv4Address" TYPES_URN in
  let ipaddress :=
    match ipaddress with
    | None => Xml.findtext element "ipv6Address" TYPES_URN
    | Some _ => ipaddress
    end in
  let name := Xml.findtext element "name" TYPES_URN in
  let hm :=
    match get_of (ET.find element (Xml.fixxpath "healthMonitor" TYPES_URN)) "id" with
    | OK hm => hm
    | Raise _ => None
    end in
  NttCisVIPNode.mk (ET.get element "id") name
    (VState (_VALUE_TO_STATE_MAP_get (Xml.findtext element "state" TYPES_URN)))
    ipaddress
    (Xml.findtext element "connectionLimit" TYPES_URN)
    (Xml.findtext element "connectionRateLimit" TYPES_URN)
    hm.

Definition _to_balancer (element : ET.Element) : LoadBalancer.t :=
  let ipaddress := Xml.findtext element "listenerIpAddress" TYPES_URN in
  let name := Xml.findtext element "name" TYPES_URN in
  let port := Xml.findtext element "port" TYPES_URN in
  let extra : gmap string (option string) := ∅ in
  let pool_element := ET.find element (Xml.fixxpath "pool" TYPES_URN) in
  let extra :=
    match pool_element with
    | None => <["pool_id" := None]> extra
    | Some pool_element => <["pool_id" := ET.get pool_element "id"]> extra
    end in
  let extra :=
    <["network_domain_id" := Xml.findtext element "networkDomainId" TYPES_URN]> extra in
  LoadBalancer.mk (ET.get element "id") name
    (_VALUE_TO_STATE_MAP_get (Xml.findtext element "state" TYPES_URN))
    ipaddress (of_text port) extra.

Definition _to_member (element : ET.Element) : result NttCisPoolMember.t :=
  let port := Xml.findtext element "port" TYPES_URN in
  try port <-
    match port with
    | Some port => try n <- PyStr.int int_other port; OK (VInt n)
    | None => OK VNone
    end;
  try id <- OK (ET.get element "id");
  try name <- get_of (ET.find element (Xml.fixxpath "node" TYPES_URN)) "name";
  try status <- OK (of_text (Xml.findtext element "state" TYPES_URN));
  try node_id <- get_of (ET.find element (Xml.fixxpath "node" TYPES_URN)) "id";
  try ip <- get_of (ET.find element (Xml.fixxpath "node" TYPES_URN)) "ipAddress";
  OK (NttCisPoolMember.mk id name status ip port node_id).

Definition _to_pool (element : ET.Element) : NttCisPool.t :=
  NttCisPool.mk
    (ET.get element "id")
    (Xml.findtext element "name" TYPES_URN)
    (Xml.findtext element "description" TYPES_URN)
    (of_text (Xml.findtext element "state" TYPES_URN))
    (Xml.findtext element "loadBalanceMethod" TYPES_URN)
    (Xml.findtext element "healthMonitorId" TYPES_URN)
    (Xml.findtext element "serviceDownAction" TYPES_URN)
    (Xml.findtext element "slowRampTime" TYPES_URN).

End NttCisLBDriver.

(** ** The rest of the driver: listing, fetching and attaching *)

(** [prefix + "%s" % x]: the format writes [str(x)], the four letters
    [None] for [None]. *)
Definition percent_s (prefix : string) (x : option string) : string :=
  prefix +:+ str (of_text x).

(** [out = []; for x in l: out.append(f(x)); return out]. *)
Definition for_append {A B} (f : A -> B) (l : list A) : list B :=
  fold_left (fun out x => (out ++ [f x])%list) l [].

(** The same loop when [f] may raise: the first exception ends it. *)
Fixpoint for_append_try {A B} (f : A -> result B) (l : list A) (out : list B)
    : result (list B) :=
  match l with
  | [] => OK out
  | x :: l' =>
      match f x with
      | OK y => for_append_try f l' (out ++ [y])%list
      | Raise e => Raise e
      end
  end.

(** A string of decimal digits only, as [str] writes a natural number. *)
Fixpoint decimal (s : string) : bool :=
  match s with
  | EmptyString => true
  | String c s' =>
      match PyStr.digit c with
      | Some _ => decimal s'
      | None => false
      end
  end.

Section NttCisLBDriverRest.

Variable TYPES_URN : string.
Variable server : list Request -> Request -> result ET.Element.

(** [libcloud.common.nttcis.API_ENDPOINTS], the table of regions, whose
    entries the driver only passes on. *)
Variable Endpoint : Type.
Variable API_ENDPOINTS : gmap string Endpoint.

(** The interpreter's [int()] on the texts [PyStr.int] leaves to it. *)
Variable int_other : string -> result Z.

Local Open Scope driver_scope.

(** [__init__] up to the call of the base class initialiser: the network
    domain and the selected region the object has at that point
    ([selected_region] is [None] in the class). *)
Definition __init__ (network_domain_id : option string) (host : option string)
    (region : option string) : result (Driver * option Endpoint) :=
  let selected_region : option Endpoint := None in
  if bool_decide (region ≫= (fun r => API_ENDPOINTS !! r) = None)
     && bool_decide (host = None)
  then Raise (ValueError
    ("Invalid region: " +:+ str (of_text region) +:+ ", no host specified"))
  else
    try selected_region <-
      match region with
      | Some r =>
          match API_ENDPOINTS !! r with
          | Some endpoint => OK (Some endpoint)
          | None => Raise KeyError
          end
      | None => OK selected_region
      end;
    OK (mkDriver network_domain_id, selected_region).

Definition ex_set_current_network_domain (self : Driver)
    (network_domain_id : option string) : Driver :=
  mkDriver network_domain_id.

Definition ex_get_current_network_domain (self : Driver) : option string :=
  self.(network_domain_id).

Definition _to_balancers (object : ET.Element) : list LoadBalancer.t :=
  for_append (_to_balancer TYPES_URN)
    (ET.findall object (Xml.fixxpath "virtualListener" TYPES_URN)).

Definition _to_nodes (object : ET.Element) : list NttCisVIPNode.t :=
  for_append (_to_node TYPES_URN) (ET.findall object (Xml.fixxpath "node" TYPES_URN)).

Definition _to_members (object : ET.Element) : result (list NttCisPoolMember.t) :=
  for_append_try (_to_member TYPES_URN int_other)
    (ET.findall object (Xml.fixxpath "poolMember" TYPES_URN)) [].

Definition _to_pools (object : ET.Element) : list NttCisPool.t :=
  for_append (_to_pool TYPES_URN) (ET.findall object (Xml.fixxpath "pool" TYPES_URN)).

Definition _to_health_monitor (element : ET.Element) : NttCisDefaultHealthMonitor.t :=
  NttCisDefaultHealthMonitor.mk
    (ET.get element "id")
    (Xml.findtext element "name" TYPES_URN)
    (str_eq (Xml.findtext element "nodeCompatible" TYPES_URN) "true")
    (str_eq (Xml.findtext element "poolCompatible" TYPES_URN) "true").

Definition _to_health_monitors (object : ET.Element) : list NttCisDefaultHealthMonitor.t :=
  for_append _to_health_monitor
    (ET.findall object (Xml.fixxpath "defaultHealthMonitor" TYPES_URN)).

(** The loop of [_to_irule] and [_to_persistence_profile] over the
    [virtualListenerCompatibility] children. *)
Definition compatible_listeners (element : ET.Element)
    : list NttCisVirtualListenerCompatibility.t :=
  for_append
    (fun match_element =>
       NttCisVirtualListenerCompatibility.mk
         (ET.get match_element "type") (ET.get match_element "protocol"))
    (ET.findall element (Xml.fixxpath "virtualListenerCompatibility" TYPES_URN)).

Definition _to_persistence_profile (element : ET.Element) : NttCisPersistenceProfile.t :=
  let compatible := compatible_listeners element in
  NttCisPersistenceProfile.mk
    (ET.get element "id")
    (str_eq (ET.get element "fallbackCompatible") "true")
    (Xml.findtext element "name" TYPES_URN)
    compatible.

Definition _to_persistence_profiles (object : ET.Element) : list NttCisPersistenceProfile.t :=
  for_append _to_persistence_profile
    (ET.findall object (Xml.fixxpath "defaultPersistenceProfile" TYPES_URN)).

Definition _to_irule (element : ET.Element) : result NttCisDefaultiRule.t :=
  let compatible := compatible_listeners element in
  let irule_element := ET.find element (Xml.fixxpath "irule" TYPES_URN) in
  try id <- get_of irule_element "id";
  try name <- get_of irule_element "name";
  OK (NttCisDefaultiRule.mk id name compatible).

Definition _to_irules (object : ET.Element) : result (list NttCisDefaultiRule.t) :=
  for_append_try _to_irule
    (ET.findall object (Xml.fixxpath "defaultIrule" TYPES_URN)) [].

(** [params = None; if ex_network_domain_id is not None: params = {...}] *)
Definition network_domain_params (ex_network_domain_id : option string)
    : option (gmap string string) :=
  match ex_network_domain_id with
  | Some id => Some {[ "networkDomainId" := id ]}
  | None => None
  end.

Definition list_balancers (ex_network_domain_id : option string) : M (list LoadBalancer.t) :=
  let params := network_domain_params ex_network_domain_id in
  do object <- request_with_orgId_api_2 server "networkDomainVip/virtualListener" params None "GET";
  ret (_to_balancers object).

Definition get_balancer (balancer_id : option string) : M LoadBalancer.t :=
  do bal <-
    request_with_orgId_api_2 server
      (percent_s "networkDomainVip/virtualListener/" balancer_id) None None "GET";
  ret (_to_balancer TYPES_URN bal).

Definition ex_get_pools (ex_network_domain_id : option string) : M (list NttCisPool.t) :=
  let params := network_domain_params ex_network_domain_id in
  do pools <- request_with_orgId_api_2 server "networkDomainVip/pool" params None "GET";
  ret (_to_pools pools).

Definition ex_get_pool (pool_id : option string) : M NttCisPool.t :=
  do pool <-
    request_with_orgId_api_2 server (percent_s "networkDomainVip/pool/" pool_id) None None "GET";
  ret (_to_pool TYPES_URN pool).

Definition ex_get_pool_members (pool_id : option string) : M (list NttCisPoolMember.t) :=
  do members <-
    request_with_orgId_api_2 server
      (percent_s "networkDomainVip/poolMember?poolId=" pool_id) None None "GET";
  lift (_to_members members).

Definition ex_get_pool_member (pool_member_id : option string) : M NttCisPoolMember.t :=
  do member <-
    request_with_orgId_api_2 server
      (percent_s "networkDomainVip/poolMember/" pool_member_id) None None "GET";
  lift (_to_member TYPES_URN int_other member).

Definition ex_get_nodes (ex_network_domain_id : option string) : M (list NttCisVIPNode.t) :=
  let params := network_domain_params ex_network_domain_id in
  do nodes <- request_with_orgId_api_2 server "networkDomainVip/node" params None "GET";
  ret (_to_nodes nodes).

Definition ex_get_node (node_id : option string) : M NttCisVIPNode.t :=
  do nodes <-
    request_with_orgId_api_2 server (percent_s "networkDomainVip/node/" node_id) None None "GET";
  ret (_to_node TYPES_URN nodes).

Definition ex_get_default_health_monitors (network_domain : string)
    : M (list NttCisDefaultHealthMonitor.t) :=
  do result <-
    request_with_orgId_api_2 server "networkDomainVip/defaultHealthMonitor"
      (Some {[ "networkDomainId" := network_domain ]}) None "GET";
  ret (_to_health_monitors result).

Definition ex_get_default_persistence_profiles (network_domain_id : string)
    : M (list NttCisPersistenceProfile.t) :=
  do result <-
    request_with_orgId_api_2 server "networkDomainVip/defaultPersistenceProfile"
      (Some {[ "networkDomainId" := network_domain_id ]}) None "GET";
  ret (_to_persistence_profiles result).

Definition ex_get_default_irules (network_domain_id : string)
    : M (list NttCisDefaultiRule.t) :=
  do result <-
    request_with_orgId_api_2 server "networkDomainVip/defaultIrule"
      (Some {[ "networkDomainId" := network_domain_id ]}) None "GET";
  lift (_to_irules result).

(** [balancer.extra[key]] *)
Definition extra_item (balancer : LoadBalancer.t) (key : string) : result (option string) :=
  match balancer.(LoadBalancer.extra) !! key with
  | Some v => OK v
  | None => Raise KeyError
  end.

Definition balancer_list_members (balancer : LoadBalancer.t) : M (list Member.t) :=
  do pool_id <- lift (extra_item balancer "pool_id");
  do pool_members <- ex_get_pool_members pool_id;
  let members :=
    for_append
      (fun pool_member =>
         Member.mk pool_member.(NttCisPoolMember.id) pool_member.(NttCisPoolMember.ip)
           pool_member.(NttCisPoolMember.port))
      pool_members in
  ret members.

(** [balancer_attach_member]; the test [node is False] never holds, since
    [ex_create_node] returns a node or raises.  The member returned is the
    member passed in, with its [id] assigned. *)
Definition balancer_attach_member (balancer : LoadBalancer.t) (member : Member.t)
    : M Member.t :=
  do network_domain_id <- lift (extra_item balancer "network_domain_id");
  do name <-
    match member.(Member.ip) with
    | Some ip => ret ("Member." +:+ ip)
    | None =>
        raise (TypeError
          ("can only concatenate str (not " +:+ String PyStr.dquote "NoneType" +:+ String PyStr.dquote
             ") to str"))
    end;
  do node <-
    ex_create_node TYPES_URN server network_domain_id name member.(Member.ip) (Some "")
      (VInt 25000) (VInt 2000);
  do pool_id <- lift (extra_item balancer "pool_id");
  do pool <- ex_get_pool pool_id;
  do pool_member <- ex_create_pool_member TYPES_URN server pool node member.(Member.port);
  let member :=
    Member.mk pool_member.(NttCisPoolMember.id) member.(Member.ip) member.(Member.port) in
  ret member.

Definition ex_create_ssl_offload_profile (netowrk_domain_id : option string)
    (name : string) (ssl_domain_cert_id : option string)
    (description ciphers ssl_cert_chain_id : option string) : M bool :=
  let ssl_offload_elem :=
    ET.Element_ "createSslOffloadProfile" {[ "xmlns" := Some TYPES_URN ]} in
  let ssl_offload_elem :=
    ET.SubElement ssl_offload_elem "networkDomainId" ∅ netowrk_domain_id in
  let ssl_offload_elem := ET.SubElement ssl_offload_elem "name" ∅ (Some name) in
  let ssl_offload_elem :=
    match description with
    | Some _ => ET.SubElement ssl_offload_elem "description" ∅ description
    | None => ssl_offload_elem
    end in
  let ssl_offload_elem :=
    match ciphers with
    | Some _ => ET.SubElement ssl_offload_elem "ciphers" ∅ ciphers
    | None => ssl_offload_elem
    end in
  let ssl_offload_elem :=
    ET.SubElement ssl_offload_elem "sslDomainCertificateId" ∅ ssl_domain_cert_id in
  let ssl_offload_elem :=
    match ssl_cert_chain_id with
    | Some _ => ET.SubElement ssl_offload_elem "sslCertificateChainId" ∅ ssl_cert_chain_id
    | None => ssl_offload_elem
    end in
  do body <- lift (ET.tostring ssl_offload_elem);
  do result <-
    request_with_orgId_api_2 server "networkDomainVip/createSslOffloadProfile" None
      (Some body) "POST";
  let response_code := Xml.findtext result "responseCode" TYPES_URN in
  ret (in_list response_code ["IN_PROGRESS"; "OK"]).

Definition ex_destroy_pool_member (member : NttCisPoolMember.t) (destroy_node : bool)
    : M bool :=
  (* remove the pool member *)
  let destroy_request :=
    ET.Element_ "removePoolMember"
      {[ "xmlns" := Some TYPES_URN; "id" := member.(NttCisPoolMember.id) ]} in
  do body <- lift (ET.tostring destroy_request);
  do result <-
    request_with_orgId_api_2 server "networkDomainVip/removePoolMember" None (Some body) "POST";
  if bool_decide (member.(NttCisPoolMember.node_id) <> None) && destroy_node
  then ex_destroy_node TYPES_URN server member.(NttCisPoolMember.node_id)
  else
    let response_code := Xml.findtext result "responseCode" TYPES_URN in
    ret (in_list response_code ["IN_PROGRESS"; "OK"]).

End NttCisLBDriverRest.

(** ** The statements of the specification, as definitions *)

(** The table of vendor status strings, as the specification words it:
    [NORMAL] is running; the three [PENDING_] strings are pending; the
    three [FAILED_] strings and [REQUIRES_SUPPORT] are errors; any other
    string, and a missing [state] element, is unknown. *)
Definition state_of_vendor_status (status : option string) : State :=
  match status with
  | None => UNKNOWN
  | Some s =>
      if String.eqb s "NORMAL" then RUNNING
      else if String.eqb s "PENDING_ADD" || String.eqb s "PENDING_CHANGE"
              || String.eqb s "PENDING_DELETE" then PENDING
      else if String.eqb s "FAILED_ADD" || String.eqb s "FAILED_CHANGE"
              || String.eqb s "FAILED_DELETE" || String.eqb s "REQUIRES_SUPPORT" then ERROR
      else UNKNOWN
  end.

(** The [info] field of a response with a given name, as the
    specification words it: the [value] attribute of the [info] child
    whose [name] attribute is [key] (the last one, should there be
    several), [None] when there is no such child. *)
Definition info_field (TYPES_URN : string) (response : ET.Element) (key : string) : option string :=
  last (List.filter (fun info => str_eq (ET.get info "name") key)
          (Xml.findall response "info" TYPES_URN))
  ≫= fun info => ET.get info "value".

(** The condition under which [ex_create_virtual_listener] refuses the
    call, as the specification words it: no optimization profile, and a
    port that is neither 80 nor 443. *)
Definition raises_ValueError (port : value) (optimization_profile : option string) : bool :=
  negb (eq_int port 80 || eq_int port 443) && bool_decide (optimization_profile = None).

(** One call of a method that reports success as a boolean. *)
Inductive Mutation :=
  | Destroy_balancer (balancer : LoadBalancer.t)
  | Balancer_detach_member (balancer : LoadBalancer.t) (member : Member.t)
  | Ex_update_listener (virtual_listener : NttCisVirtualListener.t)
      (kwargs : Dict.t string (option string))
  | Ex_update_pool (pool : NttCisPool.t)
  | Ex_destroy_pool (pool : NttCisPool.t)
  | Ex_destroy_node (node_id : option string)
  | Ex_set_pool_member_state (member : NttCisPoolMember.t) (enabled : bool)
  | Ex_import_ssl_domain_certificate (network_domain_id : option string)
      (name crt_file key_file : string) (description : option string)
  | Ex_import_ssl_cert_chain (network_domain_id : option string)
      (name chain_crt_file : string) (description : option string)
  | Ex_edit_ssl_offload_profile (profile_id : option string) (name : string)
      (ssl_domain_cert_id description ciphers ssl_cert_chain_id : option string)
  | Ex_delete_ssl_domain_certificate (dom_cert_id : option string)
  | Ex_delete_ssl_certificate_chain (cert_chain_id : option string)
  | Ex_delete_ssl_offload_profile (profile_id : option string).

Definition call (TYPES_URN : string)
    (server : list Request -> Request -> result ET.Element)
    (OpenSSL : option Crypto) (m : Mutation) : M bool :=
  match m with
  | Destroy_balancer b => destroy_balancer TYPES_URN server b
  | Balancer_detach_member b m => balancer_detach_member TYPES_URN server b m
  | Ex_update_listener l kw => ex_update_listener TYPES_URN server l kw
  | Ex_update_pool p => ex_update_pool TYPES_URN server p
  | Ex_destroy_pool p => ex_destroy_pool TYPES_URN server p
  | Ex_destroy_node n => ex_destroy_node TYPES_URN server n
  | Ex_set_pool_member_state m e => ex_set_pool_member_state TYPES_URN server m e
  | Ex_import_ssl_domain_certificate nd n c k d =>
      ex_import_ssl_domain_certificate TYPES_URN server OpenSSL nd n c k d
  | Ex_import_ssl_cert_chain nd n c d =>
      ex_import_ssl_cert_chain TYPES_URN server OpenSSL nd n c d
  | Ex_edit_ssl_offload_profile p n c d ci ch =>
      ex_edit_ssl_offload_profile TYPES_URN server p n c d ci ch
  | Ex_delete_ssl_domain_certificate c => ex_delete_ssl_domain_certificate TYPES_URN server c
  | Ex_delete_ssl_certificate_chain c => ex_delete_ssl_certificate_chain TYPES_URN server c
  | Ex_delete_ssl_offload_profile p => ex_delete_ssl_offload_profile TYPES_URN server p
  end.

(** The identifier a mutation writes into the [id] attribute of its
    request, for the methods that write one. *)
Definition target_id (m : Mutation) : option (option string) :=
  match m with
  | Destroy_balancer b => Some b.(LoadBalancer.id)
  | Balancer_detach_member _ m => Some m.(Member.id)
  | Ex_update_listener l _ => Some l.(NttCisVirtualListener.id)
  | Ex_update_pool p | Ex_destroy_pool p => Some p.(NttCisPool.id)
  | Ex_destroy_node n => Some n
  | Ex_set_pool_member_state m _ => Some m.(NttCisPoolMember.id)
  | Ex_import_ssl_domain_certificate _ _ _ _ _ | Ex_import_ssl_cert_chain _ _ _ _ => None
  | Ex_edit_ssl_offload_profile p _ _ _ _ _ => Some p
  | Ex_delete_ssl_domain_certificate c | Ex_delete_ssl_certificate_chain c => Some c
  | Ex_delete_ssl_offload_profile p => Some p
  end.

Definition is_OK {A} (r : result A) : bool :=
  match r with
  | OK _ => true
  | Raise _ => false
  end.

(** The PEM files an import method reads can be loaded. *)
Definition files_load (OpenSSL : option Crypto) (m : Mutation) : bool :=
  match m with
  | Ex_import_ssl_domain_certificate _ _ crt key _ =>
      match OpenSSL with
      | Some crypto =>
          is_OK (crypto.(certificate_pem) crt) && is_OK (crypto.(privatekey_pem) key)
      | None => false
      end
  | Ex_import_ssl_cert_chain _ _ crt _ =>
      match OpenSSL with
      | Some crypto => is_OK (crypto.(certificate_pem) crt)
      | None => false
      end
  | _ => true
  end.

(** A mutation gets as far as sending its request: the identifier it
    names is not [None] and its files load. *)
Definition ready (OpenSSL : option Crypto) (m : Mutation) : bool :=
  match target_id m with
  | Some None => false
  | _ => files_load OpenSSL m
  end.

(** ** A sample service *)

Module Sample.

Definition URN : string := "urn:didata.com:api:cloud:types".

Definition elem (name : string) (attrib : gmap string (option string))
    (text : option string) (children : list ET.Element) : ET.Element :=
  ET.mkElement (Xml.fixxpath name URN) attrib text children.

Definition info (name v : string) : ET.Element :=
  elem "info" {[ "name" := Some name; "value" := Some v ]} None [].

Definition response (code : string) (infos : list ET.Element) : ET.Element :=
  elem "response" ∅ None (elem "responseCode" ∅ (Some code) [] :: infos).

(** A service that accepts every creation and names what it creates. *)
Definition server (sent : list Request) (req : Request) : result ET.Element :=
  if String.eqb req.(action) "networkDomainVip/createPool"
  then OK (response "OK" [info "poolId" "pool-1"])
  else if String.eqb req.(action) "networkDomainVip/createNode"
  then OK (response "OK" [info "nodeId" "node-1"; info "name" "node.one"])
  else if String.eqb req.(action) "networkDomainVip/addPoolMember"
  then OK (response "OK" [info "poolMemberId" "member-1"; info "nodeName" "node.one"])
  else if String.eqb req.(action) "networkDomainVip/createVirtualListener"
  then OK (response "OK"
             [info "virtualListenerId" "listener-1"; info "listenerIpAddress" "165.180.12.22"])
  else OK (response "IN_PROGRESS" []).

(** A service that answers every request with the same bare document. *)
Definition silent (code : string) (sent : list Request) (req : Request) : result ET.Element :=
  OK (response code []).

(** The sample texts are ASCII: an [int()] that refuses every text
    beyond them stands in for the interpreter. *)
Definition int_other (s : string) : result Z :=
  Raise (ValueError "invalid literal for int() with base 10").

Definition crypto : Crypto :=
  mkCrypto (fun path => OK ("CERT " +:+ path)) (fun path => OK ("KEY " +:+ path)).

Definition driver : Driver := mkDriver (Some "nd-1").

(** A pool member as the service lists it, its port written with a
    leading zero. *)
Definition poolMember : ET.Element :=
  elem "poolMember" {[ "id" := Some "member-1" ]} None
    [ elem "node" {[ "id" := Some "node-1"; "name" := Some "node.one";
                     "ipAddress" := Some "10.0.0.1" ]} None [];
      elem "port" ∅ (Some "080") [];
      elem "state" ∅ (Some "NORMAL") [] ].

(** The virtual listener of [create_balancer "lb"] on port 80 as the
    service lists it afterwards. *)
Definition virtualListener : ET.Element :=
  elem "virtualListener" {[ "id" := Some "listener-1" ]} None
    [ elem "name" ∅ (Some "lb") [];
      elem "state" ∅ (Some "NORMAL") [];
      elem "listenerIpAddress" ∅ (Some "165.180.12.22") [];
      elem "port" ∅ (Some "80") [];
      elem "pool" {[ "id" := Some "pool-1" ]} None [] ].

Definition pool : NttCisPool.t :=
  NttCisPool.mk (Some "pool-1") (Some "pool") None (VState RUNNING)
    (Some "ROUND_ROBIN") None (Some "NONE") (Some "30").

Definition node : NttCisVIPNode.t :=
  NttCisVIPNode.mk4 (Some "node-1") (Some "node.one") (VState RUNNING) (Some "10.0.0.1").

End Sample.

(** ** The Python library functions on sample inputs *)

Example replace_spaces : PyStr.replace " " "_" "my pool  one" = "my_pool__one".
Proof. reflexivity. Qed.

Example replace_words : PyStr.replace "ab" "X" "ababa ab" = "XXa X".
Proof. reflexivity. Qed.

Example replace_empty : PyStr.replace "" "-" "abc" = "-a-b-c-".
Proof. reflexivity. Qed.

Example int_padded : PyStr.int Sample.int_other " 080 " = OK 80.
Proof. reflexivity. Qed.

Example int_signed : PyStr.int Sample.int_other "-1_000" = OK (-1000).
Proof. reflexivity. Qed.

Example int_empty : PyStr.int Sample.int_other ""
  = Raise (ValueError "invalid literal for int() with base 10: ''").
Proof. reflexivity. Qed.

Example int_double_underscore : is_OK (PyStr.int Sample.int_other "8__0") = false.
Proof. reflexivity. Qed.

Example int_separator :
  PyStr.int Sample.int_other (String (ascii_of_nat 28) "5")
  = Raise (ValueError "invalid literal for int() with base 10: '\x1c5'").
Proof. reflexivity. Qed.

Example int_beyond_ascii (int_other : string -> result Z) :
  PyStr.int int_other (String (ascii_of_nat 160) "80")
  = int_other (String (ascii_of_nat 160) "80").
Proof. reflexivity. Qed.

Example repr_plain : PyStr.repr "8a" = "'8a'".
Proof. reflexivity. Qed.

Example repr_single_quote :
  PyStr.repr "it's" = String PyStr.dquote ("it's" +:+ String PyStr.dquote "").
Proof. reflexivity. Qed.

Example repr_newline : PyStr.repr (String (ascii_of_nat 10) "80") = "'\n80'".
Proof. reflexivity. Qed.

Example repr_control : PyStr.repr (String (ascii_of_nat 27) "") = "'\x1b'".
Proof. reflexivity. Qed.

Example str_port : str (VInt 8080) = "8080".
Proof. reflexivity. Qed.

Example str_None : str VNone = "None".
Proof. reflexivity. Qed.

Example fixxpath_state :
  Xml.fixxpath "state" Sample.URN = "{urn:didata.com:api:cloud:types}state".
Proof. reflexivity. Qed.

Example algorithm_value : Dict.get ROUND_ROBIN _ALGORITHM_TO_VALUE_MAP = Some "ROUND_ROBIN".
Proof. reflexivity. Qed.

Example algorithm_missing : Dict.get RANDOM _ALGORITHM_TO_VALUE_MAP = None.
Proof. reflexivity. Qed.

Example state_pending : _VALUE_TO_STATE_MAP_get (Some "PENDING_CHANGE") = PENDING.
Proof. vm_compute. reflexivity. Qed.

Example state_lower_case : _VALUE_TO_STATE_MAP_get (Some "normal") = UNKNOWN.
Proof. vm_compute. reflexivity. Qed.

Example info_field_last :
  info_field Sample.URN
    (Sample.response "OK"
       [Sample.info "poolId" "a"; Sample.info "nodeId" "b"; Sample.info "poolId" "c"])
    "poolId" = Some "c".
Proof. vm_compute. reflexivity. Qed.

Example destroy_without_id :
  destroy_balancer Sample.URN Sample.server
    (LoadBalancer.mk None (Some "lb") RUNNING None VNone ∅) []
  = Raise (TypeError "cannot serialize None (type NoneType)").
Proof. vm_compute. reflexivity. Qed.

(** ** Lemmas on element trees and on the monad *)

Section ElementTrees.

Implicit Types (e p : ET.Element) (a : gmap string (option string)).

Lemma children_SubElement p tag a txt :
  ET.children (ET.SubElement p tag a txt)
  = (ET.children p ++ [ET.mkElement tag a txt []])%list.
Proof. reflexivity. Qed.

Lemma attrib_SubElement p tag a txt :
  ET.attrib (ET.SubElement p tag a txt) = ET.attrib p.
Proof. reflexivity. Qed.

Lemma tag_SubElement p tag a txt :
  ET.tag (ET.SubElement p tag a txt) = ET.tag p.
Proof. reflexivity. Qed.

Lemma serializable_unfold e :
  ET.serializable e
  = bool_decide (map_Forall (fun _ v => is_Some v) (ET.attrib e))
    && forallb ET.serializable (ET.children e).
Proof. destruct e; reflexivity. Qed.

Lemma serializable_SubElement p tag a txt :
  map_Forall (fun _ (v : option string) => is_Some v) a ->
  ET.serializable (ET.SubElement p tag a txt) = ET.serializable p.
Proof.
  intros Ha. rewrite (serializable_unfold p), serializable_unfold.
  rewrite attrib_SubElement, children_SubElement, forallb_app.
  cbn [forallb ET.serializable]. rewrite (bool_decide_eq_true_2 _ Ha).
  now rewrite !andb_true_r.
Qed.

Lemma serializable_Element tag a :
  map_Forall (fun _ (v : option string) => is_Some v) a ->
  ET.serializable (ET.Element_ tag a) = true.
Proof.
  intros Ha. unfold ET.Element_. cbn [ET.serializable forallb].
  now rewrite (bool_decide_eq_true_2 _ Ha).
Qed.

Lemma serializable_set e key v :
  ET.serializable e = true -> ET.serializable (ET.set e key (Some v)) = true.
Proof.
  rewrite (serializable_unfold e), serializable_unfold.
  intros [Ha Hc]%andb_true_iff. apply bool_decide_eq_true_1 in Ha.
  apply andb_true_iff; split; [|exact Hc].
  apply bool_decide_eq_true_2. cbn [ET.set ET.attrib].
  apply map_Forall_insert_2; [eexists; reflexivity | exact Ha].
Qed.

Lemma attrs_empty :
  map_Forall (fun (_ : string) (v : option string) => is_Some v)
    (∅ : gmap string (option string)).
Proof. apply map_Forall_empty. Qed.

Lemma attrs_insert k s a :
  map_Forall (fun (_ : string) (v : option string) => is_Some v) a ->
  map_Forall (fun (_ : string) (v : option string) => is_Some v) (<[k := Some s]> a).
Proof. intros Ha. apply map_Forall_insert_2; [eexists; reflexivity | exact Ha]. Qed.

Lemma attrs_singleton k s :
  map_Forall (fun (_ : string) (v : option string) => is_Some v)
    ({[ k := Some s ]} : gmap string (option string)).
Proof. apply map_Forall_singleton. eexists; reflexivity. Qed.

Lemma tostring_OK e : ET.serializable e = true -> ET.tostring e = OK e.
Proof. unfold ET.tostring. now intros ->. Qed.

Lemma find_append {A} (f : A -> bool) (l1 l2 : list A) :
  List.find f (l1 ++ l2)
  = match List.find f l1 with
    | Some x => Some x
    | None => List.find f l2
    end.
Proof.
  induction l1 as [|x l1 IH]; [reflexivity|].
  cbn [app List.find]. now destruct (f x).
Qed.

(** A child appended after the first child with a tag does not change
    what [find] and [findtext] return for that tag. *)
Lemma find_SubElement p tag a txt path :
  ET.find (ET.SubElement p tag a txt) path
  = match ET.find p path with
    | Some c => Some c
    | None => if String.eqb tag path then Some (ET.mkElement tag a txt []) else None
    end.
Proof.
  unfold ET.find. rewrite children_SubElement, find_append.
  destruct (List.find (ET.has_tag path) (ET.children p)); [reflexivity|].
  cbn [List.find]. unfold ET.has_tag at 1. cbn [ET.tag]. now destruct (String.eqb tag path).
Qed.

Lemma findtext_SubElement_old p tag a txt path t :
  ET.findtext p path = Some t -> ET.findtext (ET.SubElement p tag a txt) path = Some t.
Proof.
  unfold ET.findtext. rewrite find_SubElement.
  destruct (ET.find p path); [trivial | discriminate].
Qed.

Lemma findtext_SubElement_new p tag a txt path :
  ET.findtext p path = None -> tag = path ->
  ET.findtext (ET.SubElement p tag a txt) path = Some (default "" txt).
Proof.
  unfold ET.findtext. rewrite find_SubElement. intros Hp ->.
  destruct (ET.find p path); [discriminate|]. now rewrite String.eqb_refl.
Qed.

Lemma findtext_SubElement_other p tag a txt path :
  String.eqb tag path = false ->
  ET.findtext (ET.SubElement p tag a txt) path = ET.findtext p path.
Proof.
  unfold ET.findtext. rewrite find_SubElement. intros ->.
  now destruct (ET.find p path).
Qed.

Lemma findall_SubElement_other p tag a txt path :
  String.eqb tag path = false ->
  ET.findall (ET.SubElement p tag a txt) path = ET.findall p path.
Proof.
  unfold ET.findall. rewrite children_SubElement, List.filter_app. intros Hne.
  cbn [List.filter]. unfold ET.has_tag at 2. cbn [ET.tag]. rewrite Hne.
  apply app_nil_r.
Qed.

Lemma in_list_codes (x : option string) :
  in_list x ["IN_PROGRESS"; "OK"] = true <-> x = Some "IN_PROGRESS" \/ x = Some "OK".
Proof.
  unfold in_list. rewrite bool_decide_eq_true. cbn [fmap list_fmap].
  rewrite !elem_of_cons, elem_of_nil. tauto.
Qed.

End ElementTrees.

Section Requests.

Variable TYPES_URN : string.
Variable server : list Request -> Request -> result ET.Element.

(** What a method does from the point where it writes out its request
    tree: one request is sent, and the method goes on with the answer. *)
Lemma post_request {A} (act : string) (elm : ET.Element)
    (k : ET.Element -> M A) (sent : list Request) :
  ET.serializable elm = true ->
  bind (lift (ET.tostring elm))
    (fun body => bind (request_with_orgId_api_2 server act None (Some body) "POST") k) sent
  = match server sent (mkRequest act "POST" None (Some elm)) with
    | OK response => k response (sent ++ [mkRequest act "POST" None (Some elm)])%list
    | Raise e => Raise e
    end.
Proof.
  intros Hs. unfold bind at 1, lift. rewrite (tostring_OK _ Hs).
  unfold bind, request_with_orgId_api_2.
  now destruct (server sent _).
Qed.

Lemma post_refused {A} (act : string) (elm : ET.Element)
    (k : ET.Element -> M A) (sent : list Request) :
  ET.serializable elm = false ->
  bind (lift (ET.tostring elm))
    (fun body => bind (request_with_orgId_api_2 server act None (Some body) "POST") k) sent
  = Raise (TypeError "cannot serialize None (type NoneType)").
Proof. intros Hs. unfold bind at 1, lift, ET.tostring. now rewrite Hs. Qed.

(** The loop over the [info] elements that keeps one field: the value it
    ends with is that of the last element with the name. *)
Lemma scan_info key (infos : list ET.Element) (acc : option string) :
  fold_left
    (fun acc info => if str_eq (ET.get info "name") key then ET.get info "value" else acc)
    infos acc
  = match last (List.filter (fun info => str_eq (ET.get info "name") key) infos) with
    | Some info => ET.get info "value"
    | None => acc
    end.
Proof.
  revert acc. induction infos as [|info infos IH] using rev_ind; intros acc.
  - reflexivity.
  - rewrite fold_left_app, List.filter_app. cbn [fold_left List.filter].
    destruct (str_eq (ET.get info "name") key).
    + now rewrite last_snoc.
    + rewrite app_nil_r. apply IH.
Qed.

(** The loop that keeps two fields does the work of two loops. *)
Lemma scan_info_pair key1 key2 (infos : list ET.Element) (acc1 acc2 : option string) :
  fold_left
    (fun '(x, y) info =>
       let x := if str_eq (ET.get info "name") key1 then ET.get info "value" else x in
       let y := if str_eq (ET.get info "name") key2 then ET.get info "value" else y in
       (x, y))
    infos (acc1, acc2)
  = (fold_left
       (fun acc info => if str_eq (ET.get info "name") key1 then ET.get info "value" else acc)
       infos acc1,
     fold_left
       (fun acc info => if str_eq (ET.get info "name") key2 then ET.get info "value" else acc)
       infos acc2).
Proof.
  revert acc1 acc2. induction infos as [|info infos IH]; intros acc1 acc2.
  - reflexivity.
  - cbn [fold_left]. apply IH.
Qed.

Lemma scan_info_field key (response : ET.Element) :
  fold_left
    (fun acc info => if str_eq (ET.get info "name") key then ET.get info "value" else acc)
    (Xml.findall response "info" TYPES_URN) None
  = info_field TYPES_URN response key.
Proof.
  rewrite scan_info. unfold info_field.
  now destruct (last _).
Qed.

Lemma info_field_absent key (response : ET.Element) :
  (forall info, In info (Xml.findall response "info" TYPES_URN) ->
                ET.get info "name" <> Some key) ->
  info_field TYPES_URN response key = None.
Proof.
  intros Habs. unfold info_field.
  assert (List.filter (fun info => str_eq (ET.get info "name") key)
            (Xml.findall response "info" TYPES_URN) = []) as ->; [|reflexivity].
  induction (Xml.findall response "info" TYPES_URN) as [|info infos IH]; [reflexivity|].
  cbn [List.filter]. unfold str_eq at 1.
  rewrite bool_decide_eq_false_2 by (apply Habs; now left).
  apply IH. intros i Hi. apply Habs. now right.
Qed.

(** The table in the class is the table of the specification. *)
Lemma _VALUE_TO_STATE_MAP_get_table (key : option string) :
  _VALUE_TO_STATE_MAP_get key = state_of_vendor_status key.
Proof.
  destruct key as [s|]; [|reflexivity].
  unfold _VALUE_TO_STATE_MAP_get, _VALUE_TO_STATE_MAP, state_of_vendor_status.
  cbn [mbind option_bind]. rewrite !list_to_map_cons, list_to_map_nil.
  repeat match goal with
  | |- context [String.eqb s ?k] =>
      destruct (String.eqb_spec s k) as [->|?];
      [ cbn [orb]; rewrite ?lookup_insert_eq; reflexivity
      | rewrite (lookup_insert_ne _ k s) by congruence ]
  end.
  now rewrite lookup_empty.
Qed.

End Requests.

(** ** The claims *)

(** C1.  The state of a parsed balancer or node is a pure table lookup on
    the vendor [state] string: for every element, [_to_node] and
    [_to_balancer] give the state that the table NORMAL -> RUNNING;
    PENDING_ADD, PENDING_CHANGE, PENDING_DELETE -> PENDING; FAILED_ADD,
    FAILED_CHANGE, FAILED_DELETE, REQUIRES_SUPPORT -> ERROR assigns to the
    text of the [state] child, and UNKNOWN for every other string and for
    a missing [state] element. *)
Theorem state_is_table_lookup (TYPES_URN : string) (element : ET.Element) :
  let vendor := Xml.findtext element "state" TYPES_URN in
  NttCisVIPNode.status (_to_node TYPES_URN element) = VState (state_of_vendor_status vendor)
  /\ LoadBalancer.state (_to_balancer TYPES_URN element) = state_of_vendor_status vendor
  /\ (vendor = Some "NORMAL" <-> state_of_vendor_status vendor = RUNNING)
  /\ (vendor ∈ [Some "PENDING_ADD"; Some "PENDING_CHANGE"; Some "PENDING_DELETE"]
      <-> state_of_vendor_status vendor = PENDING)
  /\ (vendor ∈ [Some "FAILED_ADD"; Some "FAILED_CHANGE"; Some "FAILED_DELETE";
                Some "REQUIRES_SUPPORT"]
      <-> state_of_vendor_status vendor = ERROR)
  /\ (vendor ∉ [Some "NORMAL"; Some "PENDING_ADD"; Some "PENDING_CHANGE";
                Some "PENDING_DELETE"; Some "FAILED_ADD"; Some "FAILED_CHANGE";
                Some "FAILED_DELETE"; Some "REQUIRES_SUPPORT"]
      <-> state_of_vendor_status vendor = UNKNOWN)
  /\ (ET.find element (Xml.fixxpath "state" TYPES_URN) = None ->
      state_of_vendor_status vendor = UNKNOWN).
Proof.
  intros vendor.
  split; [|split].
  - unfold _to_node. cbn [NttCisVIPNode.status]. now rewrite _VALUE_TO_STATE_MAP_get_table.
  - unfold _to_balancer. cbn [LoadBalancer.state]. now rewrite _VALUE_TO_STATE_MAP_get_table.
  - assert (ET.find element (Xml.fixxpath "state" TYPES_URN) = None ->
            state_of_vendor_status vendor = UNKNOWN) as Hmiss.
    { subst vendor. unfold Xml.findtext, ET.findtext. now intros ->. }
    repeat (split; [|try exact Hmiss]); clear Hmiss; clearbody vendor;
      rewrite ?elem_of_cons, ?elem_of_nil;
      destruct vendor as [s|]; cbn [state_of_vendor_status];
      try (intuition discriminate);
      repeat match goal with
      | |- context [String.eqb s ?k] =>
          destruct (String.eqb_spec s k) as [->|?]; cbn [orb]
      end;
      intuition congruence.
Qed.

Ltac attrs_ok :=
  repeat match goal with
  | |- map_Forall _ ∅ => apply attrs_empty
  | |- map_Forall _ {[ _ := Some _ ]} => apply attrs_singleton
  | |- map_Forall _ (<[ _ := Some _ ]> _) => apply attrs_insert
  end.

Ltac serializable_ok :=
  repeat match goal with
  | |- context [ET.serializable (ET.SubElement _ _ _ _)] =>
      rewrite serializable_SubElement by attrs_ok
  | |- ET.serializable (ET.set _ _ (Some _)) = true => apply serializable_set
  | |- ET.serializable (ET.Element_ _ _) = true => apply serializable_Element; attrs_ok
  | |- ET.serializable (match ?o with Some _ => _ | None => _ end) = true => destruct o
  | |- ET.serializable (if ?b then _ else _) = true => destruct b
  end.

Lemma serializable_kwargs (kwargs : Dict.t string (option string)) (elm : ET.Element) :
  ET.serializable
    (fold_left
       (fun elm kv =>
          match kv.2 with
          | None => ET.SubElement elm kv.1 {[ "xsi:nil" := Some "true" ]} None
          | Some v => ET.SubElement elm kv.1 ∅ (Some v)
          end)
       kwargs elm)
  = ET.serializable elm.
Proof.
  revert elm. induction kwargs as [|[k v] kwargs IH]; intros elm; [reflexivity|].
  cbn [fold_left]. rewrite IH. cbn [fst snd].
  destruct v; now serializable_ok.
Qed.

(** The common tail of the boolean methods: the request goes out, and
    the boolean is read off the [responseCode] of the answer. *)
Lemma post_response_code TYPES_URN server (act : string) (elm : ET.Element)
    (sent : list Request) :
  ET.serializable elm = true ->
  (forall req, is_OK (server sent req) = true) ->
  exists req response,
    server sent req = OK response
    /\ bind (lift (ET.tostring elm))
         (fun body =>
            bind (request_with_orgId_api_2 server act None (Some body) "POST")
              (fun result =>
                 ret (in_list (Xml.findtext result "responseCode" TYPES_URN)
                        ["IN_PROGRESS"; "OK"]))) sent
       = OK (in_list (Xml.findtext response "responseCode" TYPES_URN) ["IN_PROGRESS"; "OK"],
             (sent ++ [req])%list).
Proof.
  intros Hs Hanswer. rewrite (post_request server act elm _ sent Hs).
  specialize (Hanswer (mkRequest act "POST" None (Some elm))).
  destruct (server sent _) as [response|] eqn:Hr; [|discriminate].
  exists (mkRequest act "POST" None (Some elm)), response. now split.
Qed.

(** C3.  Every boolean-returning mutation (destroy_balancer,
    balancer_detach_member, ex_update_listener, ex_update_pool,
    ex_destroy_pool, ex_destroy_node, ex_set_pool_member_state and the SSL
    import, edit and delete methods), once its request is sent and
    answered, returns [True] if and only if the [responseCode] text of the
    answer is IN_PROGRESS or OK, and [False] for every other value,
    a missing [responseCode] included; the result is a function of that
    text alone. *)
Theorem mutation_returns_response_code TYPES_URN server OpenSSL
    (m : Mutation) (sent : list Request) :
  ready OpenSSL m = true ->
  (forall req, is_OK (server sent req) = true) ->
  exists req response,
    server sent req = OK response
    /\ (let code := Xml.findtext response "responseCode" TYPES_URN in
        call TYPES_URN server OpenSSL m sent
        = OK (in_list code ["IN_PROGRESS"; "OK"], (sent ++ [req])%list)
        /\ (in_list code ["IN_PROGRESS"; "OK"] = true
            <-> code = Some "IN_PROGRESS" \/ code = Some "OK")).
Proof.
  intros Hready Hanswer.
  assert (forall act elm, ET.serializable elm = true ->
    exists req response,
      server sent req = OK response
      /\ (let code := Xml.findtext response "responseCode" TYPES_URN in
          bind (lift (ET.tostring elm))
            (fun body =>
               bind (request_with_orgId_api_2 server act None (Some body) "POST")
                 (fun result =>
                    ret (in_list (Xml.findtext result "responseCode" TYPES_URN)
                           ["IN_PROGRESS"; "OK"]))) sent
          = OK (in_list code ["IN_PROGRESS"; "OK"], (sent ++ [req])%list)
          /\ (in_list code ["IN_PROGRESS"; "OK"] = true
              <-> code = Some "IN_PROGRESS" \/ code = Some "OK"))) as Htail.
  { intros act elm Hs.
    destruct (post_response_code TYPES_URN server act elm sent Hs Hanswer)
      as (req & response & Hr & Hcall).
    exists req, response. split; [exact Hr|]. split; [exact Hcall|apply in_list_codes]. }
  unfold ready in Hready.
  destruct m; cbn [target_id files_load] in Hready; cbn [call].
  - destruct (LoadBalancer.id balancer) eqn:Hid; [|discriminate].
    unfold destroy_balancer. rewrite Hid. apply Htail. serializable_ok.
  - destruct (Member.id member) eqn:Hid; [|discriminate].
    unfold balancer_detach_member. rewrite Hid. apply Htail. serializable_ok.
  - destruct (NttCisVirtualListener.id virtual_listener) eqn:Hid; [|discriminate].
    unfold ex_update_listener. rewrite Hid. apply Htail.
    rewrite serializable_kwargs. serializable_ok.
  - destruct (NttCisPool.id pool) eqn:Hid; [|discriminate].
    unfold ex_update_pool. rewrite Hid. apply Htail. serializable_ok.
  - destruct (NttCisPool.id pool) eqn:Hid; [|discriminate].
    unfold ex_destroy_pool. rewrite Hid. apply Htail. serializable_ok.
  - destruct node_id; [|discriminate].
    unfold ex_destroy_node. apply Htail. serializable_ok.
  - destruct (NttCisPoolMember.id member) eqn:Hid; [|discriminate].
    unfold ex_set_pool_member_state. rewrite Hid. apply Htail. serializable_ok.
  - unfold ex_import_ssl_domain_certificate.
    destruct OpenSSL as [crypto|]; [|discriminate].
    apply andb_true_iff in Hready as [Hc Hk].
    unfold bind at 1, lift at 1.
    destruct (certificate_pem crypto crt_file) as [cert|]; [|discriminate].
    unfold bind at 1, lift at 1.
    destruct (privatekey_pem crypto key_file) as [key|]; [|discriminate].
    apply Htail. destruct description; serializable_ok.
  - unfold ex_import_ssl_cert_chain.
    destruct OpenSSL as [crypto|]; [|discriminate].
    unfold bind at 1, lift at 1.
    destruct (certificate_pem crypto chain_crt_file) as [cert|]; [|discriminate].
    apply Htail. destruct description; serializable_ok.
  - destruct profile_id; [|discriminate].
    unfold ex_edit_ssl_offload_profile. apply Htail.
    destruct description, ciphers, ssl_cert_chain_id; serializable_ok.
  - destruct dom_cert_id; [|discriminate].
    unfold ex_delete_ssl_domain_certificate. apply Htail. serializable_ok.
  - destruct cert_chain_id; [|discriminate].
    unfold ex_delete_ssl_certificate_chain. apply Htail. serializable_ok.
  - destruct profile_id; [|discriminate].
    unfold ex_delete_ssl_offload_profile. apply Htail. serializable_ok.
Qed.

Lemma mutation_returns_response_code_witness :
  exists req response,
    Sample.silent "FAILED" [] req = OK response
    /\ (let code := Xml.findtext response "responseCode" Sample.URN in
        call Sample.URN (Sample.silent "FAILED") None
          (Ex_destroy_pool Sample.pool) []
        = OK (in_list code ["IN_PROGRESS"; "OK"], ([] ++ [req])%list)
        /\ (in_list code ["IN_PROGRESS"; "OK"] = true
            <-> code = Some "IN_PROGRESS" \/ code = Some "OK")).
Proof.
  apply (mutation_returns_response_code Sample.URN (Sample.silent "FAILED") None
           (Ex_destroy_pool Sample.pool) []).
  - reflexivity.
  - intros req. reflexivity.
Defined.


Lemma ex_create_pool_member_sends TYPES_URN server {A} `{NodeLike A}
    (pool : NttCisPool.t) (node : A) (port : value) (sent : list Request) :
  let body :=
    ET.mkElement "addPoolMember" {[ "xmlns" := Some TYPES_URN ]} None
      ([ ET.mkElement "poolId" ∅ (NttCisPool.id pool) [];
         ET.mkElement "nodeId" ∅ (node_id_of node) [] ]
       ++ (if bool_decide (port = VNone) then []
           else [ ET.mkElement "port" ∅ (Some (str port)) [] ])
       ++ [ ET.mkElement "status" ∅ (Some "ENABLED") [] ])%list in
  let req := mkRequest "networkDomainVip/addPoolMember" "POST" None (Some body) in
  ex_create_pool_member TYPES_URN server pool node port sent
  = match server sent req with
    | OK response =>
        OK (NttCisPoolMember.mk
              (info_field TYPES_URN response "poolMemberId")
              (info_field TYPES_URN response "nodeName")
              (VState RUNNING) (node_ip_of node) port (node_id_of node),
            (sent ++ [req])%list)
    | Raise e => Raise e
    end.
Proof.
  intros body req. unfold ex_create_pool_member.
  rewrite post_request by (destruct port; cbn [is_not_None]; serializable_ok).
  replace (mkRequest "networkDomainVip/addPoolMember" "POST" None (Some _)) with req
    by (subst req body; destruct port; reflexivity).
  destruct (server sent req) as [response|e]; [|reflexivity].
  rewrite scan_info_pair, !scan_info_field. reflexivity.
Qed.

Lemma serializable_monitors (monitors : list NttCisDefaultHealthMonitor.t) (elm : ET.Element) :
  ET.serializable
    (fold_left
       (fun elm monitor =>
          ET.SubElement elm "healthMonitorId" ∅
            (Some (str (of_text monitor.(NttCisDefaultHealthMonitor.id)))))
       monitors elm)
  = ET.serializable elm.
Proof.
  revert elm. induction monitors as [|monitor monitors IH]; intros elm; [reflexivity|].
  cbn [fold_left]. rewrite IH. now serializable_ok.
Qed.

Lemma SubElement_monitors (monitors : list NttCisDefaultHealthMonitor.t) (elm : ET.Element) :
  fold_left
    (fun elm monitor =>
       ET.SubElement elm "healthMonitorId" ∅
         (Some (str (of_text monitor.(NttCisDefaultHealthMonitor.id)))))
    monitors elm
  = ET.mkElement (ET.tag elm) (ET.attrib elm) (ET.text elm)
      (ET.children elm
       ++ List.map
            (fun monitor =>
               ET.mkElement "healthMonitorId" ∅
                 (Some (str (of_text monitor.(NttCisDefaultHealthMonitor.id)))) [])
            monitors)%list.
Proof.
  revert elm. induction monitors as [|monitor monitors IH]; intros elm.
  - cbn [fold_left List.map]. rewrite app_nil_r. now destruct elm.
  - cbn [fold_left List.map]. rewrite IH.
    rewrite tag_SubElement, attrib_SubElement, children_SubElement.
    now rewrite <- app_assoc.
Qed.

(** In a goal that compares the method with the cases of the answer to a
    request still to be named, name the request the method sent and take
    the cases. *)
Ltac answer_cases response e :=
  match goal with
  | |- match ?server ?sent ?r with OK _ => _ | Raise _ => _ end
       = match ?server ?sent ?q with OK _ => _ | Raise _ => _ end =>
      unify q r; destruct (server sent r) as [response|e]; [|reflexivity]
  end.

(** What each create method returns once its request is answered. *)
Lemma ex_create_pool_sends TYPES_URN server network_domain_id name balancer_method
    ex_description health_monitors service_down_action slow_ramp_time sent :
  let body :=
    ET.mkElement "createPool" {[ "xmlns" := Some TYPES_URN ]} None
      ([ ET.mkElement "networkDomainId" ∅ network_domain_id [];
         ET.mkElement "name" ∅ (Some name) [];
         ET.mkElement "description" ∅ (Some (str (of_text ex_description))) [];
         ET.mkElement "loadBalanceMethod" ∅ (Some (str balancer_method)) [] ]
       ++ List.map
            (fun monitor =>
               ET.mkElement "healthMonitorId" ∅
                 (Some (str (of_text monitor.(NttCisDefaultHealthMonitor.id)))) [])
            (default [] health_monitors)
       ++ [ ET.mkElement "serviceDownAction" ∅ service_down_action [];
            ET.mkElement "slowRampTime" ∅ (Some (str slow_ramp_time)) [] ])%list in
  let req := mkRequest "networkDomainVip/createPool" "POST" None (Some body) in
  ex_create_pool TYPES_URN server network_domain_id name balancer_method
    ex_description health_monitors service_down_action slow_ramp_time sent
  = match server sent req with
    | OK response =>
        OK (NttCisPool.mk (info_field TYPES_URN response "poolId") (Some name)
              ex_description (VState RUNNING) (Some (str balancer_method)) None
              service_down_action (Some (str slow_ramp_time)),
            (sent ++ [req])%list)
    | Raise e => Raise e
    end.
Proof.
  intros body req. unfold ex_create_pool. cbv zeta.
  rewrite post_request
    by (destruct health_monitors; serializable_ok; rewrite ?serializable_monitors;
        serializable_ok).
  replace (mkRequest "networkDomainVip/createPool" "POST" None (Some _)) with req.
  - destruct (server sent req) as [response|e]; [|reflexivity].
    now rewrite scan_info_field.
  - subst req body. do 2 f_equal. destruct health_monitors as [monitors|].
    + rewrite SubElement_monitors. cbn [default]. unfold ET.SubElement, ET.Element_.
      cbn [ET.tag ET.attrib ET.text ET.children app]. now rewrite <- !app_assoc.
    + reflexivity.
Qed.

Lemma ex_create_node_returns TYPES_URN server network_domain_id name ip ex_description
    connection_limit connection_rate_limit sent :
  exists req,
    action req = "networkDomainVip/createNode"
    /\ ex_create_node TYPES_URN server network_domain_id name ip ex_description
         connection_limit connection_rate_limit sent
       = match server sent req with
         | OK response =>
             OK (NttCisVIPNode.mk4 (info_field TYPES_URN response "nodeId")
                   (info_field TYPES_URN response "name") (VState RUNNING) ip,
                 (sent ++ [req])%list)
         | Raise e => Raise e
         end.
Proof.
  unfold ex_create_node. cbv zeta.
  rewrite post_request by (destruct ex_description; serializable_ok).
  eexists. split; cycle 1.
  - answer_cases response e. now rewrite scan_info_pair, !scan_info_field.
  - reflexivity.
Qed.

Lemma eq_int_spec (v : value) (n : Z) : eq_int v n = true <-> v = VInt n.
Proof.
  destruct v; cbn [eq_int]; try (split; [discriminate|intros [=]]).
  rewrite bool_decide_eq_true. split; [now intros ->|now intros [=]].
Qed.

(** Reading a tag that an earlier [SubElement] wrote, through the
    conditional [SubElement] calls that follow it. *)
Ltac findtext_through :=
  repeat match goal with
  | |- ET.findtext (ET.SubElement _ ?tag _ _) ?tag = Some _ =>
      apply findtext_SubElement_new; [reflexivity|reflexivity]
  | |- ET.findtext (ET.SubElement _ _ _ _) _ = Some _ =>
      apply findtext_SubElement_old
  | |- ET.findtext (match ?o with Some _ => _ | None => _ end) _ = Some _ => destruct o
  | |- ET.findtext (if ?b then _ else _) _ = Some _ => destruct b
  end.

Lemma ex_create_virtual_listener_sends TYPES_URN server network_domain_id name
    ex_description port pool listener_ip_address persistence_profile
    fallback_persistence_profile irule protocol optimization_profile
    connection_limit connection_rate_limit source_port_preservation sent :
  raises_ValueError port optimization_profile = false ->
  exists body,
    ET.findtext body "type"
    = Some (if eq_int port 80 || eq_int port 443 then "PERFORMANCE_LAYER_4" else "STANDARD")
    /\ ex_create_virtual_listener TYPES_URN server network_domain_id name
         ex_description port pool listener_ip_address persistence_profile
         fallback_persistence_profile irule protocol optimization_profile
         connection_limit connection_rate_limit source_port_preservation sent
       = match server sent
                 (mkRequest "networkDomainVip/createVirtualListener" "POST" None (Some body))
         with
         | OK response =>
             OK (NttCisVirtualListener.mk
                   (info_field TYPES_URN response "virtualListenerId") (Some name)
                   (VState RUNNING) (info_field TYPES_URN response "listenerIpAddress"),
                 (sent ++ [mkRequest "networkDomainVip/createVirtualListener" "POST" None
                             (Some body)])%list)
         | Raise e => Raise e
         end.
Proof.
  unfold raises_ValueError, ex_create_virtual_listener. intros Hok. cbv zeta.
  assert (String.eqb
            (if eq_int port 80 || eq_int port 443 then "PERFORMANCE_LAYER_4" else "STANDARD")
            "STANDARD" = negb (eq_int port 80 || eq_int port 443)) as ->
    by now destruct (eq_int port 80 || eq_int port 443).
  rewrite Hok.
  rewrite post_request
    by serializable_ok.
  eexists. split; cycle 1.
  - answer_cases response e. now rewrite scan_info_pair, !scan_info_field.
  - findtext_through.
Qed.

Lemma ex_create_virtual_listener_raises TYPES_URN server network_domain_id name
    ex_description port pool listener_ip_address persistence_profile
    fallback_persistence_profile irule protocol optimization_profile
    connection_limit connection_rate_limit source_port_preservation sent :
  raises_ValueError port optimization_profile = true ->
  exists msg,
    ex_create_virtual_listener TYPES_URN server network_domain_id name
      ex_description port pool listener_ip_address persistence_profile
      fallback_persistence_profile irule protocol optimization_profile
      connection_limit connection_rate_limit source_port_preservation sent
    = Raise (ValueError msg).
Proof.
  unfold raises_ValueError, ex_create_virtual_listener. intros Hraise. cbv zeta.
  assert (String.eqb
            (if eq_int port 80 || eq_int port 443 then "PERFORMANCE_LAYER_4" else "STANDARD")
            "STANDARD" = negb (eq_int port 80 || eq_int port 443)) as ->
    by now destruct (eq_int port 80 || eq_int port 443).
  rewrite Hraise. eexists. reflexivity.
Qed.

Lemma raises_ValueError_spec (port : value) (optimization_profile : option string) :
  raises_ValueError port optimization_profile = true
  <-> optimization_profile = None /\ port <> VInt 80 /\ port <> VInt 443.
Proof.
  unfold raises_ValueError.
  rewrite andb_true_iff, negb_true_iff, orb_false_iff, bool_decide_eq_true.
  rewrite <- !not_true_iff_false, !eq_int_spec. tauto.
Qed.

(** C4 (as amended).  Whatever the service, a create method sends one
    request and, once that request is answered, returns a record whose
    identifier is the [value] of the last [info] element of the answer
    whose [name] is [poolId] (ex_create_pool), [nodeId] (ex_create_node),
    [poolMemberId] (ex_create_pool_member) or [virtualListenerId]
    (ex_create_virtual_listener), and [None] when there is none; the
    status is RUNNING whatever the answer holds.  Of the other fields, the
    pool repeats [name], [ex_description], [str(balancer_method)],
    [service_down_action] and [str(slow_ramp_time)] and has no health
    monitor; the node repeats [ip] and takes its name from the [name] info
    field; the pool member repeats [node.ip], [port] and [node.id] and
    takes its name from the [nodeName] info field; the listener repeats
    [name] and takes its address from the [listenerIpAddress] info
    field. *)
Theorem create_returns_info_fields TYPES_URN server (sent : list Request) :
  (forall network_domain_id name balancer_method ex_description health_monitors
          service_down_action slow_ramp_time,
     exists req,
       action req = "networkDomainVip/createPool"
       /\ ex_create_pool TYPES_URN server network_domain_id name balancer_method
            ex_description health_monitors service_down_action slow_ramp_time sent
          = match server sent req with
            | OK response =>
                OK (NttCisPool.mk (info_field TYPES_URN response "poolId") (Some name)
                      ex_description (VState RUNNING) (Some (str balancer_method)) None
                      service_down_action (Some (str slow_ramp_time)),
                    (sent ++ [req])%list)
            | Raise e => Raise e
            end)
  /\ (forall network_domain_id name ip ex_description connection_limit
             connection_rate_limit,
        exists req,
          action req = "networkDomainVip/createNode"
          /\ ex_create_node TYPES_URN server network_domain_id name ip ex_description
               connection_limit connection_rate_limit sent
             = match server sent req with
               | OK response =>
                   OK (NttCisVIPNode.mk4 (info_field TYPES_URN response "nodeId")
                         (info_field TYPES_URN response "name") (VState RUNNING) ip,
                       (sent ++ [req])%list)
               | Raise e => Raise e
               end)
  /\ (forall (pool : NttCisPool.t) (node : NttCisVIPNode.t) (port : value),
        exists req,
          action req = "networkDomainVip/addPoolMember"
          /\ ex_create_pool_member TYPES_URN server pool node port sent
             = match server sent req with
               | OK response =>
                   OK (NttCisPoolMember.mk
                         (info_field TYPES_URN response "poolMemberId")
                         (info_field TYPES_URN response "nodeName")
                         (VState RUNNING) (NttCisVIPNode.ip node) port
                         (NttCisVIPNode.id node),
                       (sent ++ [req])%list)
               | Raise e => Raise e
               end)
  /\ (forall network_domain_id name ex_description port pool listener_ip_address
             persistence_profile fallback_persistence_profile irule protocol
             optimization_profile connection_limit connection_rate_limit
             source_port_preservation,
        raises_ValueError port optimization_profile = false ->
        exists req,
          action req = "networkDomainVip/createVirtualListener"
          /\ ex_create_virtual_listener TYPES_URN server network_domain_id name
               ex_description port pool listener_ip_address persistence_profile
               fallback_persistence_profile irule protocol optimization_profile
               connection_limit connection_rate_limit source_port_preservation sent
             = match server sent req with
               | OK response =>
                   OK (NttCisVirtualListener.mk
                         (info_field TYPES_URN response "virtualListenerId") (Some name)
                         (VState RUNNING)
                         (info_field TYPES_URN response "listenerIpAddress"),
                       (sent ++ [req])%list)
               | Raise e => Raise e
               end)
  /\ (forall response key,
        (forall info, In info (Xml.findall response "info" TYPES_URN) ->
                      ET.get info "name" <> Some key) ->
        info_field TYPES_URN response key = None).
Proof.
  repeat split.
  - intros. eexists. split; [|apply ex_create_pool_sends]. reflexivity.
  - intros. apply ex_create_node_returns.
  - intros. eexists. split; [|apply ex_create_pool_member_sends]. reflexivity.
  - intros * Hok.
    edestruct ex_create_virtual_listener_sends as (body & _ & Hcall); [exact Hok|].
    eexists. split; [|exact Hcall]. reflexivity.
  - intros response key. apply info_field_absent.
Qed.

Lemma create_returns_info_fields_witness :
  (exists req,
     ex_create_pool Sample.URN Sample.server (Some "nd-1") "my pool"
       (VStr "ROUND_ROBIN") None None (Some "NONE") (VInt 30) []
     = OK (NttCisPool.mk (Some "pool-1") (Some "my pool") None (VState RUNNING)
             (Some "ROUND_ROBIN") None (Some "NONE") (Some "30"),
           [req]))
  /\ (exists req,
        ex_create_node Sample.URN Sample.server (Some "nd-1") "web1"
          (Some "10.0.0.1") None (VInt 25000) (VInt 2000) []
        = OK (NttCisVIPNode.mk4 (Some "node-1") (Some "node.one") (VState RUNNING)
                (Some "10.0.0.1"),
              [req]))
  /\ (exists req,
        ex_create_pool_member Sample.URN Sample.server Sample.pool Sample.node
          (VInt 8080) []
        = OK (NttCisPoolMember.mk (Some "member-1") (Some "node.one") (VState RUNNING)
                (Some "10.0.0.1") (VInt 8080) (Some "node-1"),
              [req]))
  /\ (exists req,
        ex_create_virtual_listener Sample.URN Sample.server (Some "nd-1") "lb"
          None (VInt 80) (Some Sample.pool) (Some "5.6.7.8") None None None "TCP"
          (Some "TCP") (VInt 25000) (VInt 2000) "PRESERVE" []
        = OK (NttCisVirtualListener.mk (Some "listener-1") (Some "lb") (VState RUNNING)
                (Some "165.180.12.22"),
              [req])).
Proof.
  destruct (create_returns_info_fields Sample.URN Sample.server [])
    as (Hpool & Hnode & Hmember & Hlistener & _).
  split; [|split; [|split]].
  - destruct (Hpool (Some "nd-1") "my pool" (VStr "ROUND_ROBIN") None None (Some "NONE")
                (VInt 30)) as (req & Haction & Hcall).
    exists req. rewrite Hcall. unfold Sample.server. rewrite Haction.
    vm_compute. reflexivity.
  - destruct (Hnode (Some "nd-1") "web1" (Some "10.0.0.1") None (VInt 25000) (VInt 2000))
      as (req & Haction & Hcall).
    exists req. rewrite Hcall. unfold Sample.server. rewrite Haction.
    vm_compute. reflexivity.
  - destruct (Hmember Sample.pool Sample.node (VInt 8080)) as (req & Haction & Hcall).
    exists req. rewrite Hcall. unfold Sample.server. rewrite Haction.
    vm_compute. reflexivity.
  - destruct (Hlistener (Some "nd-1") "lb" None (VInt 80) (Some Sample.pool)
                (Some "5.6.7.8") None None None "TCP" (Some "TCP") (VInt 25000)
                (VInt 2000) "PRESERVE" eq_refl) as (req & Haction & Hcall).
    exists req. rewrite Hcall. unfold Sample.server. rewrite Haction.
    vm_compute. reflexivity.
Defined.

(** C4, as first stated, fails: a service that names what it creates
    gives the node asked for as web1 the name node.one and the listener
    asked for on 5.6.7.8 the address 165.180.12.22, both read from the
    answer, and a pool created with a health monitor records none. *)
Lemma create_does_not_echo_arguments :
  (exists node sent',
     ex_create_node Sample.URN Sample.server (Some "nd-1") "web1"
       (Some "10.0.0.1") None (VInt 25000) (VInt 2000) [] = OK (node, sent')
     /\ NttCisVIPNode.id node = Some "node-1"
     /\ NttCisVIPNode.name node = Some "node.one"
     /\ NttCisVIPNode.name node <> Some "web1")
  /\ (exists listener sent',
        ex_create_virtual_listener Sample.URN Sample.server (Some "nd-1") "lb"
          None (VInt 80) None (Some "5.6.7.8") None None None "TCP" (Some "TCP")
          (VInt 25000) (VInt 2000) "PRESERVE" [] = OK (listener, sent')
        /\ NttCisVirtualListener.id listener = Some "listener-1"
        /\ NttCisVirtualListener.ip listener = Some "165.180.12.22"
        /\ NttCisVirtualListener.ip listener <> Some "5.6.7.8")
  /\ (exists pool sent',
        ex_create_pool Sample.URN Sample.server (Some "nd-1") "pool"
          (VStr "ROUND_ROBIN") None
          (Some [NttCisDefaultHealthMonitor.mk (Some "hm-1") (Some "CCDEFAULT.Http") true true])
          (Some "NONE") (VInt 30) [] = OK (pool, sent')
        /\ NttCisPool.id pool = Some "pool-1"
        /\ NttCisPool.health_monitor_id pool = None
        /\ NttCisPool.health_monitor_id pool <> Some "hm-1").
Proof.
  split; [|split]; do 2 eexists; (split; [vm_compute; reflexivity|]);
    (split; [reflexivity|]); (split; [reflexivity|discriminate]).
Qed.

(** C6.  For every call of [ex_create_pool_member], the [addPoolMember]
    request holds [poolId] equal to [pool.id], [nodeId] equal to
    [node.id], a [port] element with [str(port)] exactly when [port] is
    not [None], and the status ENABLED; the member returned binds that
    node into that pool on that port ([node_id = node.id],
    [ip = node.ip], [port = port]), its [id] and [name] being the
    [poolMemberId] and [nodeName] info fields of the answer, [None] when
    the answer has no such field. *)
Theorem create_pool_member_binds_node TYPES_URN server {A} `{NodeLike A}
    (pool : NttCisPool.t) (node : A) (port : value) (sent : list Request) :
  let body :=
    ET.mkElement "addPoolMember" {[ "xmlns" := Some TYPES_URN ]} None
      ([ ET.mkElement "poolId" ∅ (NttCisPool.id pool) [];
         ET.mkElement "nodeId" ∅ (node_id_of node) [] ]
       ++ (if bool_decide (port = VNone) then []
           else [ ET.mkElement "port" ∅ (Some (str port)) [] ])
       ++ [ ET.mkElement "status" ∅ (Some "ENABLED") [] ])%list in
  let req := mkRequest "networkDomainVip/addPoolMember" "POST" None (Some body) in
  ex_create_pool_member TYPES_URN server pool node port sent
  = match server sent req with
    | OK response =>
        OK (NttCisPoolMember.mk
              (info_field TYPES_URN response "poolMemberId")
              (info_field TYPES_URN response "nodeName")
              (VState RUNNING) (node_ip_of node) port (node_id_of node),
            (sent ++ [req])%list)
    | Raise e => Raise e
    end
  /\ (forall response key,
        (forall info, In info (Xml.findall response "info" TYPES_URN) ->
                      ET.get info "name" <> Some key) ->
        info_field TYPES_URN response key = None).
Proof.
  intros body req. split.
  - apply ex_create_pool_member_sends.
  - intros response key. apply info_field_absent.
Qed.

(** C5 (as amended).  For every [poolMember] element that has a [node]
    child, [_to_member] fills the member with [id] from the [id]
    attribute, [name], [node_id] and [ip] from the [node] child's [name],
    [id] and [ipAddress] attributes, [status] from the text of the [state]
    element, and [port] with the integer that [int()] returns for the text
    of the [port] element - for a text of at most 4300 ASCII characters the
    integer the text spells - and with [None] when there is no [port]
    element; an exception of [int()] is the outcome.  For every [pool]
    element, [_to_pool] fills all eight fields of the pool with the
    correspondingly named attribute or element text, unchanged. *)
Theorem to_member_and_to_pool_fields TYPES_URN (int_other : string -> result Z)
    (element node pool : ET.Element) :
  ET.find element (Xml.fixxpath "node" TYPES_URN) = Some node ->
  let member (port : value) :=
    NttCisPoolMember.mk (ET.get element "id") (ET.get node "name")
      (of_text (Xml.findtext element "state" TYPES_URN))
      (ET.get node "ipAddress") port (ET.get node "id") in
  (forall (text : string) (n : Z),
     Xml.findtext element "port" TYPES_URN = Some text ->
     PyStr.int int_other text = OK n ->
     _to_member TYPES_URN int_other element = OK (member (VInt n)))
  /\ (forall (text : string) (n : Z),
        Xml.findtext element "port" TYPES_URN = Some text ->
        PyStr.ascii_only text = true ->
        (N.of_nat (String.length text) <= 4300)%N ->
        PyStr.literal text = Some n ->
        _to_member TYPES_URN int_other element = OK (member (VInt n)))
  /\ (Xml.findtext element "port" TYPES_URN = None ->
      _to_member TYPES_URN int_other element = OK (member VNone))
  /\ (forall (text : string) (e : exn),
        Xml.findtext element "port" TYPES_URN = Some text ->
        PyStr.int int_other text = Raise e ->
        _to_member TYPES_URN int_other element = Raise e)
  /\ _to_pool TYPES_URN pool
     = NttCisPool.mk (ET.get pool "id")
         (Xml.findtext pool "name" TYPES_URN)
         (Xml.findtext pool "description" TYPES_URN)
         (of_text (Xml.findtext pool "state" TYPES_URN))
         (Xml.findtext pool "loadBalanceMethod" TYPES_URN)
         (Xml.findtext pool "healthMonitorId" TYPES_URN)
         (Xml.findtext pool "serviceDownAction" TYPES_URN)
         (Xml.findtext pool "slowRampTime" TYPES_URN).
Proof.
  intros Hnode member.
  assert (forall text n,
            Xml.findtext element "port" TYPES_URN = Some text ->
            PyStr.int int_other text = OK n ->
            _to_member TYPES_URN int_other element = OK (member (VInt n))) as Hread.
  { intros text n Hport Hint. unfold _to_member.
    rewrite Hport, Hint, Hnode. reflexivity. }
  split; [exact Hread|]. split; [|split; [|split]].
  - intros text n Hport Hascii Hlength Hliteral. apply (Hread text n Hport).
    unfold PyStr.int. rewrite Hascii, Hliteral.
    now rewrite (proj2 (N.leb_le _ _) Hlength).
  - intros Hport. unfold _to_member. rewrite Hport, Hnode. reflexivity.
  - intros text e Hport Hint. unfold _to_member.
    rewrite Hport, Hint. reflexivity.
  - reflexivity.
Qed.

Lemma to_member_and_to_pool_fields_witness :
  _to_member Sample.URN Sample.int_other Sample.poolMember
  = OK (NttCisPoolMember.mk (Some "member-1") (Some "node.one") (VStr "NORMAL")
          (Some "10.0.0.1") (VInt 80) (Some "node-1")).
Proof.
  refine (proj1 (to_member_and_to_pool_fields Sample.URN Sample.int_other
                   Sample.poolMember
                   (Sample.elem "node"
                      {[ "id" := Some "node-1"; "name" := Some "node.one";
                         "ipAddress" := Some "10.0.0.1" ]} None [])
                   Sample.poolMember _) "080" 80 _ _);
    vm_compute; reflexivity.
Defined.

(** C5, as first stated, fails: the port of a member whose [port] element
    reads 080 is the integer 80, not the text of the element; and an
    element without a [node] child gives no member at all. *)
Lemma to_member_port_not_verbatim :
  Xml.findtext Sample.poolMember "port" Sample.URN = Some "080"
  /\ (exists member,
        _to_member Sample.URN Sample.int_other Sample.poolMember = OK member
        /\ NttCisPoolMember.port member = VInt 80
        /\ NttCisPoolMember.port member
           <> of_text (Xml.findtext Sample.poolMember "port" Sample.URN))
  /\ _to_member Sample.URN Sample.int_other
       (Sample.elem "poolMember" {[ "id" := Some "member-2" ]} None [])
     = Raise AttributeError.
Proof.
  split; [vm_compute; reflexivity|]. split.
  - eexists. split; [vm_compute; reflexivity|].
    split; [reflexivity|]. vm_compute. discriminate.
  - vm_compute. reflexivity.
Qed.

(** C9.  [ex_create_virtual_listener] raises [ValueError] exactly when
    [optimization_profile] is [None] and [port] is neither 80 nor 443
    (the transport raising no [ValueError] of its own); when [port] is 80
    or 443 the listener type is PERFORMANCE_LAYER_4 and the call goes on
    to its request, also without an optimization profile; in every other
    case the listener type sent is STANDARD. *)
Theorem create_virtual_listener_raises_exactly TYPES_URN server network_domain_id name
    ex_description port pool listener_ip_address persistence_profile
    fallback_persistence_profile irule protocol optimization_profile
    connection_limit connection_rate_limit source_port_preservation sent :
  (forall req msg, server sent req <> Raise (ValueError msg)) ->
  let outcome :=
    ex_create_virtual_listener TYPES_URN server network_domain_id name
      ex_description port pool listener_ip_address persistence_profile
      fallback_persistence_profile irule protocol optimization_profile
      connection_limit connection_rate_limit source_port_preservation sent in
  let sends (listener_type : string) :=
    exists body,
      ET.findtext body "type" = Some listener_type
      /\ outcome
         = match server sent
                   (mkRequest "networkDomainVip/createVirtualListener" "POST" None (Some body))
           with
           | OK response =>
               OK (NttCisVirtualListener.mk
                     (info_field TYPES_URN response "virtualListenerId") (Some name)
                     (VState RUNNING) (info_field TYPES_URN response "listenerIpAddress"),
                   (sent ++ [mkRequest "networkDomainVip/createVirtualListener" "POST" None
                               (Some body)])%list)
           | Raise e => Raise e
           end in
  ((exists msg, outcome = Raise (ValueError msg))
   <-> optimization_profile = None /\ port <> VInt 80 /\ port <> VInt 443)
  /\ (port = VInt 80 \/ port = VInt 443 -> sends "PERFORMANCE_LAYER_4")
  /\ (port <> VInt 80 -> port <> VInt 443 -> optimization_profile <> None ->
      sends "STANDARD").
Proof.
  intros Htransport outcome sends.
  assert (raises_ValueError port optimization_profile = false ->
          sends (if eq_int port 80 || eq_int port 443
                 then "PERFORMANCE_LAYER_4" else "STANDARD")) as Hsends.
  { intros Hok. subst sends outcome. cbv beta.
    now apply ex_create_virtual_listener_sends. }
  split; [|split].
  - rewrite <- raises_ValueError_spec. split.
    + intros [msg Hraise].
      destruct (raises_ValueError port optimization_profile) eqn:Hcond; [reflexivity|].
      destruct (Hsends eq_refl) as (body & _ & Hcall). rewrite Hcall in Hraise.
      destruct (server sent _) as [response|e] eqn:Hanswer; [discriminate|].
      injection Hraise as ->. now apply Htransport in Hanswer.
    + intros Hcond. subst outcome. now apply ex_create_virtual_listener_raises.
  - intros Hport.
    assert (eq_int port 80 || eq_int port 443 = true) as Hfast
      by (apply orb_true_iff; rewrite !eq_int_spec; exact Hport).
    rewrite Hfast in Hsends. apply Hsends.
    unfold raises_ValueError. now rewrite Hfast.
  - intros H80 H443 Hprofile.
    assert (eq_int port 80 || eq_int port 443 = false) as Hslow
      by (apply orb_false_iff; rewrite <- !not_true_iff_false, !eq_int_spec; tauto).
    rewrite Hslow in Hsends. apply Hsends.
    unfold raises_ValueError. rewrite Hslow. cbn [negb andb].
    now apply bool_decide_eq_false_2.
Qed.

Lemma create_virtual_listener_raises_exactly_witness :
  (exists msg,
     ex_create_virtual_listener Sample.URN Sample.server (Some "nd-1") "lb" None
       (VInt 8080) None None None None None "TCP" None (VInt 25000) (VInt 2000)
       "PRESERVE" [] = Raise (ValueError msg))
  <-> (None : option string) = None /\ VInt 8080 <> VInt 80 /\ VInt 8080 <> VInt 443.
Proof.
  refine (proj1 (create_virtual_listener_raises_exactly Sample.URN Sample.server
                   (Some "nd-1") "lb" None (VInt 8080) None None None None None "TCP"
                   None (VInt 25000) (VInt 2000) "PRESERVE" [] _)).
  intros req msg. unfold Sample.server.
  repeat match goal with |- context [if ?b then _ else _] => destruct b end;
    discriminate.
Defined.

(** C10.  For every call of [ex_set_node_state], the [editNode] request
    holds a single [status] child (ENABLED when [enabled] is [True],
    DISABLED otherwise) and neither an [id] attribute nor an [id] element
    that would name the node; once the request is answered, whatever the
    answer, the method returns its [node] argument unchanged. *)
Theorem set_node_state_names_no_node TYPES_URN server
    (node : NttCisVIPNode.t) (enabled : bool) (sent : list Request) :
  let body :=
    ET.mkElement "editNode" {[ "xmlns" := Some TYPES_URN ]} None
      [ ET.mkElement "status" ∅ (Some (if enabled then "ENABLED" else "DISABLED")) [] ] in
  let req := mkRequest "networkDomainVip/editNode" "POST" None (Some body) in
  ex_set_node_state TYPES_URN server node enabled sent
  = match server sent req with
    | OK _ => OK (node, (sent ++ [req])%list)
    | Raise e => Raise e
    end
  /\ ET.get body "id" = None
  /\ dom (ET.attrib body) = {[ "xmlns" ]}
  /\ ET.find body "id" = None
  /\ List.map ET.tag (ET.children body) = ["status"].
Proof.
  intros body req. split; [|split; [|split; [|split]]].
  - unfold ex_set_node_state. cbv zeta. rewrite post_request by serializable_ok.
    reflexivity.
  - unfold ET.get. subst body. cbn [ET.attrib].
    now rewrite lookup_singleton_ne.
  - subst body. cbn [ET.attrib]. apply dom_singleton_L.
  - reflexivity.
  - reflexivity.
Qed.

(** C7.  [ex_wait_for_state(state, func, poll_interval, timeout, *args,
    **kwargs)] is the connection's [wait_for_state] called with the same
    [state], [func], [poll_interval], [timeout] and extra arguments,
    [poll_interval] being 2 and [timeout] 60 when the caller leaves them
    out: on every list of requests sent so far the two have the same
    outcome, so the driver method polls and inspects nothing itself. *)
Theorem wait_for_state_is_delegated (Obj : Type)
    (connection_wait_for_state :
       value -> (list value -> Dict.t string value -> M Obj) -> value -> value ->
       list value -> Dict.t string value -> M Obj)
    (state : value) (func : list value -> Dict.t string value -> M Obj)
    (args : list value) (kwargs : Dict.t string value) :
  (forall poll_interval timeout,
     ex_wait_for_state Obj connection_wait_for_state state func
       (Some poll_interval) (Some timeout) args kwargs
     = connection_wait_for_state state func poll_interval timeout args kwargs)
  /\ (forall poll_interval,
        ex_wait_for_state Obj connection_wait_for_state state func
          (Some poll_interval) None args kwargs
        = connection_wait_for_state state func poll_interval (VInt 60) args kwargs)
  /\ (forall timeout,
        ex_wait_for_state Obj connection_wait_for_state state func
          None (Some timeout) args kwargs
        = connection_wait_for_state state func (VInt 2) timeout args kwargs)
  /\ ex_wait_for_state Obj connection_wait_for_state state func None None args kwargs
     = connection_wait_for_state state func (VInt 2) (VInt 60) args kwargs.
Proof. repeat split. Qed.

Lemma contains_char_append c (s1 s2 : string) :
  PyStr.contains_char c (s1 +:+ s2)
  = PyStr.contains_char c s1 || PyStr.contains_char c s2.
Proof.
  induction s1 as [|a s1 IH]; [reflexivity|].
  simpl. rewrite IH. now destruct (Ascii.eqb a c).
Qed.

(** Replacing every space leaves none. *)
Lemma replace_leaves_no_space (s : string) :
  PyStr.contains_char " " (PyStr.replace " " "_" s) = false.
Proof.
  unfold PyStr.replace. induction s as [|c s IH]; [reflexivity|].
  cbn [PyStr.replace_from PyStr.startswith String.length Nat.pred].
  destruct (Ascii.eqb_spec " " c) as [<-|Hc].
  - rewrite contains_char_append, IH. reflexivity.
  - cbn [PyStr.contains_char].
    destruct (Ascii.eqb_spec c " ") as [->|_]; [now elim Hc|exact IH].
Qed.

Lemma replace_changes_spaced_name (name : string) :
  PyStr.contains_char " " name = true -> PyStr.replace " " "_" name <> name.
Proof.
  intros Hspace Hsame.
  pose proof (replace_leaves_no_space name) as Hnone.
  rewrite Hsame, Hspace in Hnone. discriminate.
Qed.

(** C8.  For every [name], [ex_create_pool] sends the name unchanged in
    the [createPool] request and returns it unchanged in the pool: the
    result of [name.replace(" ", "_")] is dropped, so a name with spaces
    goes out with its spaces, and differs from its sanitized form. *)
Theorem create_pool_sends_name_unchanged TYPES_URN server network_domain_id name
    balancer_method ex_description health_monitors service_down_action
    slow_ramp_time sent :
  exists body,
    ET.tag body = "createPool"
    /\ ET.findall body "name" = [ET.mkElement "name" ∅ (Some name) []]
    /\ ex_create_pool TYPES_URN server network_domain_id name balancer_method
         ex_description health_monitors service_down_action slow_ramp_time sent
       = match server sent (mkRequest "networkDomainVip/createPool" "POST" None (Some body))
         with
         | OK response =>
             OK (NttCisPool.mk (info_field TYPES_URN response "poolId") (Some name)
                   ex_description (VState RUNNING) (Some (str balancer_method)) None
                   service_down_action (Some (str slow_ramp_time)),
                 (sent ++ [mkRequest "networkDomainVip/createPool" "POST" None
                             (Some body)])%list)
         | Raise e => Raise e
         end
    /\ (PyStr.contains_char " " name = true ->
        PyStr.replace " " "_" name <> name
        /\ ET.findtext body "name" <> Some (PyStr.replace " " "_" name)).
Proof.
  eexists. split; [|split; [|split]]; cycle 2.
  - apply ex_create_pool_sends.
  - intros Hspace. split; [now apply replace_changes_spaced_name|].
    unfold ET.findtext, ET.find. cbn [ET.children app List.find ET.has_tag ET.tag].
    cbn [String.eqb Ascii.eqb Bool.eqb default ET.text].
    intros [= Hsame]. symmetry in Hsame. revert Hsame.
    now apply replace_changes_spaced_name.
  - reflexivity.
  - unfold ET.findall. cbn [ET.children]. rewrite !List.filter_app.
    cbn [List.filter ET.has_tag ET.tag String.eqb Ascii.eqb Bool.eqb app].
    assert (forall l : list NttCisDefaultHealthMonitor.t,
              List.filter (ET.has_tag "name")
                (List.map
                   (fun monitor =>
                      ET.mkElement "healthMonitorId" ∅
                        (Some (str (of_text monitor.(NttCisDefaultHealthMonitor.id)))) [])
                   l) = []) as ->; [|reflexivity].
    induction l as [|monitor l IH]; [reflexivity|exact IH].
Qed.

(** Whatever [create_balancer] returns, the port of the balancer is the
    [port] argument, the port of the members. *)
Lemma create_balancer_port TYPES_URN server self name listener_port port protocol
    algorithm members optimization_profile ex_listener_ip_address sent balancer sent' :
  create_balancer TYPES_URN server self name listener_port port protocol
    algorithm members optimization_profile ex_listener_ip_address sent
  = OK (balancer, sent') ->
  LoadBalancer.port balancer = port.
Proof.
  unfold create_balancer. cbv zeta. unfold bind at 1.
  destruct (Dict.get _ _); [|discriminate]. unfold ret at 1.
  unfold bind at 1. destruct (ex_create_pool _ _ _ _ _ _ _ _ _ _) as [[pool s1]|]; [|discriminate].
  unfold bind at 1.
  match goal with
  | |- match ?attach s1 with OK _ => _ | Raise _ => _ end = _ -> _ =>
      destruct (attach s1) as [[[] s2]|]; [|discriminate]
  end.
  unfold bind at 1.
  destruct (ex_create_virtual_listener _ _ _ _ _ _ _ _ _ _ _ _ _ _ _ _ _)
    as [[listener s3]|]; [|discriminate].
  unfold ret. now intros [= <- _].
Qed.

(** C2.  [create_balancer] named lb, listening on port 80 with one member
    served on port 8080: the pool, the pool member on 8080 and the
    listener on 80 are created in that order, and the balancer returned
    has the listener's identifier, name and address and is RUNNING; but
    its port is 8080, the port of the members, where the listener itself,
    and the balancer read back from the service, have port 80. *)
Theorem create_balancer_reports_member_port :
  exists balancer pool_request member_request listener_request body,
    create_balancer Sample.URN Sample.server Sample.driver "lb" (VInt 80) (VInt 8080)
      None None (Some [AMember (Member.mk (Some "node-1") (Some "10.0.0.1") (VInt 8080))])
      (Some "TCP") None []
    = OK (balancer, [pool_request; member_request; listener_request])
    /\ action pool_request = "networkDomainVip/createPool"
    /\ action member_request = "networkDomainVip/addPoolMember"
    /\ (data member_request ≫= fun body => ET.findtext body "port") = Some "8080"
    /\ action listener_request = "networkDomainVip/createVirtualListener"
    /\ data listener_request = Some body
    /\ ET.findtext body "port" = Some "80"
    /\ ET.findtext body "poolId" = Some "pool-1"
    /\ LoadBalancer.id balancer = Some "listener-1"
    /\ LoadBalancer.name balancer = Some "lb"
    /\ LoadBalancer.ip balancer = Some "165.180.12.22"
    /\ LoadBalancer.state balancer = RUNNING
    /\ LoadBalancer.extra balancer !! "pool_id" = Some (Some "pool-1")
    /\ LoadBalancer.port balancer = VInt 8080
    /\ LoadBalancer.port balancer <> VInt 80
    /\ LoadBalancer.port (_to_balancer Sample.URN Sample.virtualListener) = VStr "80".
Proof.
  do 5 eexists. split; [vm_compute; reflexivity|].
  repeat split; try (vm_compute; reflexivity). discriminate.
Qed.

(** ** Further properties of the driver *)

Lemma for_append_map {A B} (f : A -> B) (l : list A) :
  for_append f l = List.map f l.
Proof.
  unfold for_append.
  assert (forall out, fold_left (fun out x => (out ++ [f x])%list) l out
                      = (out ++ List.map f l)%list) as Hgen.
  { induction l as [|x l IH]; intros out; cbn [fold_left List.map].
    - now rewrite app_nil_r.
    - rewrite IH. now rewrite <- app_assoc. }
  apply Hgen.
Qed.

Lemma for_append_try_spec {A B} (f : A -> result B) (l : list A) (out ys : list B) :
  for_append_try f l out = OK ys
  <-> exists zs, ys = (out ++ zs)%list /\ Forall2 (fun x z => f x = OK z) l zs.
Proof.
  revert out. induction l as [|x l IH]; intros out; cbn [for_append_try].
  - split.
    + intros [= <-]. exists []. split; [now rewrite app_nil_r|constructor].
    + intros (zs & -> & Hzs). inversion Hzs. now rewrite app_nil_r.
  - destruct (f x) as [y|e] eqn:Hx.
    + rewrite IH. split.
      * intros (zs & -> & Hzs). exists (y :: zs).
        split; [now rewrite <- app_assoc|now constructor].
      * intros (zs & -> & Hzs). inversion Hzs as [|? z ? zs' Hz Hzs']; subst.
        rewrite Hx in Hz. injection Hz as <-.
        exists zs'. split; [now rewrite <- app_assoc|exact Hzs'].
    + split; [discriminate|].
      intros (zs & _ & Hzs). inversion Hzs as [|? z ? zs' Hz Hzs']; subst.
      rewrite Hx in Hz. discriminate.
Qed.

(** The first element that fails ends the loop with its exception. *)
Lemma for_append_try_raise {A B} (f : A -> result B) (l1 l2 : list A) (x : A)
    (e : exn) (out : list B) :
  Forall (fun x => is_OK (f x) = true) l1 -> f x = Raise e ->
  for_append_try f (l1 ++ x :: l2) out = Raise e.
Proof.
  intros Hl1 Hx. revert out. induction Hl1 as [|y l1 Hy _ IH]; intros out.
  - cbn [app for_append_try]. now rewrite Hx.
  - cbn [app for_append_try]. destruct (f y); [apply IH|discriminate].
Qed.

Lemma get_request {A} server (act : string) (params : option (gmap string string))
    (k : ET.Element -> M A) (sent : list Request) :
  bind (request_with_orgId_api_2 server act params None "GET") k sent
  = match server sent (mkRequest act "GET" params None) with
    | OK response => k response (sent ++ [mkRequest act "GET" params None])%list
    | Raise e => Raise e
    end.
Proof. unfold bind, request_with_orgId_api_2. now destruct (server sent _). Qed.

Lemma digit_not_space (c : ascii) (d : Z) :
  PyStr.digit c = Some d -> PyStr.Py_ISSPACE c = false.
Proof.
  destruct c as [[] [] [] [] [] [] [] []]; vm_compute; congruence.
Qed.

Lemma digit_pretty_N_char (d : N) :
  (d < 10)%N -> PyStr.digit (pretty_N_char d) = Some (Z.of_N d).
Proof.
  intros Hd.
  assert (d = 0 \/ d = 1 \/ d = 2 \/ d = 3 \/ d = 4 \/ d = 5 \/ d = 6 \/ d = 7
          \/ d = 8 \/ d = 9)%N as Hcases by lia.
  repeat destruct Hcases as [->|Hcases]; try reflexivity. now subst.
Qed.

Lemma trim_right_decimal (s : string) : decimal s = true -> PyStr.trim_right s = s.
Proof.
  induction s as [|c s IH]; [reflexivity|]. cbn [decimal PyStr.trim_right].
  destruct (PyStr.digit c) as [d|] eqn:Hc; [|discriminate].
  intros Hs. rewrite (IH Hs), (digit_not_space c d Hc). now destruct s.
Qed.

Lemma trim_decimal (s : string) : decimal s = true -> PyStr.trim s = s.
Proof.
  intros Hs. unfold PyStr.trim.
  assert (PyStr.trim_left s = s) as ->; [|now apply trim_right_decimal].
  destruct s as [|c s]; [reflexivity|]. cbn [decimal] in Hs. cbn [PyStr.trim_left].
  destruct (PyStr.digit c) as [d|] eqn:Hc; [|discriminate].
  now rewrite (digit_not_space c d Hc).
Qed.

Lemma unsigned_decimal (s : string) :
  decimal s = true -> s <> "" -> PyStr.unsigned s = PyStr.digits 0 s.
Proof.
  destruct s as [|c s]; [congruence|]. cbn [decimal PyStr.unsigned PyStr.digits].
  destruct (PyStr.digit c); [reflexivity|discriminate].
Qed.

Lemma digit_ascii (c : ascii) (d : Z) :
  PyStr.digit c = Some d -> (nat_of_ascii c <? 128)%nat = true.
Proof.
  destruct c as [[] [] [] [] [] [] [] []]; vm_compute; congruence.
Qed.

Lemma ascii_only_decimal (s : string) :
  decimal s = true -> PyStr.ascii_only s = true.
Proof.
  induction s as [|c s IH]; [reflexivity|]. cbn [decimal PyStr.ascii_only].
  destruct (PyStr.digit c) as [d|] eqn:Hc; [|discriminate].
  intros Hs. now rewrite (digit_ascii c d Hc), (IH Hs).
Qed.

(** A string of digits, with or without a minus sign in front, is a
    literal of the number the digits spell. *)
Lemma literal_decimal (s : string) (z : Z) :
  decimal s = true -> s <> "" -> PyStr.digits 0 s = Some z ->
  PyStr.literal s = Some z /\ PyStr.literal ("-" +:+ s) = Some (- z).
Proof.
  intros Hs Hne Hz. split.
  - unfold PyStr.literal. cbv zeta. rewrite (trim_decimal s Hs).
    assert (match s with
            | String "-" r => Z.opp <$> PyStr.unsigned r
            | String "+" r => PyStr.unsigned r
            | _ => PyStr.unsigned s
            end = PyStr.unsigned s) as ->.
    { destruct s as [|c s]; [reflexivity|]. cbn [decimal] in Hs.
      destruct c as [[] [] [] [] [] [] [] []]; try reflexivity; discriminate. }
    now rewrite (unsigned_decimal s Hs Hne), Hz.
  - unfold PyStr.literal, PyStr.trim. cbv zeta.
    change ("-" +:+ s) with (String "-" s).
    assert (PyStr.trim_right (PyStr.trim_left (String "-" s)) = String "-" s) as ->.
    { change (PyStr.trim_left (String "-" s)) with (String "-" s).
      cbn [PyStr.trim_right]. rewrite (trim_right_decimal s Hs).
      destruct s; [congruence|reflexivity]. }
    now rewrite (unsigned_decimal s Hs Hne), Hz.
Qed.

Lemma pretty_N_go_decimal (x : N) (s : string) :
  decimal s = true -> decimal (pretty_N_go x s) = true.
Proof.
  revert s. induction (N.lt_wf_0 x) as [x _ IH]; intros s Hs.
  destruct (decide (x = 0)%N) as [->|Hx]; [now rewrite pretty_N_go_0|].
  rewrite pretty_N_go_step by lia. apply IH.
  - apply N.div_lt; lia.
  - cbn [decimal]. rewrite digit_pretty_N_char by (apply N.mod_lt; lia). exact Hs.
Qed.

Lemma pretty_N_go_nonempty (x : N) (s : string) :
  s <> "" -> pretty_N_go x s <> "".
Proof.
  revert s. induction (N.lt_wf_0 x) as [x _ IH]; intros s Hs.
  destruct (decide (x = 0)%N) as [->|Hx]; [now rewrite pretty_N_go_0|].
  rewrite pretty_N_go_step by lia. apply IH; [apply N.div_lt; lia|discriminate].
Qed.

(** A number below [10 ^ k] is written with at most [k] digits. *)
Lemma pretty_N_go_length (x k : N) (s : string) :
  (x < 10 ^ k)%N ->
  (N.of_nat (String.length (pretty_N_go x s)) <= k + N.of_nat (String.length s))%N.
Proof.
  revert k s. induction (N.lt_wf_0 x) as [x _ IH]; intros k s Hx.
  destruct (decide (x = 0)%N) as [->|Hx0]; [rewrite pretty_N_go_0; lia|].
  rewrite pretty_N_go_step by lia.
  destruct (decide (k = 0)%N) as [->|Hk].
  { rewrite N.pow_0_r in Hx. lia. }
  assert (x `div` 10 < 10 ^ N.pred k)%N as Hdiv.
  { apply N.Div0.div_lt_upper_bound. rewrite <- N.pow_succ_r'.
    now rewrite N.succ_pred. }
  pose proof (IH (x `div` 10)%N ltac:(apply N.div_lt; lia) (N.pred k)
                (String (pretty_N_char (x `mod` 10)) s) Hdiv) as Hlen.
  clear Hx Hdiv IH. cbn [String.length] in Hlen. lia.
Qed.

(** Reading the digits that [pretty] wrote in front of [s] adds the
    number to the (shifted) number read so far. *)
Lemma digits_pretty_N_go (x : N) (s : string) (acc : Z) :
  exists k : Z,
    PyStr.digits acc (pretty_N_go x s) = PyStr.digits (acc * k + Z.of_N x) s
    /\ (x = 0%N -> k = 1).
Proof.
  revert s acc. induction (N.lt_wf_0 x) as [x _ IH]; intros s acc.
  destruct (decide (x = 0)%N) as [->|Hx].
  - exists 1. rewrite pretty_N_go_0. split; [f_equal; lia|reflexivity].
  - rewrite pretty_N_go_step by lia.
    destruct (IH (x `div` 10)%N ltac:(apply N.div_lt; lia)
                (String (pretty_N_char (x `mod` 10)) s) acc) as (k & Hk & _).
    exists (10 * k). split; [|contradiction].
    rewrite Hk. cbn [PyStr.digits].
    rewrite digit_pretty_N_char by (apply N.mod_lt; lia).
    f_equal. pose proof (N.div_mod x 10 ltac:(lia)) as Hdm.
    rewrite Hdm at 3. lia.
Qed.

(** What [pretty] writes for a natural number below [10 ^ k]: at most
    [k] digits (one for zero), all ASCII, spelling the number. *)
Lemma pretty_N_shape (x k : N) :
  (x < 10 ^ k)%N ->
  decimal (pretty x) = true
  /\ pretty x <> ""
  /\ (N.of_nat (String.length (pretty x)) <= N.max k 1)%N
  /\ PyStr.digits 0 (pretty x) = Some (Z.of_N x).
Proof.
  intros Hk. unfold pretty, pretty_N. destruct (decide (x = 0)%N) as [->|Hx].
  - repeat split; [discriminate|cbn [String.length]; lia].
  - split; [now apply pretty_N_go_decimal|]. split; [|split].
    + rewrite pretty_N_go_step by lia. now apply pretty_N_go_nonempty.
    + pose proof (pretty_N_go_length x k "" Hk) as Hlen. clear Hk.
      cbn [String.length] in Hlen. lia.
    + destruct (digits_pretty_N_go x "" 0) as (m & -> & _). cbn [PyStr.digits].
      f_equal; lia.
Qed.

Lemma pos_below (p : positive) (k : N) :
  (Z.pos p < 10 ^ Z.of_N k)%Z -> (N.pos p < 10 ^ k)%N.
Proof.
  intros Hp. apply N2Z.inj_lt. now rewrite N2Z.inj_pow.
Qed.

(** What [str] writes for an integer of at most [k] digits, [k] positive:
    at most [k + 1] characters, all ASCII, a literal of the integer. *)
Lemma str_shape (n : Z) (k : N) :
  (Z.abs n < 10 ^ Z.of_N k)%Z -> (0 < k)%N ->
  PyStr.ascii_only (str (VInt n)) = true
  /\ (N.of_nat (String.length (str (VInt n))) <= k + 1)%N
  /\ PyStr.literal (str (VInt n)) = Some n.
Proof.
  intros Hn Hk. cbn [str]. destruct n as [|p|p].
  - repeat split. change (pretty 0%Z) with "0". cbn [String.length]. lia.
  - change (pretty (Z.pos p)) with (pretty (N.pos p)).
    destruct (pretty_N_shape (N.pos p) k (pos_below p k Hn))
      as (Hdec & Hne & Hlen & Hz).
    split; [now apply ascii_only_decimal|]. split; [clear Hn; lia|].
    now destruct (literal_decimal _ _ Hdec Hne Hz) as [-> _].
  - change (pretty (Z.neg p)) with ("-" +:+ pretty (N.pos p)).
    destruct (pretty_N_shape (N.pos p) k (pos_below p k Hn))
      as (Hdec & Hne & Hlen & Hz).
    change ("-" +:+ pretty (N.pos p)) with (String "-" (pretty (N.pos p))) at 1 2.
    cbn [PyStr.ascii_only String.length]. split; [|split].
    + now rewrite (ascii_only_decimal _ Hdec).
    + clear Hn. lia.
    + now destruct (literal_decimal _ _ Hdec Hne Hz) as [_ ->].
Qed.

(** [int(str(n)) == n] for every integer of at most 4299 digits, whatever
    [int()] does outside the texts modelled here. *)
Lemma int_str (int_other : string -> result Z) (n : Z) :
  (Z.abs n < 10 ^ 4299)%Z -> PyStr.int int_other (str (VInt n)) = OK n.
Proof.
  intros Hn.
  destruct (str_shape n 4299 Hn eq_refl) as (Hascii & Hlen & Hliteral).
  unfold PyStr.int. rewrite Hascii, Hliteral.
  now rewrite (proj2 (N.leb_le _ 4300) Hlen).
Qed.

(** X1.  A port written with [str], as [ex_create_pool_member] writes it
    into its request, is read back by [_to_member] as the same integer:
    for a [poolMember] element with a [node] child whose [port] text is
    [str(n)], [n] an integer of at most 4299 digits, the member has port
    [n]. *)
Theorem member_port_round_trip TYPES_URN (int_other : string -> result Z)
    (element node : ET.Element) (n : Z) :
  (Z.abs n < 10 ^ 4299)%Z ->
  ET.find element (Xml.fixxpath "node" TYPES_URN) = Some node ->
  Xml.findtext element "port" TYPES_URN = Some (str (VInt n)) ->
  exists member,
    _to_member TYPES_URN int_other element = OK member
    /\ NttCisPoolMember.port member = VInt n
    /\ str (NttCisPoolMember.port member) = str (VInt n).
Proof.
  intros Hn Hnode Hport. unfold _to_member.
  rewrite Hport, (int_str int_other n Hn), Hnode.
  eexists. split; [reflexivity|]. split; reflexivity.
Qed.

Lemma member_port_round_trip_witness :
  exists member,
    _to_member Sample.URN Sample.int_other
      (Sample.elem "poolMember" {[ "id" := Some "member-9" ]} None
         [ Sample.elem "node" {[ "id" := Some "node-9" ]} None [];
           Sample.elem "port" ∅ (Some (str (VInt 8443))) [] ])
    = OK member
    /\ NttCisPoolMember.port member = VInt 8443
    /\ str (NttCisPoolMember.port member) = str (VInt 8443).
Proof.
  apply (member_port_round_trip Sample.URN Sample.int_other _
           (Sample.elem "node" {[ "id" := Some "node-9" ]} None []) 8443);
    vm_compute; reflexivity.
Defined.

(** X2.  [_to_members] is all or nothing: it returns a list exactly when
    every [poolMember] child converts, and then the list has the members of
    the children one for one in document order; the first child that
    fails (a port that is no integer, a missing [node]) ends the listing
    with its exception. *)
Theorem to_members_all_or_nothing TYPES_URN (int_other : string -> result Z)
    (object : ET.Element) :
  let elements := Xml.findall object "poolMember" TYPES_URN in
  (forall members,
     _to_members TYPES_URN int_other object = OK members
     <-> Forall2 (fun element member => _to_member TYPES_URN int_other element = OK member)
           elements members)
  /\ (forall before element after e,
        elements = (before ++ element :: after)%list ->
        Forall (fun x => is_OK (_to_member TYPES_URN int_other x) = true) before ->
        _to_member TYPES_URN int_other element = Raise e ->
        _to_members TYPES_URN int_other object = Raise e).
Proof.
  intros elements. split.
  - intros members. unfold _to_members. rewrite for_append_try_spec.
    fold (Xml.findall object "poolMember" TYPES_URN). fold elements. split.
    + now intros (zs & -> & Hzs).
    + intros Hms. now exists members.
  - intros before element after e Hsplit Hbefore Hfail. unfold _to_members.
    fold (Xml.findall object "poolMember" TYPES_URN). fold elements.
    rewrite Hsplit. now apply for_append_try_raise.
Qed.

(** X3.  Every listing method sends one GET without a body, filtered by
    [networkDomainId] exactly when a network domain is given, and returns
    one record for each child of the answer with the resource's tag, in
    document order; children with other tags are ignored. *)
Theorem listing_returns_one_record_per_child TYPES_URN server
    (ex_network_domain_id : option string) (sent : list Request) :
  let params :=
    match ex_network_domain_id with
    | Some id => Some ({[ "networkDomainId" := id ]} : gmap string string)
    | None => None
    end in
  let listing {A} (action tag : string) (convert : ET.Element -> A)
      (outcome : result (list A * list Request)) :=
    outcome
    = match server sent (mkRequest action "GET" params None) with
      | OK response =>
          OK (List.map convert
                (List.filter (fun child => String.eqb (ET.tag child) (Xml.fixxpath tag TYPES_URN))
                   (ET.children response)),
              (sent ++ [mkRequest action "GET" params None])%list)
      | Raise e => Raise e
      end in
  listing "networkDomainVip/virtualListener" "virtualListener" (_to_balancer TYPES_URN)
    (list_balancers TYPES_URN server ex_network_domain_id sent)
  /\ listing "networkDomainVip/pool" "pool" (_to_pool TYPES_URN)
       (ex_get_pools TYPES_URN server ex_network_domain_id sent)
  /\ listing "networkDomainVip/node" "node" (_to_node TYPES_URN)
       (ex_get_nodes TYPES_URN server ex_network_domain_id sent).
Proof.
  intros params listing. subst listing. cbv beta.
  unfold list_balancers, ex_get_pools, ex_get_nodes, network_domain_params.
  fold params. rewrite !get_request.
  unfold _to_balancers, _to_pools, _to_nodes, ret.
  repeat split; destruct (server sent _); try reflexivity;
    now rewrite for_append_map.
Qed.

(** X4.  Fetching one resource by identifier sends one GET, without body
    or parameters, to the resource path followed by [str(id)] - the path
    ends in [None] when the identifier is [None], and the request is sent
    all the same - and returns the record of the answer; for a pool member
    the exception of the conversion propagates. *)
Theorem fetching_sends_one_get TYPES_URN server (int_other : string -> result Z)
    (id : option string) (sent : list Request) :
  let path (prefix : string) :=
    match id with
    | Some s => prefix +:+ s
    | None => prefix +:+ "None"
    end in
  let fetch {A} (prefix : string) (convert : ET.Element -> result A)
      (outcome : result (A * list Request)) :=
    outcome
    = match server sent (mkRequest (path prefix) "GET" None None) with
      | OK response =>
          match convert response with
          | OK record => OK (record, (sent ++ [mkRequest (path prefix) "GET" None None])%list)
          | Raise e => Raise e
          end
      | Raise e => Raise e
      end in
  fetch "networkDomainVip/virtualListener/" (fun r => OK (_to_balancer TYPES_URN r))
    (get_balancer TYPES_URN server id sent)
  /\ fetch "networkDomainVip/pool/" (fun r => OK (_to_pool TYPES_URN r))
       (ex_get_pool TYPES_URN server id sent)
  /\ fetch "networkDomainVip/node/" (fun r => OK (_to_node TYPES_URN r))
       (ex_get_node TYPES_URN server id sent)
  /\ fetch "networkDomainVip/poolMember/" (_to_member TYPES_URN int_other)
       (ex_get_pool_member TYPES_URN server int_other id sent).
Proof.
  intros path fetch. subst fetch. cbv beta.
  unfold get_balancer, ex_get_pool, ex_get_node, ex_get_pool_member.
  rewrite !get_request.
  assert (forall prefix, percent_s prefix id = path prefix) as Hpath
    by (intros prefix; subst path; now destruct id).
  rewrite !Hpath. unfold ret, lift.
  repeat split; now destruct (server sent _).
Qed.

Lemma attrs_with_None (k : string) (a : gmap string (option string)) :
  a !! k = Some None ->
  bool_decide (map_Forall (fun (_ : string) (v : option string) => is_Some v) a) = false.
Proof.
  intros Hk. apply bool_decide_eq_false_2. intros Hall.
  destruct (Hall k None Hk) as [v Hv]. discriminate.
Qed.

Lemma unserializable_Element tag (k : string) (a : gmap string (option string)) :
  a !! k = Some None -> ET.serializable (ET.Element_ tag a) = false.
Proof.
  intros Hk. unfold ET.Element_. cbn [ET.serializable].
  now rewrite (attrs_with_None k a Hk).
Qed.

Lemma unserializable_set e (k : string) :
  ET.serializable (ET.set e k None) = false.
Proof.
  rewrite serializable_unfold. cbn [ET.set ET.attrib].
  rewrite (attrs_with_None k); [reflexivity|]. apply lookup_insert_eq.
Qed.

(** X5.  [ex_destroy_pool_member] always sends [removePoolMember] first.
    With [destroy_node] and a member that names its node, it then sends
    [deleteNode] and its result is that of the node deletion alone: the
    answer to [removePoolMember] is not looked at.  Otherwise its result
    is read off the [responseCode] of the [removePoolMember] answer. *)
Theorem destroy_pool_member_result TYPES_URN server
    (member : NttCisPoolMember.t) (destroy_node : bool) (sent : list Request)
    (member_id : string) :
  NttCisPoolMember.id member = Some member_id ->
  let remove :=
    mkRequest "networkDomainVip/removePoolMember" "POST" None
      (Some (ET.mkElement "removePoolMember"
               {[ "xmlns" := Some TYPES_URN; "id" := Some member_id ]} None [])) in
  let outcome := ex_destroy_pool_member TYPES_URN server member destroy_node sent in
  (forall node_id,
     NttCisPoolMember.node_id member = Some node_id -> destroy_node = true ->
     let delete :=
       mkRequest "networkDomainVip/deleteNode" "POST" None
         (Some (ET.mkElement "deleteNode"
                  {[ "xmlns" := Some TYPES_URN; "id" := Some node_id ]} None [])) in
     outcome
     = match server sent remove with
       | OK _ =>
           match server (sent ++ [remove])%list delete with
           | OK answer =>
               OK (in_list (Xml.findtext answer "responseCode" TYPES_URN)
                     ["IN_PROGRESS"; "OK"],
                   ((sent ++ [remove]) ++ [delete])%list)
           | Raise e => Raise e
           end
       | Raise e => Raise e
       end)
  /\ (NttCisPoolMember.node_id member = None \/ destroy_node = false ->
      outcome
      = match server sent remove with
        | OK answer =>
            OK (in_list (Xml.findtext answer "responseCode" TYPES_URN)
                  ["IN_PROGRESS"; "OK"],
                (sent ++ [remove])%list)
        | Raise e => Raise e
        end).
Proof.
  intros Hid remove outcome. subst outcome. unfold ex_destroy_pool_member.
  rewrite Hid. rewrite post_request by serializable_ok.
  unfold ET.Element_. fold remove. split.
  - intros node_id Hnode Hdestroy. subst destroy_node. cbv zeta. rewrite Hnode.
    rewrite bool_decide_eq_true_2 by discriminate. cbn [andb].
    destruct (server sent remove) as [answer|e]; [|reflexivity].
    unfold ex_destroy_node. rewrite post_request by serializable_ok.
    now destruct (server _ _).
  - intros Hplain.
    assert (bool_decide (NttCisPoolMember.node_id member <> None) && destroy_node = false)
      as ->.
    { destruct Hplain as [->| ->]; [|apply andb_false_r].
      now rewrite bool_decide_eq_false_2 by tauto. }
    now destruct (server sent remove).
Qed.

Lemma destroy_pool_member_result_witness :
  ex_destroy_pool_member Sample.URN (Sample.silent "FAILED")
    (NttCisPoolMember.mk (Some "member-1") (Some "node.one") (VState RUNNING)
       (Some "10.0.0.1") (VInt 80) None) true []
  = OK (false,
        [mkRequest "networkDomainVip/removePoolMember" "POST" None
           (Some (ET.mkElement "removePoolMember"
                    {[ "xmlns" := Some Sample.URN; "id" := Some "member-1" ]} None []))]).
Proof.
  refine (proj2 (destroy_pool_member_result Sample.URN (Sample.silent "FAILED")
                   (NttCisPoolMember.mk (Some "member-1") (Some "node.one") (VState RUNNING)
                      (Some "10.0.0.1") (VInt 80) None) true [] "member-1" eq_refl)
            (or_introl eq_refl)).
Defined.

(** X6.  A boolean method handed an object whose identifier is [None]
    raises [TypeError] when it writes out its request, whatever the
    service would answer: no request without a target is ever sent. *)
Theorem mutation_without_id_is_not_sent TYPES_URN server OpenSSL
    (m : Mutation) (sent : list Request) :
  target_id m = Some None ->
  call TYPES_URN server OpenSSL m sent
  = Raise (TypeError "cannot serialize None (type NoneType)").
Proof.
  intros Hid.
  destruct m; cbn [target_id] in Hid; try discriminate;
    injection Hid as Hid; cbn [call].
  - unfold destroy_balancer. rewrite Hid. apply post_refused.
    apply (unserializable_Element _ "id"). now rewrite lookup_insert_ne, lookup_singleton_eq.
  - unfold balancer_detach_member. rewrite Hid. apply post_refused.
    apply (unserializable_Element _ "id"). now rewrite lookup_insert_ne, lookup_singleton_eq.
  - unfold ex_update_listener. rewrite Hid. apply post_refused.
    rewrite serializable_kwargs.
    apply (unserializable_Element _ "id").
    now rewrite lookup_insert_ne, lookup_insert_eq.
  - unfold ex_update_pool. rewrite Hid. apply post_refused.
    rewrite !serializable_SubElement by attrs_ok. apply unserializable_set.
  - unfold ex_destroy_pool. rewrite Hid. apply post_refused.
    apply (unserializable_Element _ "id"). now rewrite lookup_insert_ne, lookup_singleton_eq.
  - subst node_id. unfold ex_destroy_node. apply post_refused.
    apply (unserializable_Element _ "id"). now rewrite lookup_insert_ne, lookup_singleton_eq.
  - unfold ex_set_pool_member_state. rewrite Hid. apply post_refused.
    rewrite serializable_SubElement by attrs_ok.
    apply (unserializable_Element _ "id"). now rewrite lookup_insert_ne, lookup_singleton_eq.
  - subst profile_id. unfold ex_edit_ssl_offload_profile. apply post_refused.
    destruct description, ciphers, ssl_cert_chain_id;
      rewrite !serializable_SubElement by attrs_ok;
      apply (unserializable_Element _ "id");
      now rewrite lookup_insert_ne, lookup_singleton_eq.
  - subst dom_cert_id. unfold ex_delete_ssl_domain_certificate. apply post_refused.
    apply (unserializable_Element _ "id"). apply lookup_insert_eq.
  - subst cert_chain_id. unfold ex_delete_ssl_certificate_chain. apply post_refused.
    apply (unserializable_Element _ "id"). apply lookup_insert_eq.
  - subst profile_id. unfold ex_delete_ssl_offload_profile. apply post_refused.
    apply (unserializable_Element _ "id"). apply lookup_insert_eq.
Qed.

Lemma mutation_without_id_is_not_sent_witness :
  call Sample.URN Sample.server None
    (Destroy_balancer (LoadBalancer.mk None (Some "lb") RUNNING None VNone ∅)) []
  = Raise (TypeError "cannot serialize None (type NoneType)").
Proof.
  apply (mutation_without_id_is_not_sent Sample.URN Sample.server None
           (Destroy_balancer (LoadBalancer.mk None (Some "lb") RUNNING None VNone ∅)) []).
  reflexivity.
Defined.

(** X7.  The two algorithm tables are inverse to each other: an algorithm
    has the vendor string [v] in [_ALGORITHM_TO_VALUE_MAP] exactly when
    [_VALUE_TO_ALGORITHM_MAP] reads [v] as that algorithm; so the
    [loadBalanceMethod] that [create_balancer] sends reads back as the
    algorithm asked for. *)
Theorem algorithm_tables_are_inverse (algorithm : Algorithm) (v : string) :
  Dict.get algorithm _ALGORITHM_TO_VALUE_MAP = Some v
  <-> Dict.get v _VALUE_TO_ALGORITHM_MAP = Some algorithm.
Proof.
  split.
  - intros Hvendor. destruct algorithm; vm_compute in Hvendor;
      try discriminate; injection Hvendor as <-; reflexivity.
  - unfold Dict.get, _VALUE_TO_ALGORITHM_MAP. cbn [List.find fst].
    repeat match goal with
    | |- context [bool_decide (?k = v)] =>
        destruct (bool_decide_reflect (k = v)) as [<-|_];
        [cbn [fmap option_fmap option_map snd]; intros [= <-]; reflexivity|]
    end.
    discriminate.
Qed.

(** X8.  [create_balancer] looks the algorithm up before anything else:
    for an algorithm that has no vendor string it raises [KeyError]
    whatever the service would answer, so neither a pool nor a listener is
    created. *)
Theorem create_balancer_unknown_algorithm TYPES_URN server (self : Driver)
    (name : string) (listener_port port : value) (protocol : option string)
    (algorithm : Algorithm) (members : option (list member_arg))
    (optimization_profile ex_listener_ip_address : option string)
    (sent : list Request) :
  Dict.get algorithm _ALGORITHM_TO_VALUE_MAP = None ->
  create_balancer TYPES_URN server self name listener_port port protocol
    (Some algorithm) members optimization_profile ex_listener_ip_address sent
  = Raise KeyError.
Proof.
  intros Hmissing. unfold create_balancer. cbv zeta.
  change (default DEFAULT_ALGORITHM (Some algorithm)) with algorithm.
  unfold bind at 1. now rewrite Hmissing.
Qed.

Lemma create_balancer_unknown_algorithm_witness :
  create_balancer Sample.URN Sample.server Sample.driver "lb" (VInt 80) (VInt 8080)
    None (Some RANDOM) None (Some "TCP") None []
  = Raise KeyError.
Proof.
  apply (create_balancer_unknown_algorithm Sample.URN Sample.server Sample.driver
           "lb" (VInt 80) (VInt 8080) None RANDOM None (Some "TCP") None []).
  reflexivity.
Defined.

(** X9.  Editing a pool as it was read sends back what was read:
    [ex_update_pool] on [_to_pool] of a pool element with an [id] sends
    [editPool] for that [id] with the element's [loadBalanceMethod],
    [healthMonitorId], [serviceDownAction] and [slowRampTime]; a method or
    ramp time the element lacks goes out as the text [None], while a
    missing monitor or action goes out as an empty element. *)
Theorem update_pool_sends_what_to_pool_read TYPES_URN server
    (element : ET.Element) (id : string) (sent : list Request) :
  ET.get element "id" = Some id ->
  let read (tag : string) := Xml.findtext element tag TYPES_URN in
  let written (text : option string) :=
    match text with
    | Some s => s
    | None => "None"
    end in
  let edit :=
    mkRequest "networkDomainVip/editPool" "POST" None
      (Some (ET.mkElement "editPool"
               (<["id" := Some id]> {[ "xmlns" := Some TYPES_URN ]}) None
               [ ET.mkElement "loadBalanceMethod" ∅ (Some (written (read "loadBalanceMethod"))) [];
                 ET.mkElement "healthMonitorId" ∅ (read "healthMonitorId") [];
                 ET.mkElement "serviceDownAction" ∅ (read "serviceDownAction") [];
                 ET.mkElement "slowRampTime" ∅ (Some (written (read "slowRampTime"))) [] ])) in
  ex_update_pool TYPES_URN server (_to_pool TYPES_URN element) sent
  = match server sent edit with
    | OK answer =>
        OK (in_list (Xml.findtext answer "responseCode" TYPES_URN) ["IN_PROGRESS"; "OK"],
            (sent ++ [edit])%list)
    | Raise e => Raise e
    end.
Proof.
  intros Hid read written edit. unfold ex_update_pool, _to_pool.
  cbn [NttCisPool.id NttCisPool.load_balance_method NttCisPool.health_monitor_id
       NttCisPool.service_down_action NttCisPool.slow_ramp_time].
  rewrite Hid. rewrite post_request by serializable_ok.
  assert (forall t, str (of_text t) = written t) as Hwritten by (now intros [s|]).
  rewrite !Hwritten. fold (read "loadBalanceMethod") (read "healthMonitorId")
    (read "serviceDownAction") (read "slowRampTime").
  reflexivity.
Qed.

Lemma update_pool_sends_what_to_pool_read_witness :
  ex_update_pool Sample.URN (Sample.silent "OK")
    (_to_pool Sample.URN
       (Sample.elem "pool" {[ "id" := Some "pool-7" ]} None
          [ Sample.elem "serviceDownAction" ∅ (Some "DROP") [] ])) []
  = OK (true,
        [mkRequest "networkDomainVip/editPool" "POST" None
           (Some (ET.mkElement "editPool"
                    (<["id" := Some "pool-7"]> {[ "xmlns" := Some Sample.URN ]}) None
                    [ ET.mkElement "loadBalanceMethod" ∅ (Some "None") [];
                      ET.mkElement "healthMonitorId" ∅ None [];
                      ET.mkElement "serviceDownAction" ∅ (Some "DROP") [];
                      ET.mkElement "slowRampTime" ∅ (Some "None") [] ]))]).
Proof.
  apply (update_pool_sends_what_to_pool_read Sample.URN (Sample.silent "OK")
           (Sample.elem "pool" {[ "id" := Some "pool-7" ]} None
              [ Sample.elem "serviceDownAction" ∅ (Some "DROP") [] ]) "pool-7" []).
  vm_compute. reflexivity.
Defined.

Lemma SubElement_kwargs (kwargs : Dict.t string (option string)) (elm : ET.Element) :
  fold_left
    (fun elm kv =>
       match kv.2 with
       | None => ET.SubElement elm kv.1 {[ "xsi:nil" := Some "true" ]} None
       | Some v => ET.SubElement elm kv.1 ∅ (Some v)
       end)
    kwargs elm
  = ET.mkElement (ET.tag elm) (ET.attrib elm) (ET.text elm)
      (ET.children elm
       ++ List.map
            (fun kv =>
               match kv.2 with
               | None => ET.mkElement kv.1 {[ "xsi:nil" := Some "true" ]} None []
               | Some v => ET.mkElement kv.1 ∅ (Some v) []
               end)
            kwargs)%list.
Proof.
  revert elm. induction kwargs as [|[k v] kwargs IH]; intros elm.
  - cbn [fold_left List.map]. rewrite app_nil_r. now destruct elm.
  - cbn [fold_left List.map]. rewrite IH. cbn [fst snd].
    destruct v; rewrite tag_SubElement, attrib_SubElement, children_SubElement;
      now rewrite <- app_assoc.
Qed.

(** X10.  [ex_update_listener] sends one child per keyword argument, in
    the order given and tagged with the keyword: a value that is [None]
    becomes an empty element marked [xsi:nil="true"], any other value an
    element with that text; the result is read off the [responseCode]. *)
Theorem update_listener_sends_keywords TYPES_URN server
    (virtual_listener : NttCisVirtualListener.t)
    (kwargs : Dict.t string (option string)) (id : string) (sent : list Request) :
  NttCisVirtualListener.id virtual_listener = Some id ->
  let child (kv : string * option string) :=
    match kv.2 with
    | None => ET.mkElement kv.1 {[ "xsi:nil" := Some "true" ]} None []
    | Some v => ET.mkElement kv.1 ∅ (Some v) []
    end in
  let edit :=
    mkRequest "networkDomainVip/editVirtualListener" "POST" None
      (Some (ET.mkElement "editVirtualListener"
               {[ "xmlns" := Some TYPES_URN; "id" := Some id;
                  "xmlns:xsi" := Some "http://www.w3.org/2001/XMLSchema-instance" ]}
               None (List.map child kwargs))) in
  ex_update_listener TYPES_URN server virtual_listener kwargs sent
  = match server sent edit with
    | OK answer =>
        OK (in_list (Xml.findtext answer "responseCode" TYPES_URN) ["IN_PROGRESS"; "OK"],
            (sent ++ [edit])%list)
    | Raise e => Raise e
    end.
Proof.
  intros Hid child edit. unfold ex_update_listener. rewrite Hid.
  rewrite post_request by (rewrite serializable_kwargs; serializable_ok).
  rewrite SubElement_kwargs. reflexivity.
Qed.

Lemma update_listener_sends_keywords_witness :
  ex_update_listener Sample.URN (Sample.silent "OK")
    (NttCisVirtualListener.mk (Some "listener-1") (Some "lb") (VState RUNNING) None)
    [("name", Some "lb2"); ("description", None)] []
  = OK (true,
        [mkRequest "networkDomainVip/editVirtualListener" "POST" None
           (Some (ET.mkElement "editVirtualListener"
                    {[ "xmlns" := Some Sample.URN; "id" := Some "listener-1";
                       "xmlns:xsi" := Some "http://www.w3.org/2001/XMLSchema-instance" ]}
                    None
                    [ ET.mkElement "name" ∅ (Some "lb2") [];
                      ET.mkElement "description" {[ "xsi:nil" := Some "true" ]} None [] ]))]).
Proof.
  apply (update_listener_sends_keywords Sample.URN (Sample.silent "OK")
           (NttCisVirtualListener.mk (Some "listener-1") (Some "lb") (VState RUNNING) None)
           [("name", Some "lb2"); ("description", None)] "listener-1" []).
  reflexivity.
Defined.

Lemma findtext_Element_ tag a path : ET.findtext (ET.Element_ tag a) path = None.
Proof. reflexivity. Qed.

(** Reading a tag through a chain of [SubElement] calls, some of them
    conditional: down to the call that wrote the tag, and past the calls
    before it, which wrote other tags. *)
Ltac findtext_deep :=
  repeat match goal with
  | |- ET.findtext (ET.Element_ _ _) _ = None => apply findtext_Element_
  | |- ET.findtext (ET.SubElement _ _ _ _) _ = None =>
      rewrite findtext_SubElement_other by reflexivity
  | |- ET.findtext (ET.SubElement _ ?tag _ _) ?tag = Some _ =>
      apply findtext_SubElement_new; [|reflexivity]
  | |- ET.findtext (ET.SubElement _ _ _ _) _ = Some _ =>
      apply findtext_SubElement_old
  | |- ET.findtext (match ?o with Some _ => _ | None => _ end) _ = _ => destruct o
  | |- ET.findtext (if ?b then _ else _) _ = _ => destruct b
  end.

Lemma ex_create_virtual_listener_for_pool TYPES_URN server network_domain_id name
    ex_description port (pool : NttCisPool.t) listener_ip_address persistence_profile
    fallback_persistence_profile irule protocol optimization_profile
    connection_limit connection_rate_limit source_port_preservation sent :
  raises_ValueError port optimization_profile = false ->
  exists body,
    ET.findtext body "poolId" = Some (default "" (NttCisPool.id pool))
    /\ ET.findtext body "networkDomainId" = Some (default "" network_domain_id)
    /\ ET.findtext body "port" = (if is_not_None port then Some (str port) else None)
    /\ ET.findtext body "protocol" = Some protocol
    /\ ex_create_virtual_listener TYPES_URN server network_domain_id name
         ex_description port (Some pool) listener_ip_address persistence_profile
         fallback_persistence_profile irule protocol optimization_profile
         connection_limit connection_rate_limit source_port_preservation sent
       = match server sent
                 (mkRequest "networkDomainVip/createVirtualListener" "POST" None (Some body))
         with
         | OK response =>
             OK (NttCisVirtualListener.mk
                   (info_field TYPES_URN response "virtualListenerId") (Some name)
                   (VState RUNNING) (info_field TYPES_URN response "listenerIpAddress"),
                 (sent ++ [mkRequest "networkDomainVip/createVirtualListener" "POST" None
                             (Some body)])%list)
         | Raise e => Raise e
         end.
Proof.
  unfold raises_ValueError, ex_create_virtual_listener. intros Hok. cbv zeta.
  assert (String.eqb
            (if eq_int port 80 || eq_int port 443 then "PERFORMANCE_LAYER_4" else "STANDARD")
            "STANDARD" = negb (eq_int port 80 || eq_int port 443)) as ->
    by now destruct (eq_int port 80 || eq_int port 443).
  rewrite Hok.
  rewrite post_request by serializable_ok.
  eexists. split; [|split; [|split; [|split]]]; cycle 4.
  - answer_cases response e. now rewrite scan_info_pair, !scan_info_field.
  - findtext_deep.
  - findtext_deep.
  - destruct (is_not_None port); findtext_deep.
  - findtext_deep.
Qed.

(** X11.  [create_balancer] without members, for an algorithm of the
    table: the pool is created first, in the driver's current network
    domain and with the vendor string of the algorithm; a failure of that
    request is the outcome, also when the listener settings are invalid,
    since those are checked only afterwards; the listener request then
    carries the [poolId] the service returned for the pool, the same
    network domain and [listener_port], and the balancer records that pool
    identifier in [extra]. *)
Theorem create_balancer_binds_listener_to_pool TYPES_URN server (self : Driver)
    (name : string) (listener_port port : value) (protocol : option string)
    (algorithm : option Algorithm) (members : option (list member_arg))
    (optimization_profile ex_listener_ip_address : option string)
    (sent : list Request) (vendor : string) :
  Dict.get (default DEFAULT_ALGORITHM algorithm) _ALGORITHM_TO_VALUE_MAP = Some vendor ->
  default [] members = [] ->
  let domain := ex_get_current_network_domain self in
  let create_pool :=
    mkRequest "networkDomainVip/createPool" "POST" None
      (Some (ET.mkElement "createPool" {[ "xmlns" := Some TYPES_URN ]} None
               [ ET.mkElement "networkDomainId" ∅ domain [];
                 ET.mkElement "name" ∅ (Some name) [];
                 ET.mkElement "description" ∅ (Some "None") [];
                 ET.mkElement "loadBalanceMethod" ∅ (Some vendor) [];
                 ET.mkElement "serviceDownAction" ∅ (Some "NONE") [];
                 ET.mkElement "slowRampTime" ∅ (Some "30") [] ])) in
  let outcome :=
    create_balancer TYPES_URN server self name listener_port port protocol
      algorithm members optimization_profile ex_listener_ip_address sent in
  (forall e, server sent create_pool = Raise e -> outcome = Raise e)
  /\ (forall answer,
        server sent create_pool = OK answer ->
        let pool_id := info_field TYPES_URN answer "poolId" in
        (raises_ValueError listener_port optimization_profile = true ->
         exists msg, outcome = Raise (ValueError msg))
        /\ (raises_ValueError listener_port optimization_profile = false ->
            exists body,
              ET.findtext body "poolId" = Some (default "" pool_id)
              /\ ET.findtext body "networkDomainId" = Some (default "" domain)
              /\ ET.findtext body "port"
                 = (if is_not_None listener_port then Some (str listener_port) else None)
              /\ ET.findtext body "protocol" = Some (default "http" protocol)
              /\ outcome
                 = match server (sent ++ [create_pool])%list
                           (mkRequest "networkDomainVip/createVirtualListener" "POST" None
                              (Some body))
                   with
                   | OK listener =>
                       OK (LoadBalancer.mk
                             (info_field TYPES_URN listener "virtualListenerId")
                             (Some name) RUNNING
                             (info_field TYPES_URN listener "listenerIpAddress") port
                             {[ "pool_id" := pool_id;
                                "network_domain_id" := domain;
                                "listener_ip_address" := ex_listener_ip_address ]},
                           ((sent ++ [create_pool])
                            ++ [mkRequest "networkDomainVip/createVirtualListener" "POST"
                                  None (Some body)])%list)
                   | Raise e => Raise e
                   end)).
Proof.
  intros Hvendor Hnone domain create_pool outcome.
  assert (outcome
          = match server sent create_pool with
            | OK answer =>
                bind
                  (ex_create_virtual_listener TYPES_URN server domain name (Some name)
                     listener_port
                     (Some (NttCisPool.mk (info_field TYPES_URN answer "poolId") (Some name)
                              None (VState RUNNING) (Some vendor) None (Some "NONE")
                              (Some "30")))
                     ex_listener_ip_address None None None (default "http" protocol)
                     optimization_profile (VInt 25000) (VInt 2000) "PRESERVE")
                  (fun listener =>
                     ret (LoadBalancer.mk listener.(NttCisVirtualListener.id)
                            listener.(NttCisVirtualListener.name) RUNNING
                            listener.(NttCisVirtualListener.ip) port
                            {[ "pool_id" := info_field TYPES_URN answer "poolId";
                               "network_domain_id" := domain;
                               "listener_ip_address" := ex_listener_ip_address ]}))
                  (sent ++ [create_pool])%list
            | Raise e => Raise e
            end) as Hsteps.
  { subst outcome. unfold create_balancer. cbv zeta. unfold bind at 1.
    rewrite Hvendor. unfold ret at 1. unfold bind at 1.
    rewrite ex_create_pool_sends.
    repeat match goal with
    | |- context [server sent ?r] => progress change r with create_pool
    end.
    destruct (server sent create_pool) as [answer|e]; [|reflexivity].
    destruct members as [[|member members]|]; [reflexivity|discriminate|reflexivity]. }
  rewrite Hsteps. split.
  - now intros e ->.
  - intros answer -> pool_id. split.
    + intros Hraise. unfold bind.
      edestruct ex_create_virtual_listener_raises as [msg ->]; [exact Hraise|].
      now exists msg.
    + intros Hok. unfold bind.
      edestruct ex_create_virtual_listener_for_pool
        as (body & Hpool & Hdomain & Hport & Hprotocol & ->); [exact Hok|].
      exists body. repeat (split; [eassumption|]).
      now destruct (server (sent ++ [create_pool])%list _).
Qed.

Lemma create_balancer_binds_listener_to_pool_witness :
  exists body,
    ET.findtext body "poolId" = Some "pool-1"
    /\ ET.findtext body "port" = Some "443"
    /\ create_balancer Sample.URN Sample.server Sample.driver "lb" (VInt 443) (VInt 8080)
         None None None None None []
       = OK (LoadBalancer.mk (Some "listener-1") (Some "lb") RUNNING (Some "165.180.12.22")
               (VInt 8080)
               {[ "pool_id" := Some "pool-1"; "network_domain_id" := Some "nd-1";
                  "listener_ip_address" := None ]},
             [ mkRequest "networkDomainVip/createPool" "POST" None
                 (Some (ET.mkElement "createPool" {[ "xmlns" := Some Sample.URN ]} None
                          [ ET.mkElement "networkDomainId" ∅ (Some "nd-1") [];
                            ET.mkElement "name" ∅ (Some "lb") [];
                            ET.mkElement "description" ∅ (Some "None") [];
                            ET.mkElement "loadBalanceMethod" ∅ (Some "ROUND_ROBIN") [];
                            ET.mkElement "serviceDownAction" ∅ (Some "NONE") [];
                            ET.mkElement "slowRampTime" ∅ (Some "30") [] ]));
               mkRequest "networkDomainVip/createVirtualListener" "POST" None (Some body) ]).
Proof.
  destruct (create_balancer_binds_listener_to_pool Sample.URN Sample.server Sample.driver
              "lb" (VInt 443) (VInt 8080) None None None None None [] "ROUND_ROBIN"
              eq_refl eq_refl) as [_ Hanswered].
  destruct (Hanswered (Sample.response "OK" [Sample.info "poolId" "pool-1"]) eq_refl)
    as [_ Hsent].
  destruct (Hsent eq_refl) as (body & Hpool & _ & Hport & _ & Hcall).
  exists body. split; [exact Hpool|]. split; [exact Hport|]. exact Hcall.
Defined.

Lemma ex_create_node_sends TYPES_URN server network_domain_id name ip ex_description
    connection_limit connection_rate_limit sent :
  let body :=
    ET.mkElement "createNode" {[ "xmlns" := Some TYPES_URN ]} None
      ([ ET.mkElement "networkDomainId" ∅ network_domain_id [];
         ET.mkElement "name" ∅ (Some name) [] ]
       ++ match ex_description with
          | Some description => [ ET.mkElement "description" ∅ (Some description) [] ]
          | None => []
          end
       ++ [ ET.mkElement "ipv4Address" ∅ ip [];
            ET.mkElement "status" ∅ (Some "ENABLED") [];
            ET.mkElement "connectionLimit" ∅ (Some (str connection_limit)) [];
            ET.mkElement "connectionRateLimit" ∅ (Some (str connection_rate_limit)) [] ])%list in
  let req := mkRequest "networkDomainVip/createNode" "POST" None (Some body) in
  ex_create_node TYPES_URN server network_domain_id name ip ex_description
    connection_limit connection_rate_limit sent
  = match server sent req with
    | OK response =>
        OK (NttCisVIPNode.mk4 (info_field TYPES_URN response "nodeId")
              (info_field TYPES_URN response "name") (VState RUNNING) ip,
            (sent ++ [req])%list)
    | Raise e => Raise e
    end.
Proof.
  intros body req. unfold ex_create_node. cbv zeta.
  rewrite post_request by serializable_ok.
  replace (mkRequest "networkDomainVip/createNode" "POST" None (Some _)) with req
    by (subst req body; destruct ex_description; reflexivity).
  destruct (server sent req) as [response|e]; [|reflexivity].
  now rewrite scan_info_pair, !scan_info_field.
Qed.

(** X12.  The loop of [create_balancer] over the members: when it ends,
    it has sent one [addPoolMember] per member and one [createNode] per
    member that is not a [Member], and nothing else; every
    [addPoolMember] names the one pool and carries the one node port, and
    every [createNode] is in the one network domain. *)
Theorem attach_members_sends_one_per_member TYPES_URN server
    (network_domain_id : option string) (pool : NttCisPool.t) (port : value)
    (members : list member_arg) (sent sent' : list Request) :
  attach_members TYPES_URN server network_domain_id pool port members sent = OK (tt, sent') ->
  exists requests,
    sent' = (sent ++ requests)%list
    /\ length (List.filter
                 (fun r => String.eqb (action r) "networkDomainVip/addPoolMember") requests)
       = length members
    /\ length (List.filter
                 (fun r => String.eqb (action r) "networkDomainVip/createNode") requests)
       = length (List.filter
                   (fun m => match m with ANode _ => true | AMember _ => false end) members)
    /\ Forall
         (fun r =>
            (action r = "networkDomainVip/addPoolMember"
             /\ (data r ≫= fun body => ET.findtext body "poolId")
                = Some (default "" (NttCisPool.id pool))
             /\ (data r ≫= fun body => ET.findtext body "port")
                = (if is_not_None port then Some (str port) else None))
            \/ (action r = "networkDomainVip/createNode"
                /\ (data r ≫= fun body => ET.findtext body "networkDomainId")
                   = Some (default "" network_domain_id)))
         requests.
Proof.
  revert sent. induction members as [|member members IH]; intros sent.
  - cbn [attach_members]. unfold ret. intros [= <-].
    exists []. rewrite app_nil_r. repeat split. constructor.
  - assert (forall (A : Type) (NL : NodeLike A) (node : A) s,
              bind (ex_create_pool_member TYPES_URN server pool node port)
                (fun _ => attach_members TYPES_URN server network_domain_id pool port members) s
              = OK (tt, sent') ->
              exists requests,
                sent' = (s ++ requests)%list
                /\ length (List.filter
                             (fun r => String.eqb (action r) "networkDomainVip/addPoolMember")
                             requests) = S (length members)
                /\ length (List.filter
                             (fun r => String.eqb (action r) "networkDomainVip/createNode")
                             requests)
                   = length (List.filter
                               (fun m => match m with ANode _ => true | AMember _ => false end)
                               members)
                /\ Forall
                     (fun r =>
                        (action r = "networkDomainVip/addPoolMember"
                         /\ (data r ≫= fun body => ET.findtext body "poolId")
                            = Some (default "" (NttCisPool.id pool))
                         /\ (data r ≫= fun body => ET.findtext body "port")
                            = (if is_not_None port then Some (str port) else None))
                        \/ (action r = "networkDomainVip/createNode"
                            /\ (data r ≫= fun body => ET.findtext body "networkDomainId")
                               = Some (default "" network_domain_id)))
                     requests) as Hadd.
    { intros A NL node s. unfold bind at 1. rewrite ex_create_pool_member_sends.
      match goal with
      | |- context [server s ?r] => set (req := r)
      end.
      destruct (server s req) as [answer|e]; [|discriminate].
      intros Hrest. destruct (IH _ Hrest) as (requests & -> & Hadds & Hnodes & Hall).
      exists (req :: requests). split; [now rewrite <- app_assoc|].
      split; [cbn [List.filter action req String.eqb Ascii.eqb Bool.eqb length];
              now rewrite Hadds|].
      split; [exact Hnodes|].
      constructor; [|exact Hall]. left. split; [reflexivity|]. split; [reflexivity|].
      subst req. cbn [data mbind option_bind]. now destruct port. }
    destruct member as [member|member]; cbn [attach_members List.filter length].
    + apply Hadd.
    + unfold bind at 1, lift at 1.
      destruct (first_private_ip member) as [ip|e]; [|discriminate].
      unfold bind at 1. rewrite ex_create_node_sends.
      match goal with
      | |- context [server sent ?r] => set (req := r)
      end.
      destruct (server sent req) as [answer|e]; [|discriminate].
      intros Hrest. destruct (Hadd _ _ _ _ Hrest) as (requests & -> & Hadds & Hnodes & Hall).
      exists (req :: requests). split; [now rewrite <- app_assoc|].
      split; [exact Hadds|].
      split; [cbn [List.filter action req String.eqb Ascii.eqb Bool.eqb length];
              now rewrite Hnodes|].
      constructor; [|exact Hall]. right. split; reflexivity.
Qed.

Lemma attach_members_sends_one_per_member_witness :
  exists requests,
    List.map action requests
    = [ "networkDomainVip/addPoolMember"; "networkDomainVip/createNode";
        "networkDomainVip/addPoolMember" ]
    /\ length (List.filter
                 (fun r => String.eqb (action r) "networkDomainVip/addPoolMember") requests)
       = 2%nat.
Proof.
  destruct (attach_members_sends_one_per_member Sample.URN Sample.server (Some "nd-1")
              Sample.pool (VInt 8080)
              [ AMember (Member.mk (Some "node-1") (Some "10.0.0.1") (VInt 8080));
                ANode (Node.mk "web2" ["10.0.0.2"]) ]
              [] _ eq_refl) as (requests & Hsent & Hadds & _).
  exists requests. split; [|exact Hadds].
  cbn [app] in Hsent. rewrite <- Hsent. reflexivity.
Defined.

(** X13.  [balancer_attach_member] for a balancer that records its
    network domain and pool, and a member with an address: it creates a
    node named [Member.] followed by the address, fetches the pool, and
    adds the node to that pool on the member's port - three requests in
    that order - and returns the member with its [id] set to the
    [poolMemberId] of the last answer, address and port unchanged. *)
Theorem attach_member_creates_node_then_member TYPES_URN server
    (balancer : LoadBalancer.t) (member : Member.t) (sent : list Request)
    (domain pool_id : option string) (ip : string) :
  LoadBalancer.extra balancer !! "network_domain_id" = Some domain ->
  LoadBalancer.extra balancer !! "pool_id" = Some pool_id ->
  Member.ip member = Some ip ->
  let create_node :=
    mkRequest "networkDomainVip/createNode" "POST" None
      (Some (ET.mkElement "createNode" {[ "xmlns" := Some TYPES_URN ]} None
               [ ET.mkElement "networkDomainId" ∅ domain [];
                 ET.mkElement "name" ∅ (Some ("Member." +:+ ip)) [];
                 ET.mkElement "description" ∅ (Some "") [];
                 ET.mkElement "ipv4Address" ∅ (Some ip) [];
                 ET.mkElement "status" ∅ (Some "ENABLED") [];
                 ET.mkElement "connectionLimit" ∅ (Some "25000") [];
                 ET.mkElement "connectionRateLimit" ∅ (Some "2000") [] ])) in
  let get_pool :=
    mkRequest (percent_s "networkDomainVip/pool/" pool_id) "GET" None None in
  let add_member (node pool : ET.Element) :=
    mkRequest "networkDomainVip/addPoolMember" "POST" None
      (Some (ET.mkElement "addPoolMember" {[ "xmlns" := Some TYPES_URN ]} None
               ([ ET.mkElement "poolId" ∅ (ET.get pool "id") [];
                  ET.mkElement "nodeId" ∅ (info_field TYPES_URN node "nodeId") [] ]
                ++ (if bool_decide (Member.port member = VNone) then []
                    else [ ET.mkElement "port" ∅ (Some (str (Member.port member))) [] ])
                ++ [ ET.mkElement "status" ∅ (Some "ENABLED") [] ])%list)) in
  balancer_attach_member TYPES_URN server balancer member sent
  = match server sent create_node with
    | OK node =>
        match server (sent ++ [create_node])%list get_pool with
        | OK pool =>
            match server ((sent ++ [create_node]) ++ [get_pool])%list (add_member node pool)
            with
            | OK added =>
                OK (Member.mk (info_field TYPES_URN added "poolMemberId") (Some ip)
                      (Member.port member),
                    (((sent ++ [create_node]) ++ [get_pool]) ++ [add_member node pool])%list)
            | Raise e => Raise e
            end
        | Raise e => Raise e
        end
    | Raise e => Raise e
    end.
Proof.
  intros Hdomain Hpool Hip create_node get_pool add_member.
  unfold balancer_attach_member, extra_item. rewrite Hdomain, Hpool, Hip.
  unfold bind at 1, lift at 1. unfold bind at 1, ret at 1. unfold bind at 1.
  rewrite ex_create_node_sends. cbn [app str]. change (pretty 25000) with "25000".
  change (pretty 2000) with "2000". fold create_node.
  destruct (server sent create_node) as [node|e]; [|reflexivity].
  unfold bind at 1, lift at 1. unfold ex_get_pool. unfold bind at 1.
  rewrite get_request. fold get_pool.
  destruct (server _ get_pool) as [pool|e]; [|reflexivity].
  unfold ret at 1. unfold bind at 1. rewrite ex_create_pool_member_sends.
  cbn [node_id_of node_ip_of NodeLike_VIPNode NttCisVIPNode.id NttCisVIPNode.ip
       NttCisVIPNode.mk4 _to_pool NttCisPool.id].
  fold (add_member node pool).
  now destruct (server _ (add_member node pool)).
Qed.

Lemma attach_member_creates_node_then_member_witness :
  exists sent',
    balancer_attach_member Sample.URN Sample.server
      (LoadBalancer.mk (Some "listener-1") (Some "lb") RUNNING None (VInt 80)
         {[ "pool_id" := Some "pool-1"; "network_domain_id" := Some "nd-1" ]})
      (Member.mk None (Some "10.0.0.7") (VInt 8080)) []
    = OK (Member.mk (Some "member-1") (Some "10.0.0.7") (VInt 8080), sent')
    /\ List.map action sent'
       = [ "networkDomainVip/createNode"; "networkDomainVip/pool/pool-1";
           "networkDomainVip/addPoolMember" ].
Proof.
  eexists. split.
  - rewrite (attach_member_creates_node_then_member Sample.URN Sample.server
               (LoadBalancer.mk (Some "listener-1") (Some "lb") RUNNING None (VInt 80)
                  {[ "pool_id" := Some "pool-1"; "network_domain_id" := Some "nd-1" ]})
               (Member.mk None (Some "10.0.0.7") (VInt 8080)) []
               (Some "nd-1") (Some "pool-1") "10.0.0.7");
      [|vm_compute; reflexivity..].
    vm_compute. reflexivity.
  - vm_compute. reflexivity.
Defined.

(** X14.  The members of a balancer are listed from the pool it records:
    [balancer_list_members] sends one GET for the pool members of
    [extra["pool_id"]] and returns, for each pool member of the answer,
    a member with that pool member's [id], [ip] and [port], in order; a
    pool member that does not convert fails the whole listing. *)
Theorem list_members_reads_the_pool TYPES_URN server (int_other : string -> result Z)
    (balancer : LoadBalancer.t) (pool_id : option string) (sent : list Request) :
  LoadBalancer.extra balancer !! "pool_id" = Some pool_id ->
  let get_members :=
    mkRequest (percent_s "networkDomainVip/poolMember?poolId=" pool_id) "GET" None None in
  balancer_list_members TYPES_URN server int_other balancer sent
  = match server sent get_members with
    | OK answer =>
        match _to_members TYPES_URN int_other answer with
        | OK pool_members =>
            OK (List.map
                  (fun pool_member =>
                     Member.mk (NttCisPoolMember.id pool_member)
                       (NttCisPoolMember.ip pool_member)
                       (NttCisPoolMember.port pool_member))
                  pool_members,
                (sent ++ [get_members])%list)
        | Raise e => Raise e
        end
    | Raise e => Raise e
    end.
Proof.
  intros Hpool get_members. unfold balancer_list_members, extra_item. rewrite Hpool.
  unfold bind at 1, lift at 1. unfold bind at 1. unfold ex_get_pool_members.
  rewrite get_request. fold get_members.
  destruct (server sent get_members) as [answer|e]; [|reflexivity].
  unfold lift. destruct (_to_members TYPES_URN int_other answer); [|reflexivity].
  unfold ret. now rewrite for_append_map.
Qed.

Lemma list_members_reads_the_pool_witness :
  balancer_list_members Sample.URN
    (fun _ _ => OK (Sample.elem "poolMembers" ∅ None [Sample.poolMember]))
    Sample.int_other
    (LoadBalancer.mk (Some "listener-1") (Some "lb") RUNNING None (VInt 80)
       {[ "pool_id" := Some "pool-1" ]}) []
  = OK ([Member.mk (Some "member-1") (Some "10.0.0.1") (VInt 80)],
        [mkRequest "networkDomainVip/poolMember?poolId=pool-1" "GET" None None]).
Proof.
  rewrite (list_members_reads_the_pool Sample.URN
             (fun _ _ => OK (Sample.elem "poolMembers" ∅ None [Sample.poolMember]))
             Sample.int_other
             (LoadBalancer.mk (Some "listener-1") (Some "lb") RUNNING None (VInt 80)
                {[ "pool_id" := Some "pool-1" ]}) (Some "pool-1") []);
    vm_compute; reflexivity.
Defined.

(** X15.  A balancer whose [extra] lacks the key is refused before any
    request: [balancer_list_members] and [balancer_attach_member] raise
    [KeyError] without [pool_id], resp. [network_domain_id], whatever the
    service would answer; and [balancer_attach_member] raises [TypeError]
    for a member without an address. *)
Theorem members_need_the_recorded_pool TYPES_URN server (int_other : string -> result Z)
    (balancer : LoadBalancer.t) (member : Member.t) (sent : list Request) :
  (LoadBalancer.extra balancer !! "pool_id" = None ->
   balancer_list_members TYPES_URN server int_other balancer sent = Raise KeyError)
  /\ (LoadBalancer.extra balancer !! "network_domain_id" = None ->
      balancer_attach_member TYPES_URN server balancer member sent = Raise KeyError)
  /\ (forall domain,
        LoadBalancer.extra balancer !! "network_domain_id" = Some domain ->
        Member.ip member = None ->
        exists msg,
          balancer_attach_member TYPES_URN server balancer member sent
          = Raise (TypeError msg)).
Proof.
  split; [|split].
  - intros Hmissing. unfold balancer_list_members, extra_item. now rewrite Hmissing.
  - intros Hmissing. unfold balancer_attach_member, extra_item. now rewrite Hmissing.
  - intros domain Hdomain Hip. unfold balancer_attach_member, extra_item.
    rewrite Hdomain, Hip. eexists. reflexivity.
Qed.

(** X16.  [__init__], before it hands over to the base class: an unknown
    region (or none) without a host is refused with [ValueError]; an
    unknown region is refused with [KeyError] even when a host is given,
    so a host alone helps only when the region is [None]; a region of the
    table is selected whether a host is given or not. *)
Theorem init_selects_region (Endpoint : Type) (API_ENDPOINTS : gmap string Endpoint)
    (network_domain_id host region : option string) :
  __init__ Endpoint API_ENDPOINTS network_domain_id host region
  = match region with
    | None =>
        match host with
        | None => Raise (ValueError "Invalid region: None, no host specified")
        | Some _ => OK (mkDriver network_domain_id, None)
        end
    | Some r =>
        match API_ENDPOINTS !! r with
        | Some endpoint => OK (mkDriver network_domain_id, Some endpoint)
        | None =>
            match host with
            | None => Raise (ValueError ("Invalid region: " +:+ r +:+ ", no host specified"))
            | Some _ => Raise KeyError
            end
        end
    end.
Proof.
  unfold __init__. destruct region as [r|]; cbn [mbind option_bind str of_text].
  - destruct (API_ENDPOINTS !! r) as [endpoint|] eqn:Hr.
    + rewrite bool_decide_eq_false_2 by discriminate. reflexivity.
    + rewrite bool_decide_eq_true_2 by reflexivity. now destruct host.
  - rewrite bool_decide_eq_true_2 by reflexivity. now destruct host.
Qed.

(** X17.  [_to_irule] needs the [irule] child: without it the conversion
    raises [AttributeError]; with it the rule has the child's [id] and
    [name] and one compatible listener per [virtualListenerCompatibility]
    child of the element, in order.  [_to_irules] converts every
    [defaultIrule] child or fails with the first exception. *)
Theorem to_irule_needs_irule_child TYPES_URN (element object : ET.Element) :
  (ET.find element (Xml.fixxpath "irule" TYPES_URN) = None ->
   _to_irule TYPES_URN element = Raise AttributeError)
  /\ (forall irule,
        ET.find element (Xml.fixxpath "irule" TYPES_URN) = Some irule ->
        _to_irule TYPES_URN element
        = OK (NttCisDefaultiRule.mk (ET.get irule "id") (ET.get irule "name")
                (List.map
                   (fun child =>
                      NttCisVirtualListenerCompatibility.mk
                        (ET.get child "type") (ET.get child "protocol"))
                   (Xml.findall element "virtualListenerCompatibility" TYPES_URN))))
  /\ (forall rules,
        _to_irules TYPES_URN object = OK rules
        <-> Forall2 (fun child rule => _to_irule TYPES_URN child = OK rule)
              (Xml.findall object "defaultIrule" TYPES_URN) rules).
Proof.
  split; [|split].
  - intros Hmissing. unfold _to_irule. now rewrite Hmissing.
  - intros irule Hirule. unfold _to_irule, compatible_listeners.
    rewrite Hirule, for_append_map. reflexivity.
  - intros rules. unfold _to_irules. rewrite for_append_try_spec. split.
    + now intros (zs & -> & Hzs).
    + intros Hrules. now exists rules.
Qed.

(** X18.  [ex_create_ssl_offload_profile] writes no [id] attribute, so
    its request can always be written: it sends [networkDomainId] and
    [name], then [description] and [ciphers] when given, then
    [sslDomainCertificateId] in every case, then [sslCertificateChainId]
    when given; its result is read off the [responseCode] of the answer. *)
Theorem create_ssl_offload_profile_request TYPES_URN server
    (netowrk_domain_id : option string) (name : string)
    (ssl_domain_cert_id description ciphers ssl_cert_chain_id : option string)
    (sent : list Request) :
  let optional (tag : string) (text : option string) :=
    match text with
    | Some _ => [ ET.mkElement tag ∅ text [] ]
    | None => []
    end in
  let create :=
    mkRequest "networkDomainVip/createSslOffloadProfile" "POST" None
      (Some (ET.mkElement "createSslOffloadProfile" {[ "xmlns" := Some TYPES_URN ]} None
               ([ ET.mkElement "networkDomainId" ∅ netowrk_domain_id [];
                  ET.mkElement "name" ∅ (Some name) [] ]
                ++ optional "description" description
                ++ optional "ciphers" ciphers
                ++ [ ET.mkElement "sslDomainCertificateId" ∅ ssl_domain_cert_id [] ]
                ++ optional "sslCertificateChainId" ssl_cert_chain_id)%list)) in
  ex_create_ssl_offload_profile TYPES_URN server netowrk_domain_id name
    ssl_domain_cert_id description ciphers ssl_cert_chain_id sent
  = match server sent create with
    | OK answer =>
        OK (in_list (Xml.findtext answer "responseCode" TYPES_URN) ["IN_PROGRESS"; "OK"],
            (sent ++ [create])%list)
    | Raise e => Raise e
    end.
Proof.
  intros optional create. unfold ex_create_ssl_offload_profile.
  rewrite post_request by serializable_ok.
  replace (mkRequest "networkDomainVip/createSslOffloadProfile" "POST" None (Some _))
    with create
    by (subst create optional; destruct description, ciphers, ssl_cert_chain_id; reflexivity).
  reflexivity.
Qed.
